(** * protoc-gen-redact: the rule-resolution engine

    A shallow embedding of the field, message and service resolvers of
    protoc-gen-redact (fields.go, errors.go and the module's Process file)
    together with the properties its specification states about them. *)

From Stdlib Require Import ZArith NArith String Ascii List Bool Lia DecimalString.
From Stdlib Require Import DecimalPos DecimalN FinFun.
Import ListNotations.
Local Open Scope string_scope.

(* ================================================================== *)
(** * Outcomes and Go error values *)
(* ================================================================== *)

(** [m.Fail] and [m.Failf] hand the message to the plugin host's debugger,
    which logs it and exits the process: the statements the source writes
    after them are marked unreachable there.  A resolver step therefore
    either produces its record or stops the run with a message. *)
Inductive result (A : Type) : Type :=
| Ok (a : A)
| Failed (msg : string).

Arguments Ok {A} a.
Arguments Failed {A} msg.

Definition bind {A B : Type} (r : result A) (k : A -> result B) : result B :=
  match r with
  | Ok a => k a
  | Failed msg => Failed msg
  end.

Notation "x <- r ;; k" := (bind r (fun x => k))
  (at level 61, r at next level, right associativity).

Definition is_ok {A : Type} (r : result A) : bool :=
  match r with Ok _ => true | Failed _ => false end.

(** [s != ""] *)
Definition nonEmpty (s : string) : bool := negb (String.eqb s "").

(** [fmt.Sprintf("%d", n)] for an unsigned and for a signed integer. *)
Definition fmt_u (n : N) : string := NilZero.string_of_uint (N.to_uint n).
Definition fmt_d (z : Z) : string := NilZero.string_of_int (Z.to_int z).

(** [fmt.Sprintf("%v", b)] for a bool. *)
Definition fmt_b (b : bool) : string := if b then "true" else "false".

Module ErrorContext.
Record t : Type := mk {
  Location : string;
  Field : string;
  Type_ : string;
  Rule : string;
  Reason : string
}.

(** [func (e ErrorContext) Error() string] *)
Definition Error (e : t) : string :=
  if nonEmpty (Location e) && nonEmpty (Field e) then
    "[" ++ Location e ++ "." ++ Field e ++ "] " ++ Reason e
  else if nonEmpty (Location e) then
    "[" ++ Location e ++ "] " ++ Reason e
  else Reason e.
End ErrorContext.

Module ValidationError.
Record t : Type := mk {
  Entity : string;
  Expected : string;
  Got : string;
  Hint : string
}.

(** [func (v ValidationError) Error() string] *)
Definition Error (v : t) : string :=
  let msg := "Validation failed for " ++ Entity v in
  let msg := if nonEmpty (Expected v) then msg ++ ": expected " ++ Expected v else msg in
  let msg := if nonEmpty (Got v) then msg ++ ", got " ++ Got v else msg in
  let msg := if nonEmpty (Hint v) then msg ++ " (hint: " ++ Hint v ++ ")" else msg in
  msg.
End ValidationError.

(** The dynamic type of a non-nil Go [error] in this package; a nil error
    is [None] of [option error]. *)
Inductive error : Type :=
| ErrContext (e : ErrorContext.t)
| ErrValidation (v : ValidationError.t)
| Errorf (msg : string).

Definition Error (e : error) : string :=
  match e with
  | ErrContext c => ErrorContext.Error c
  | ErrValidation v => ValidationError.Error v
  | Errorf msg => msg
  end.

(* ================================================================== *)
(** * Schema kinds and labels (pgs.ProtoType, pgs.ProtoLabel) *)
(* ================================================================== *)

Inductive ProtoType : Type :=
| DoubleT | FloatT | Int64T | UInt64T | Int32T | Fixed64T | Fixed32T
| BoolT | StringT | GroupT | MessageT | BytesT | UInt32T | EnumT
| SFixed32 | SFixed64 | SInt32 | SInt64.

Inductive ProtoLabel : Type :=
| Optional | Required | Repeated.

(** The descriptor numbers of the kinds; 0 is no kind and is the zero value
    of a [pgs.ProtoType] variable that was never assigned. *)
Definition ProtoType_number (k : ProtoType) : Z :=
  match k with
  | DoubleT => 1 | FloatT => 2 | Int64T => 3 | UInt64T => 4 | Int32T => 5
  | Fixed64T => 6 | Fixed32T => 7 | BoolT => 8 | StringT => 9 | GroupT => 10
  | MessageT => 11 | BytesT => 12 | UInt32T => 13 | EnumT => 14
  | SFixed32 => 15 | SFixed64 => 16 | SInt32 => 17 | SInt64 => 18
  end%Z.

Definition ProtoType_eqb (a b : ProtoType) : bool :=
  Z.eqb (ProtoType_number a) (ProtoType_number b).

Definition ProtoLabel_eqb (a b : ProtoLabel) : bool :=
  match a, b with
  | Optional, Optional | Required, Required | Repeated, Repeated => true
  | _, _ => false
  end.

(** A kind or label slot of a [RuleInfo]: [None] is Go's zero value. *)
Definition optType_eqb (a : option ProtoType) (b : ProtoType) : bool :=
  match a with Some k => ProtoType_eqb k b | None => false end.

Definition optLabel_eqb (a : option ProtoLabel) (b : ProtoLabel) : bool :=
  match a with Some l => ProtoLabel_eqb l b | None => false end.

(** [ProtoType.String()]: the descriptor's enum names. *)
Definition ProtoType_String (k : ProtoType) : string :=
  match k with
  | DoubleT => "TYPE_DOUBLE" | FloatT => "TYPE_FLOAT" | Int64T => "TYPE_INT64"
  | UInt64T => "TYPE_UINT64" | Int32T => "TYPE_INT32" | Fixed64T => "TYPE_FIXED64"
  | Fixed32T => "TYPE_FIXED32" | BoolT => "TYPE_BOOL" | StringT => "TYPE_STRING"
  | GroupT => "TYPE_GROUP" | MessageT => "TYPE_MESSAGE" | BytesT => "TYPE_BYTES"
  | UInt32T => "TYPE_UINT32" | EnumT => "TYPE_ENUM" | SFixed32 => "TYPE_SFIXED32"
  | SFixed64 => "TYPE_SFIXED64" | SInt32 => "TYPE_SINT32" | SInt64 => "TYPE_SINT64"
  end.

Definition optType_String (k : option ProtoType) : string :=
  match k with Some k => ProtoType_String k | None => "0" end.

(** The one-character string holding a double quote. *)
Definition dquote : string := String (ascii_of_nat 34) EmptyString.

(** Modelled from the spec: [RedactionDefaults], the default-value table of
    section 4.1, whose source file is not among the sources (fields.go calls
    it and redactor_test.go tabulates it).  The deprecated group kind, which
    the spec leaves out, follows TestRedactionDefaults. *)
Definition RedactionDefaults (typ : ProtoType) (isCollection : bool) : string :=
  if isCollection then "nil"
  else match typ with
       | Int32T | Int64T | UInt32T | UInt64T | SInt32 | SInt64
       | Fixed32T | Fixed64T | SFixed32 | SFixed64
       | FloatT | DoubleT | EnumT => "0"
       | BoolT => "false"
       | StringT => dquote ++ "REDACTED" ++ dquote
       | BytesT | GroupT => "nil"
       | MessageT => "-"
       end.

(** Modelled from the spec: [ToCustomRule], the suggested rule spelling of
    section 4.3 (a)-(b), whose source file is not among the sources:
    a container label asks for an element rule, a message kind for a message
    rule, a scalar kind for the rule of its own name (TestToCustomRule). *)
Definition ToCustomRule (typ : ProtoType) (lab : ProtoLabel) : string :=
  if ProtoLabel_eqb lab Repeated then "(redact.custom).element.*"
  else match typ with
       | FloatT => "(redact.custom).float"
       | DoubleT => "(redact.custom).double"
       | Int32T => "(redact.custom).int32"
       | Int64T => "(redact.custom).int64"
       | UInt32T => "(redact.custom).uint32"
       | UInt64T => "(redact.custom).uint64"
       | SInt32 => "(redact.custom).sint32"
       | SInt64 => "(redact.custom).sint64"
       | Fixed32T => "(redact.custom).fixed32"
       | Fixed64T => "(redact.custom).fixed64"
       | SFixed32 => "(redact.custom).sfixed32"
       | SFixed64 => "(redact.custom).sfixed64"
       | BoolT => "(redact.custom).bool"
       | StringT => "(redact.custom).string"
       | BytesT => "(redact.custom).bytes"
       | EnumT => "(redact.custom).enum"
       | MessageT => "(redact.custom).message.*"
       | GroupT => "(redact.redact)"
       end.

(** [goTypeName] *)
Definition goTypeName (pt : ProtoType) : string :=
  match pt with
  | Int32T => "int32"
  | Int64T => "int64"
  | UInt32T => "uint32"
  | UInt64T => "uint64"
  | SInt32 => "int32"
  | SInt64 => "int64"
  | Fixed32T => "uint32"
  | Fixed64T => "uint64"
  | SFixed32 => "int32"
  | SFixed64 => "int64"
  | FloatT => "float32"
  | DoubleT => "float64"
  | BoolT => "bool"
  | StringT => "string"
  | BytesT => "[]byte"
  | _ => ""
  end.

(* ================================================================== *)
(** * The annotation payload (redact.FieldRules) *)
(* ================================================================== *)

(** [redact.MessageRules]: three independent flags. *)
Module MessageRules.
Record t : Type := mk {
  Skip : bool;
  Nil : bool;
  Empty : bool
}.
End MessageRules.

(** [redact.FieldRules], its [Values] oneof and [redact.ElementRules].
    A floating-point payload is carried by the text [%v] prints for it. *)
Inductive FieldRules : Type :=
| mkFieldRules (Values : option FieldRulesValues)
with FieldRulesValues : Type :=
| FieldRules_Float (Float : string)
| FieldRules_Double (Double : string)
| FieldRules_Int32 (Int32 : Z)
| FieldRules_Int64 (Int64 : Z)
| FieldRules_Uint32 (Uint32 : N)
| FieldRules_Uint64 (Uint64 : N)
| FieldRules_Sint32 (Sint32 : Z)
| FieldRules_Sint64 (Sint64 : Z)
| FieldRules_Fixed32 (Fixed32 : N)
| FieldRules_Fixed64 (Fixed64 : N)
| FieldRules_Sfixed32 (Sfixed32 : Z)
| FieldRules_Sfixed64 (Sfixed64 : Z)
| FieldRules_Bool (Bool : bool)
| FieldRules_String_ (String_ : string)
| FieldRules_Bytes (Bytes : string)
| FieldRules_Enum (Enum : Z)
| FieldRules_Message (Message : option MessageRules.t)
| FieldRules_Element (Element : option ElementRules)
with ElementRules : Type :=
| mkElementRules (Nested : bool) (Empty : bool) (Item : option FieldRules).

Definition Values (r : FieldRules) : option FieldRulesValues :=
  match r with mkFieldRules v => v end.

Definition Nested (r : ElementRules) : bool :=
  match r with mkElementRules n _ _ => n end.

Definition Empty (r : ElementRules) : bool :=
  match r with mkElementRules _ e _ => e end.

Definition Item (r : ElementRules) : option FieldRules :=
  match r with mkElementRules _ _ i => i end.

(** [rules.GetElement()]: nil unless the populated branch is the element one. *)
Definition GetElement (r : FieldRules) : option ElementRules :=
  match Values r with
  | Some (FieldRules_Element e) => e
  | _ => None
  end.

(* ================================================================== *)
(** * The schema as the reflection library hands it over *)
(* ================================================================== *)

(** What the resolvers read of a schema entity: the Go name and import path
    the build context gives it ([m.ctx.Name], [m.ctx.ImportPath]), its name
    in the schema and its fully qualified name. *)
Module Entity.
Record t : Type := mk {
  Name : string;
  ImportPath : string;
  SchemaName : string;
  FullyQualifiedName : string
}.
End Entity.

(** [typ.Element()] of a repeated or map field. *)
Module ElementType.
Record t : Type := mk {
  ProtoType_ : ProtoType;
  IsEmbed : bool;
  Embed : option Entity.t
}.
End ElementType.

(** [pgs.FieldType], with the Go spellings the build context gives for the
    field's type and for its map key. *)
Module FieldType.
Record t : Type := mk {
  ProtoType_ : ProtoType;
  ProtoLabel_ : ProtoLabel;
  IsMap : bool;
  IsRepeated : bool;
  IsEmbed : bool;
  Embed : option Entity.t;
  Element : option ElementType.t;
  GoType : string;
  GoKeyType : string
}.
End FieldType.

(** [pgs.Field].  [E_Redact] is the bare (redact.redact) option and
    [E_Value] the structured rule, each [None] when the option is not set on
    the field. *)
Module Field.
Record t : Type := mk {
  Name : string;
  GoName : string;
  FullyQualifiedName : string;
  MessageFQN : string;
  Type_ : option FieldType.t;
  InOneOf : bool;
  OneOfIsSynthetic : bool;
  E_Redact : option bool;
  E_Value : option FieldRules
}.
End Field.

Module Message.
Record t : Type := mk {
  Self : Entity.t;
  E_Ignored : option bool;
  E_Nil : option bool;
  E_Empty : option bool;
  Fields : list Field.t
}.
End Message.

Module Method.
Record t : Type := mk {
  Self : Entity.t;
  Input : option Message.t;
  Output : option Message.t;
  ClientStreaming : bool;
  ServerStreaming : bool;
  E_MethodSkip : option bool;
  E_InternalMethod : option bool;
  E_InternalMethodCode : option N;
  E_InternalMethodErrMessage : option string
}.
End Method.

Module Service.
Record t : Type := mk {
  Self : Entity.t;
  Methods : list Method.t;
  E_ServiceSkip : option bool;
  E_InternalService : option bool;
  E_InternalServiceCode : option N;
  E_InternalServiceErrMessage : option string
}.
End Service.

(** [ok, err := x.Extension(desc, &out)] on an already decoded option:
    [ok] tells whether the option is set, [out] is overwritten only then,
    and [err] is nil, so that [m.must(ok, err)] is [ok]. *)
Definition Extension {A : Type} (opt : option A) (out : A) : bool * A :=
  match opt with
  | Some v => (true, v)
  | None => (false, out)
  end.

(* ================================================================== *)
(** * Decision records *)
(* ================================================================== *)

Module FieldData.
Record t : Type := mk {
  Name : string;
  Redact : bool;
  RedactionValue : string;
  FieldGoType : string;
  IsMap : bool;
  IsRepeated : bool;
  IsMessage : bool;
  IsOptional : bool;
  Iterate : bool;
  NestedEmbedCall : bool;
  EmbedSkip : bool;
  EmbedMessageName : string;
  EmbedMessageNameWithAlias : string
}.

(** The assignments the field resolver makes to a record it has built. *)
Definition set_Redact (v : bool) (d : t) : t :=
  mk (Name d) v (RedactionValue d) (FieldGoType d) (IsMap d) (IsRepeated d)
     (IsMessage d) (IsOptional d) (Iterate d) (NestedEmbedCall d) (EmbedSkip d)
     (EmbedMessageName d) (EmbedMessageNameWithAlias d).

Definition set_RedactionValue (v : string) (d : t) : t :=
  mk (Name d) (Redact d) v (FieldGoType d) (IsMap d) (IsRepeated d)
     (IsMessage d) (IsOptional d) (Iterate d) (NestedEmbedCall d) (EmbedSkip d)
     (EmbedMessageName d) (EmbedMessageNameWithAlias d).

Definition set_Iterate (v : bool) (d : t) : t :=
  mk (Name d) (Redact d) (RedactionValue d) (FieldGoType d) (IsMap d) (IsRepeated d)
     (IsMessage d) (IsOptional d) v (NestedEmbedCall d) (EmbedSkip d)
     (EmbedMessageName d) (EmbedMessageNameWithAlias d).

Definition set_NestedEmbedCall (v : bool) (d : t) : t :=
  mk (Name d) (Redact d) (RedactionValue d) (FieldGoType d) (IsMap d) (IsRepeated d)
     (IsMessage d) (IsOptional d) (Iterate d) v (EmbedSkip d)
     (EmbedMessageName d) (EmbedMessageNameWithAlias d).

Definition set_EmbedSkip (v : bool) (d : t) : t :=
  mk (Name d) (Redact d) (RedactionValue d) (FieldGoType d) (IsMap d) (IsRepeated d)
     (IsMessage d) (IsOptional d) (Iterate d) (NestedEmbedCall d) v
     (EmbedMessageName d) (EmbedMessageNameWithAlias d).

Definition set_Embed (name withAlias : string) (d : t) : t :=
  mk (Name d) (Redact d) (RedactionValue d) (FieldGoType d) (IsMap d) (IsRepeated d)
     (IsMessage d) (IsOptional d) (Iterate d) (NestedEmbedCall d) (EmbedSkip d)
     name withAlias.
End FieldData.

Module MessageData.
Record t : Type := mk {
  Name : string;
  WithAlias : string;
  Fields : list FieldData.t;
  Ignore : bool;
  ToNil : bool;
  ToEmpty : bool
}.
End MessageData.

Module MethodData.
Record t : Type := mk {
  Name : string;
  Skip : bool;
  Input : string;
  Output : MessageData.t;
  Internal : bool;
  StatusCode : string;
  ErrMessage : string;
  ClientStreaming : bool;
  ServerStreaming : bool
}.
End MethodData.

Module ServiceData.
Record t : Type := mk {
  Name : string;
  Skip : bool;
  Methods : list MethodData.t
}.
End ServiceData.

(* ================================================================== *)
(** * Validation layer (errors.go) *)
(* ================================================================== *)

(** [validateField] *)
Definition validateField (field : option Field.t) : option error :=
  match field with
  | None => Some (Errorf "field is nil")
  | Some f =>
      match Field.Type_ f with
      | None => Some (Errorf ("field " ++ Field.Name f ++ " has nil type"))
      | Some _ => None
      end
  end.

(** [validateMessage] *)
Definition validateMessage (msg : option Message.t) : option error :=
  match msg with
  | None => Some (Errorf "message is nil")
  | Some msg =>
      let ignore := snd (Extension (Message.E_Ignored msg) false) in
      let toNil := snd (Extension (Message.E_Nil msg) false) in
      let toEmpty := snd (Extension (Message.E_Empty msg) false) in
      let conflictCount := 0%nat in
      let conflictCount := if ignore then S conflictCount else conflictCount in
      let conflictCount := if toNil then S conflictCount else conflictCount in
      let conflictCount := if toEmpty then S conflictCount else conflictCount in
      if Nat.ltb 1 conflictCount then
        Some (ErrValidation (ValidationError.mk
          ("message " ++ Entity.FullyQualifiedName (Message.Self msg))
          "at most one of (redact.ignored), (redact.nil), or (redact.empty)"
          ("multiple options set (ignored=" ++ fmt_b ignore ++ ", nil=" ++ fmt_b toNil
             ++ ", empty=" ++ fmt_b toEmpty ++ ")")
          "these options are mutually exclusive"))
      else None
  end.

(** [codes.PermissionDenied] and [codes.Unauthenticated] *)
Definition PermissionDenied : N := 7.
Definition Unauthenticated : N := 16.

(** [validateStatusCode]; the code is a uint32. *)
Definition validateStatusCode (code : N) (location : string) : option error :=
  if N.ltb Unauthenticated code then
    Some (ErrValidation (ValidationError.mk
      ("status code in " ++ location)
      "valid gRPC status code (0-16)"
      (fmt_u code)
      "see https://grpc.io/docs/guides/status-codes/ for valid codes"))
  else None.

(** [validateService] *)
Definition validateService (srv : option Service.t) : option error :=
  match srv with
  | None => Some (Errorf "service is nil")
  | Some srv =>
      let '(ok, srvCode) := Extension (Service.E_InternalServiceCode srv) PermissionDenied in
      if ok then
        match validateStatusCode srvCode (Entity.FullyQualifiedName (Service.Self srv)) with
        | Some err => Some err
        | None => None
        end
      else None
  end.

(** [validateMethod] *)
Definition validateMethod (meth : option Method.t) : option error :=
  match meth with
  | None => Some (Errorf "method is nil")
  | Some meth =>
      match Method.Input meth with
      | None => Some (Errorf ("method " ++ Entity.SchemaName (Method.Self meth) ++ " has nil input"))
      | Some _ =>
      match Method.Output meth with
      | None => Some (Errorf ("method " ++ Entity.SchemaName (Method.Self meth) ++ " has nil output"))
      | Some _ =>
          let '(ok, methCode) := Extension (Method.E_InternalMethodCode meth) PermissionDenied in
          if ok then
            match validateStatusCode methCode (Entity.FullyQualifiedName (Method.Self meth)) with
            | Some err => Some err
            | None => None
            end
          else None
      end
      end
  end.

(** [validateTypeMatch]; [typ] is [field.Type()]. *)
Definition validateTypeMatch (field : Field.t) (fieldType : FieldType.t)
    (ruleType : option ProtoType) (ruleLabel : option ProtoLabel) : option error :=
  match ruleType with
  | Some rt =>
      if negb (ProtoType_eqb rt (FieldType.ProtoType_ fieldType)) then
        Some (ErrValidation (ValidationError.mk
          ("field " ++ Field.FullyQualifiedName field)
          ("rule for type " ++ ProtoType_String (FieldType.ProtoType_ fieldType))
          ("rule for type " ++ ProtoType_String rt)
          ("use " ++ ToCustomRule (FieldType.ProtoType_ fieldType)
                                  (FieldType.ProtoLabel_ fieldType) ++ " instead")))
      else
        if ProtoLabel_eqb (FieldType.ProtoLabel_ fieldType) Repeated
           && negb (optLabel_eqb ruleLabel Repeated) then
          Some (ErrValidation (ValidationError.mk
            ("repeated field " ++ Field.FullyQualifiedName field)
            "(redact.custom).element.*"
            "non-repeated rule"
            "repeated fields require element rules"))
        else None
  | None =>
      if ProtoLabel_eqb (FieldType.ProtoLabel_ fieldType) Repeated
         && negb (optLabel_eqb ruleLabel Repeated) then
        Some (ErrValidation (ValidationError.mk
          ("repeated field " ++ Field.FullyQualifiedName field)
          "(redact.custom).element.*"
          "non-repeated rule"
          "repeated fields require element rules"))
      else None
  end.

(** [failWithInvalidType]: the message handed to [m.Fail]. *)
Definition failWithInvalidType {A : Type} (field : Field.t) (typ : FieldType.t) : result A :=
  let want := ToCustomRule (FieldType.ProtoType_ typ) (FieldType.ProtoLabel_ typ) in
  Failed (Error (ErrValidation (ValidationError.mk
    (Field.FullyQualifiedName field)
    want
    "incompatible redaction rule type"
    ("ensure the rule type matches the field type ("
       ++ ProtoType_String (FieldType.ProtoType_ typ) ++ ")")))).

(** What a nil dereference ends in: the panic is recovered by the enclosing
    resolver and reported through [m.Failf]. *)
Definition nilPanic : string :=
  "runtime error: invalid memory address or nil pointer dereference".

(** [failWithContext]; it reads the kind off [field.Type()]. *)
Definition failWithContext {A : Type} (field : Field.t) (reason : string) : result A :=
  match Field.Type_ field with
  | None => Failed nilPanic
  | Some typ =>
      Failed (Error (ErrContext (ErrorContext.mk
        (Field.MessageFQN field)
        (Field.Name field)
        (ProtoType_String (FieldType.ProtoType_ typ))
        ""
        reason)))
  end.

(** The hint [failWithNestedError] appends to its message. *)
Definition nestedHint : string :=
  String (ascii_of_nat 10) (String (ascii_of_nat 10) "Hint: Use either:")
  ++ String (ascii_of_nat 10) "  - (redact.custom).element.nested for iteration"
  ++ String (ascii_of_nat 10) "  - (redact.custom).element.item.* for custom item values"
  ++ String (ascii_of_nat 10) "  - (redact.custom).element.empty for empty list".

(** [failWithNestedError] *)
Definition failWithNestedError {A : Type} (field : Field.t) : result A :=
  match Field.Type_ field with
  | None => Failed nilPanic
  | Some typ =>
      let err := ErrorContext.mk
        (Field.MessageFQN field)
        (Field.Name field)
        (ProtoType_String (FieldType.ProtoType_ typ))
        ""
        "nested element.item.element... is not supported - maximum nesting depth is 1" in
      Failed (ErrorContext.Error err ++ nestedHint)
  end.

(** [validateRules] *)
Definition validateRules (rules : option FieldRules) (field : Field.t) : option error :=
  match rules with
  | None => None
  | Some rules =>
      match Values rules with
      | None =>
          Some (ErrValidation (ValidationError.mk
            (Field.FullyQualifiedName field)
            "redaction rule with values"
            "empty rule"
            "define a value for the custom redaction rule"))
      | Some (FieldRules_Message None) =>
          Some (ErrValidation (ValidationError.mk
            (Field.FullyQualifiedName field)
            "message rule definition"
            "nil message rule"
            "use (redact.custom).message.nil, .empty, or .skip"))
      | Some (FieldRules_Element None) =>
          Some (ErrValidation (ValidationError.mk
            (Field.FullyQualifiedName field)
            "element rule definition"
            "nil element rule"
            "use (redact.custom).element.nested, .empty, or .item.*"))
      | Some (FieldRules_Element (Some elem)) =>
          match Item elem with
          | Some item =>
              match Values item with
              | Some (FieldRules_Element _) =>
                  Some (ErrValidation (ValidationError.mk
                    (Field.FullyQualifiedName field)
                    "single-level element nesting"
                    "element.item.element"
                    "nested element rules are not supported"))
              | _ => None
              end
          | None => None
          end
      | Some _ => None
      end
  end.

(* ================================================================== *)
(** * Rule-shape classifier and field resolver (fields.go) *)
(* ================================================================== *)

(** The dynamic value a [RuleInfo] carries in its [interface{}] slot. *)
Inductive GoValue : Type :=
| NilValue
| FloatValue (shown : string)
| IntValue (z : Z)
| UintValue (n : N)
| BoolValue (b : bool)
| StringValue (s : string).

(** [fmt.Sprintf("%v", v)] *)
Definition fmt_v (v : GoValue) : string :=
  match v with
  | NilValue => "<nil>"
  | FloatValue shown => shown
  | IntValue z => fmt_d z
  | UintValue n => fmt_u n
  | BoolValue b => fmt_b b
  | StringValue s => s
  end.

Module RuleInfo.
Record t : Type := mk {
  RedactionValue : GoValue;
  ProtoType_ : option ProtoType;
  ProtoLabel_ : option ProtoLabel
}.
End RuleInfo.

(** [RuleInformation] *)
Definition RuleInformation (rules : FieldRules) : result RuleInfo.t :=
  match Values rules with
  | Some (FieldRules_Float v) => Ok (RuleInfo.mk (FloatValue v) (Some FloatT) None)
  | Some (FieldRules_Double v) => Ok (RuleInfo.mk (FloatValue v) (Some DoubleT) None)
  | Some (FieldRules_Int32 v) => Ok (RuleInfo.mk (IntValue v) (Some Int32T) None)
  | Some (FieldRules_Int64 v) => Ok (RuleInfo.mk (IntValue v) (Some Int64T) None)
  | Some (FieldRules_Uint32 v) => Ok (RuleInfo.mk (UintValue v) (Some UInt32T) None)
  | Some (FieldRules_Uint64 v) => Ok (RuleInfo.mk (UintValue v) (Some UInt64T) None)
  | Some (FieldRules_Sint32 v) => Ok (RuleInfo.mk (IntValue v) (Some SInt32) None)
  | Some (FieldRules_Sint64 v) => Ok (RuleInfo.mk (IntValue v) (Some SInt64) None)
  | Some (FieldRules_Fixed32 v) => Ok (RuleInfo.mk (UintValue v) (Some Fixed32T) None)
  | Some (FieldRules_Fixed64 v) => Ok (RuleInfo.mk (UintValue v) (Some Fixed64T) None)
  | Some (FieldRules_Sfixed32 v) => Ok (RuleInfo.mk (IntValue v) (Some SFixed32) None)
  | Some (FieldRules_Sfixed64 v) => Ok (RuleInfo.mk (IntValue v) (Some SFixed64) None)
  | Some (FieldRules_Bool v) => Ok (RuleInfo.mk (BoolValue v) (Some BoolT) None)
  | Some (FieldRules_String_ v) =>
      Ok (RuleInfo.mk (StringValue ("`" ++ v ++ "`")) (Some StringT) None)
  | Some (FieldRules_Bytes v) =>
      Ok (RuleInfo.mk (StringValue ("[]byte(`" ++ v ++ "`)")) (Some BytesT) None)
  | Some (FieldRules_Enum v) => Ok (RuleInfo.mk (IntValue v) (Some EnumT) None)
  | Some (FieldRules_Message None) =>
      Failed "(redact.custom).message is nil, no option defined"
  | Some (FieldRules_Message (Some _)) => Ok (RuleInfo.mk NilValue (Some MessageT) None)
  | Some (FieldRules_Element None) =>
      Failed "(redact.custom).element is nil, no option defined"
  | Some (FieldRules_Element (Some _)) => Ok (RuleInfo.mk NilValue None (Some Repeated))
  | None => Failed "Something went wrong"
  end.

(** The two mismatch exits of [redactedCustomValue]: the error of
    [validateTypeMatch] when it finds one, [failWithInvalidType] otherwise. *)
Definition failTypeMatch {A : Type} (field : Field.t) (typ : FieldType.t)
    (info : RuleInfo.t) : result A :=
  match validateTypeMatch field typ (RuleInfo.ProtoType_ info) (RuleInfo.ProtoLabel_ info) with
  | Some err => Failed (Error err)
  | None => failWithInvalidType field typ
  end.

(** [redactedCustomValue]; the record is passed by pointer in the source and
    is returned here as updated. *)
Definition redactedCustomValue (flData : FieldData.t) (field : Field.t)
    (fieldRules : option FieldRules) : result FieldData.t :=
  match fieldRules with
  | None => Failed ("Internal error: nil fieldRules for field " ++ Field.FullyQualifiedName field)
  | Some fieldRules =>
  match Field.Type_ field with
  | None => failWithContext field "field type is nil"
  | Some typ =>
    info <- RuleInformation fieldRules ;;
    if match RuleInfo.ProtoType_ info with
       | Some rt => negb (ProtoType_eqb rt (FieldType.ProtoType_ typ))
       | None => false
       end
    then failTypeMatch field typ info
    else if ProtoLabel_eqb (FieldType.ProtoLabel_ typ) Repeated
            && negb (optLabel_eqb (RuleInfo.ProtoLabel_ info) Repeated)
    then failTypeMatch field typ info
    else if negb (optType_eqb (RuleInfo.ProtoType_ info) MessageT)
            && negb (optLabel_eqb (RuleInfo.ProtoLabel_ info) Repeated)
    then Ok (FieldData.set_RedactionValue (fmt_v (RuleInfo.RedactionValue info)) flData)
    else if optType_eqb (RuleInfo.ProtoType_ info) MessageT then
      match Values fieldRules with
      | Some (FieldRules_Message (Some rule)) =>
          let flData := FieldData.set_RedactionValue "nil" flData in
          if MessageRules.Empty rule then
            Ok (FieldData.set_RedactionValue
                  ("&" ++ FieldData.EmbedMessageNameWithAlias flData ++ "{}") flData)
          else if MessageRules.Nil rule then
            Ok (FieldData.set_RedactionValue "nil" flData)
          else if MessageRules.Skip rule then
            Ok (FieldData.set_EmbedSkip true flData)
          else Ok (FieldData.set_NestedEmbedCall true flData)
      | Some (FieldRules_Message None) => Failed nilPanic
      | _ => Failed ("Invalid message rule type for field " ++ Field.Name field)
      end
    else
      match Values fieldRules with
      | Some (FieldRules_Element (Some rule)) =>
          if Empty rule then
            if negb (nonEmpty (FieldData.EmbedMessageNameWithAlias flData)) then
              Ok (FieldData.set_RedactionValue (FieldType.GoType typ ++ "{}") flData)
            else if FieldData.IsRepeated flData then
              Ok (FieldData.set_RedactionValue
                    ("[]*" ++ FieldData.EmbedMessageNameWithAlias flData ++ "{}") flData)
            else
              Ok (FieldData.set_RedactionValue
                    ("map[" ++ FieldType.GoKeyType typ ++ "]*"
                       ++ FieldData.EmbedMessageNameWithAlias flData ++ "{}") flData)
          else if Nested rule then
            match FieldType.Element typ with
            | None => Failed nilPanic
            | Some ele =>
                let flData := FieldData.set_Iterate true flData in
                let flData := FieldData.set_RedactionValue
                                (RedactionDefaults (ElementType.ProtoType_ ele) false) flData in
                if ElementType.IsEmbed ele
                then Ok (FieldData.set_NestedEmbedCall true flData)
                else Ok flData
            end
          else
            match Item rule with
            | Some rules =>
                match Values rules with
                | Some values =>
                    match GetElement rules with
                    | Some _ => failWithNestedError field
                    | None =>
                        info <- RuleInformation rules ;;
                        match FieldType.Element typ with
                        | None => Failed nilPanic
                        | Some ele =>
                            if negb (optType_eqb (RuleInfo.ProtoType_ info)
                                                 (ElementType.ProtoType_ ele))
                            then failWithInvalidType field typ
                            else
                              let flData := FieldData.set_Iterate true flData in
                              let flData := FieldData.set_RedactionValue "nil" flData in
                              if negb (optType_eqb (RuleInfo.ProtoType_ info) MessageT) then
                                Ok (FieldData.set_RedactionValue
                                      (fmt_v (RuleInfo.RedactionValue info)) flData)
                              else
                                match values with
                                | FieldRules_Message (Some rule) =>
                                    let flData := FieldData.set_RedactionValue "nil" flData in
                                    if MessageRules.Empty rule then
                                      Ok (FieldData.set_RedactionValue
                                            ("&" ++ FieldData.EmbedMessageNameWithAlias flData
                                                 ++ "{}") flData)
                                    else if MessageRules.Nil rule then
                                      Ok (FieldData.set_RedactionValue "nil" flData)
                                    else if MessageRules.Skip rule then
                                      Ok (FieldData.set_EmbedSkip true flData)
                                    else Ok (FieldData.set_NestedEmbedCall true flData)
                                | FieldRules_Message None => Failed nilPanic
                                | _ => Failed ("Invalid message rule type for field "
                                                 ++ Field.Name field)
                                end
                        end
                    end
                | None => Ok flData
                end
            | None => Ok flData
            end
      | Some (FieldRules_Element None) => Failed nilPanic
      | _ => Failed ("Invalid element rule type for field " ++ Field.Name field)
      end
  end
  end.

(** [processFields]; [nameWithAlias] qualifies an embedded type's name with
    its import alias.  The local [_redact] is never assigned in the source:
    the read of the bare (redact.redact) option is commented out there. *)
Definition processFields (field : option Field.t)
    (nameWithAlias : Entity.t -> string) : result FieldData.t :=
  match validateField field with
  | Some err => Failed ("Invalid field: " ++ Error err)
  | None =>
  match field with
  | None => Failed nilPanic
  | Some field =>
  match Field.Type_ field with
  | None => failWithContext field "field has nil type"
  | Some typ =>
    let hasExplicitOptional := Field.InOneOf field && Field.OneOfIsSynthetic field in
    let isOptional :=
      hasExplicitOptional && negb (ProtoType_eqb (FieldType.ProtoType_ typ) BytesT) in
    let flData := FieldData.mk
      (Field.GoName field) false "" (goTypeName (FieldType.ProtoType_ typ))
      (FieldType.IsMap typ) (FieldType.IsRepeated typ) (FieldType.IsEmbed typ)
      isOptional false false false "" "" in
    let em :=
      match FieldType.Embed typ with
      | Some em => Some em
      | None =>
          match FieldType.Element typ with
          | Some ele => ElementType.Embed ele
          | None => None
          end
      end in
    let flData :=
      match em with
      | Some em => FieldData.set_Embed (Entity.Name em) (nameWithAlias em) flData
      | None => flData
      end in
    let _redact := false in
    let '(ok, fieldRules) := Extension (Field.E_Value field) (mkFieldRules None) in
    if negb ok then Ok flData
    else
      match validateRules (Some fieldRules) field with
      | Some err => Failed (Error err)
      | None =>
          match Values fieldRules with
          | None =>
              if negb _redact then Ok flData
              else
                let flData := FieldData.set_Redact true flData in
                let flData := FieldData.set_RedactionValue
                  (RedactionDefaults (FieldType.ProtoType_ typ)
                     (FieldType.IsRepeated typ || FieldType.IsMap typ)) flData in
                if FieldType.IsEmbed typ
                then Ok (FieldData.set_NestedEmbedCall true flData)
                else Ok flData
          | Some _ =>
              let flData := FieldData.set_Redact true flData in
              let flData := FieldData.set_RedactionValue
                (RedactionDefaults (FieldType.ProtoType_ typ)
                   (FieldType.IsRepeated typ || FieldType.IsMap typ)) flData in
              redactedCustomValue flData field (Some fieldRules)
          end
      end
  end
  end
  end.

(* ================================================================== *)
(** * Message resolver *)
(* ================================================================== *)

(** A loop that appends one resolved record per element and stops at the
    first failure. *)
Fixpoint forEach {A B : Type} (body : A -> result B) (xs : list A) : result (list B) :=
  match xs with
  | [] => Ok []
  | x :: xs' =>
      y <- body x ;;
      ys <- forEach body xs' ;;
      Ok (y :: ys)
  end.

(** [processMessage]; [wantFields] is the variadic argument. *)
Definition processMessage (msg : option Message.t)
    (nameWithAlias : Entity.t -> string) (wantFields : list bool) : result MessageData.t :=
  match validateMessage msg with
  | Some err => Failed ("Cannot process message: " ++ Error err)
  | None =>
  match msg with
  | None => Failed nilPanic
  | Some msg =>
      let name := Entity.Name (Message.Self msg) in
      let withAlias := nameWithAlias (Message.Self msg) in
      let ignore := snd (Extension (Message.E_Ignored msg) false) in
      if ignore then Ok (MessageData.mk name withAlias [] true false false)
      else
        let toNil := snd (Extension (Message.E_Nil msg) false) in
        let toEmpty := snd (Extension (Message.E_Empty msg) false) in
        if Nat.ltb 0 (List.length wantFields) then
          fields <- forEach (fun field => processFields (Some field) nameWithAlias)
                            (Message.Fields msg) ;;
          Ok (MessageData.mk name withAlias fields ignore toNil toEmpty)
        else Ok (MessageData.mk name withAlias [] ignore toNil toEmpty)
  end
  end.

(* ================================================================== *)
(** * Service and method resolver *)
(* ================================================================== *)

Definition defaultErrMsg : string :=
  "Permission Denied. Method: " ++ dquote ++ "%service%.%method%" ++ dquote
  ++ " has been redacted".
Definition specifierMethod : string := "%method%".
Definition specifierService : string := "%service%".

(** [strings.HasPrefix] *)
Fixpoint HasPrefix (s prefix : string) {struct prefix} : bool :=
  match prefix with
  | EmptyString => true
  | String p prefix' =>
      match s with
      | EmptyString => false
      | String c s' => Ascii.eqb c p && HasPrefix s' prefix'
      end
  end.

(** The scan of [strings.ReplaceAll] for a non-empty [old]: left to right,
    an occurrence found at the scanning position is replaced and the scan
    resumes after it; [skip] counts the bytes of that occurrence still to
    pass over. *)
Fixpoint replaceScan (old new : string) (skip : nat) (s : string) : string :=
  match s with
  | EmptyString => EmptyString
  | String c s' =>
      match skip with
      | S k => replaceScan old new k s'
      | O =>
          if HasPrefix s old
          then new ++ replaceScan old new (String.length old - 1) s'
          else String c (replaceScan old new 0 s')
      end
  end.

(** For an empty [old] the replacement goes before every byte and at the
    end (Go places it around UTF-8 sequences; the resolver never asks). *)
Fixpoint intersperse (new s : string) : string :=
  match s with
  | EmptyString => new
  | String c s' => new ++ String c (intersperse new s')
  end.

(** [strings.ReplaceAll] *)
Definition ReplaceAll (s old new : string) : string :=
  match old with
  | EmptyString => intersperse new s
  | String _ _ => replaceScan old new 0 s
  end.

(** [codes.Code(c).String()] *)
Definition Code_String (c : N) : string :=
  match c with
  | 0 => "OK"
  | 1 => "Canceled"
  | 2 => "Unknown"
  | 3 => "InvalidArgument"
  | 4 => "DeadlineExceeded"
  | 5 => "NotFound"
  | 6 => "AlreadyExists"
  | 7 => "PermissionDenied"
  | 8 => "ResourceExhausted"
  | 9 => "FailedPrecondition"
  | 10 => "Aborted"
  | 11 => "OutOfRange"
  | 12 => "Unimplemented"
  | 13 => "Internal"
  | 14 => "Unavailable"
  | 15 => "DataLoss"
  | 16 => "Unauthenticated"
  | _ => "Code(" ++ fmt_u c ++ ")"
  end%N.

(** The two [strings.ReplaceAll] calls that apply the format specifiers. *)
Definition applySpecifiers (methErrMsg methName srvName : string) : string :=
  let methErrMsg := ReplaceAll methErrMsg specifierMethod methName in
  let methErrMsg := ReplaceAll methErrMsg specifierService srvName in
  methErrMsg.

(** The body of the loop over [srv.Methods()] in [processService], with the
    service-level values it reads from the enclosing scope. *)
Definition processMethod (srvName : string) (srvSkip srvInternal : bool)
    (srvCode : N) (srvErrMsg : string) (nameWithAlias : Entity.t -> string)
    (meth : Method.t) : result MethodData.t :=
  match validateMethod (Some meth) with
  | Some err =>
      Failed ("Cannot process method " ++ Entity.FullyQualifiedName (Method.Self meth)
                ++ ": " ++ Error err)
  | None =>
  match Method.Input meth with
  | None =>
      Failed ("Method " ++ Entity.FullyQualifiedName (Method.Self meth)
                ++ " has nil input message")
  | Some in_ =>
  match Method.Output meth with
  | None =>
      Failed ("Method " ++ Entity.FullyQualifiedName (Method.Self meth)
                ++ " has nil output message")
  | Some out =>
      output <- processMessage (Some out) nameWithAlias [] ;;
      let methData := MethodData.mk
        (Entity.Name (Method.Self meth)) false (nameWithAlias (Message.Self in_)) output
        false "" "" (Method.ClientStreaming meth) (Method.ServerStreaming meth) in
      let methSkip := snd (Extension (Method.E_MethodSkip meth) false) in
      if methSkip || srvSkip then
        Ok (MethodData.mk
              (MethodData.Name methData) true (MethodData.Input methData)
              (MethodData.Output methData) (MethodData.Internal methData)
              (MethodData.StatusCode methData) (MethodData.ErrMessage methData)
              (MethodData.ClientStreaming methData) (MethodData.ServerStreaming methData))
      else
        let methInternal := snd (Extension (Method.E_InternalMethod meth) false) in
        let '(ok, methCode) := Extension (Method.E_InternalMethodCode meth) srvCode in
        let methCode := if negb ok then srvCode else methCode in
        match validateStatusCode methCode (Entity.FullyQualifiedName (Method.Self meth)) with
        | Some err => Failed (Error err)
        | None =>
            let '(ok, methErrMsg) := Extension (Method.E_InternalMethodErrMessage meth) srvErrMsg in
            let methErrMsg := if negb ok then srvErrMsg else methErrMsg in
            let methErrMsg := applySpecifiers methErrMsg (MethodData.Name methData) srvName in
            Ok (MethodData.mk
                  (MethodData.Name methData) (MethodData.Skip methData)
                  (MethodData.Input methData) (MethodData.Output methData)
                  (srvInternal || methInternal)
                  (Code_String methCode)
                  ("`" ++ methErrMsg ++ "`")
                  (MethodData.ClientStreaming methData) (MethodData.ServerStreaming methData))
        end
  end
  end
  end.

(** [processService] *)
Definition processService (srv : option Service.t)
    (nameWithAlias : Entity.t -> string) : result ServiceData.t :=
  match validateService srv with
  | Some err => Failed ("Cannot process service: " ++ Error err)
  | None =>
  match srv with
  | None => Failed nilPanic
  | Some srv =>
      let name := Entity.Name (Service.Self srv) in
      let srvSkip := snd (Extension (Service.E_ServiceSkip srv) false) in
      let srvInternal := snd (Extension (Service.E_InternalService srv) false) in
      let '(ok, srvCode) := Extension (Service.E_InternalServiceCode srv) PermissionDenied in
      let srvCode := if negb ok then PermissionDenied else srvCode in
      match validateStatusCode srvCode (Entity.FullyQualifiedName (Service.Self srv)) with
      | Some err => Failed (Error err)
      | None =>
          let '(ok, srvErrMsg) := Extension (Service.E_InternalServiceErrMessage srv) "" in
          let srvErrMsg := if negb ok then defaultErrMsg else srvErrMsg in
          methods <- forEach (processMethod name srvSkip srvInternal srvCode srvErrMsg
                                            nameWithAlias)
                             (Service.Methods srv) ;;
          Ok (ServiceData.mk name srvSkip methods)
      end
  end
  end.

(* ================================================================== *)
(** * Vocabulary of the properties *)
(* ================================================================== *)

(** The kinds the default-value table treats as numbers. *)
Definition numericKinds : list ProtoType :=
  [Int32T; Int64T; UInt32T; UInt64T; SInt32; SInt64; Fixed32T; Fixed64T;
   SFixed32; SFixed64; FloatT; DoubleT; EnumT].

(** The value a boolean option reads as: unset is false. *)
Definition flag (o : option bool) : bool :=
  match o with Some b => b | None => false end.

(** How many of the three message-level options are true. *)
Definition optionsSet (msg : Message.t) : nat :=
  List.length (filter (fun b => b)
    [flag (Message.E_Ignored msg); flag (Message.E_Nil msg); flag (Message.E_Empty msg)]).

(** The error the spec calls ConflictingMessageOptions. *)
Definition ConflictingMessageOptions (msg : Message.t) : error :=
  ErrValidation (ValidationError.mk
    ("message " ++ Entity.FullyQualifiedName (Message.Self msg))
    "at most one of (redact.ignored), (redact.nil), or (redact.empty)"
    ("multiple options set (ignored=" ++ fmt_b (flag (Message.E_Ignored msg))
       ++ ", nil=" ++ fmt_b (flag (Message.E_Nil msg))
       ++ ", empty=" ++ fmt_b (flag (Message.E_Empty msg)) ++ ")")
    "these options are mutually exclusive").

(** The error the spec calls InvalidStatusCode. *)
Definition InvalidStatusCode (code : N) (location : string) : error :=
  ErrValidation (ValidationError.mk
    ("status code in " ++ location)
    "valid gRPC status code (0-16)"
    (fmt_u code)
    "see https://grpc.io/docs/guides/status-codes/ for valid codes").

(** A status-code option that, when set, lies in the valid interval. *)
Definition codeValid (o : option N) : bool :=
  match o with Some c => N.leb c 16 | None => true end.

(** A method the service resolver accepts: input and output present, the
    output's options not in conflict, the method's own code valid. *)
Definition methodValid (meth : Method.t) : bool :=
  match Method.Input meth, Method.Output meth with
  | Some _, Some out =>
      Nat.leb (optionsSet out) 1 && codeValid (Method.E_InternalMethodCode meth)
  | _, _ => false
  end.

(** A service the service resolver accepts. *)
Definition serviceValid (srv : Service.t) : bool :=
  codeValid (Service.E_InternalServiceCode srv)
  && forallb methodValid (Service.Methods srv).

(** The record the message resolver builds when no field is asked for. *)
Definition outputOf (msg : Message.t) (nameWithAlias : Entity.t -> string) : MessageData.t :=
  let ignore := flag (Message.E_Ignored msg) in
  MessageData.mk
    (Entity.Name (Message.Self msg)) (nameWithAlias (Message.Self msg)) []
    ignore
    (if ignore then false else flag (Message.E_Nil msg))
    (if ignore then false else flag (Message.E_Empty msg)).

(** The code a method that is not skipped resolves to: its own when set,
    the service's otherwise. *)
Definition methodCode (meth : Method.t) (srvCode : N) : N :=
  match Method.E_InternalMethodCode meth with Some c => c | None => srvCode end.

(** The template a method that is not skipped resolves: its own when set,
    the service's otherwise. *)
Definition methodTemplate (meth : Method.t) (srvErrMsg : string) : string :=
  match Method.E_InternalMethodErrMessage meth with Some t => t | None => srvErrMsg end.

(** The code and template a service hands down to its methods. *)
Definition serviceCode (srv : Service.t) : N :=
  match Service.E_InternalServiceCode srv with Some c => c | None => PermissionDenied end.

Definition serviceTemplate (srv : Service.t) : string :=
  match Service.E_InternalServiceErrMessage srv with Some t => t | None => defaultErrMsg end.

(** ** A sample schema: the Chat service of the README *)

Definition plainName (e : Entity.t) : string := Entity.Name e.

Definition userMessage : Message.t :=
  Message.mk (Entity.mk "User" "user/pb" "User" "user.User") None None None [].

Definition getUserRequest : Message.t :=
  Message.mk (Entity.mk "GetUserRequest" "user/pb" "GetUserRequest" "user.GetUserRequest") None None None [].

Definition getUser : Method.t :=
  Method.mk (Entity.mk "GetUser" "user/pb" "GetUser" "user.Chat.GetUser")
    (Some getUserRequest) (Some userMessage) false false None None None None.

Definition getUserInternal : Method.t :=
  Method.mk (Entity.mk "GetUserInternal" "user/pb" "GetUserInternal" "user.Chat.GetUserInternal")
    (Some getUserRequest) (Some userMessage) false false (Some true) None None None.

Definition listUsers : Method.t :=
  Method.mk (Entity.mk "ListUsers" "user/pb" "ListUsers" "user.Chat.ListUsers")
    (Some getUserRequest) (Some userMessage) false true None (Some true) (Some 16%N) None.

Definition chat (skip : option bool) : Service.t :=
  Service.mk (Entity.mk "Chat" "user/pb" "Chat" "user.Chat")
    [getUser; getUserInternal; listUsers] skip None (Some 5%N) None.

(** An element rule whose item rule is an element rule. *)
Definition elementOfElement (nested empty : bool) (inner : option ElementRules)
  : FieldRules :=
  mkFieldRules (Some (FieldRules_Element (Some (mkElementRules nested empty
    (Some (mkFieldRules (Some (FieldRules_Element inner)))))))).

(** ** Sample fields of a message user.User *)

Definition singular (kind : ProtoType) (goType : string) : FieldType.t :=
  FieldType.mk kind Optional false false false None None goType "".

Definition profileEntity : Entity.t := Entity.mk "Profile" "user/pb" "Profile" "user.Profile".

Definition embedded (em : Entity.t) : FieldType.t :=
  FieldType.mk MessageT Optional false false true (Some em) None
    ("*" ++ Entity.Name em) "".

Definition repeatedOf (kind : ProtoType) (goType : string) : FieldType.t :=
  FieldType.mk kind Repeated false true false None
    (Some (ElementType.mk kind false None)) ("[]" ++ goType) "".

(** [string password = 2 [(redact.redact) = true];] *)
Definition passwordField : Field.t :=
  Field.mk "password" "Password" "user.User.password" "user.User"
    (Some (singular StringT "string")) false false (Some true) None.

(** [optional Profile profile = 6;] *)
Definition optionalProfileField : Field.t :=
  Field.mk "profile" "Profile" "user.User.profile" "user.User"
    (Some (embedded profileEntity)) true true None None.

(** [Profile profile = 6 [(redact.custom).message.skip = true];] *)
Definition skippedProfileField : Field.t :=
  Field.mk "profile" "Profile" "user.User.profile" "user.User"
    (Some (embedded profileEntity)) false false None
    (Some (mkFieldRules (Some (FieldRules_Message
       (Some (MessageRules.mk true false false)))))).

(** [repeated string tags = 7 [(redact.custom).element.item.element.nested = true];] *)
Definition nestedTagsField : Field.t :=
  Field.mk "tags" "Tags" "user.User.tags" "user.User"
    (Some (repeatedOf StringT "string")) false false None
    (Some (elementOfElement false false (Some (mkElementRules true false None)))).

(** [strings.Contains] *)
Fixpoint Contains (s substr : string) : bool :=
  HasPrefix s substr
  || match s with
     | EmptyString => false
     | String _ s' => Contains s' substr
     end.

(** The error the validation layer raises for an element rule whose item is
    an element rule (the spec's NestedDepthExceeded). *)
Definition NestedDepthExceeded (field : Field.t) : error :=
  ErrValidation (ValidationError.mk
    (Field.FullyQualifiedName field)
    "single-level element nesting"
    "element.item.element"
    "nested element rules are not supported").

(** A failure message that lists the three legal element rules. *)
Definition enumeratesAlternatives (msg : string) : bool :=
  Contains msg "(redact.custom).element.nested"
  && Contains msg "(redact.custom).element.item.*"
  && Contains msg "(redact.custom).element.empty".

(** The nesting-depth property as the spec words it: the resolution of a
    field whose element rule has an element rule as its item fails, and the
    failure message lists the three legal alternatives. *)
Definition nestedDepthAsStated : Prop :=
  forall (field : Field.t) (typ : FieldType.t) (nested empty : bool)
         (inner : option ElementRules) (nameWithAlias : Entity.t -> string),
    Field.Type_ field = Some typ ->
    Field.E_Value field = Some (elementOfElement nested empty inner) ->
    exists msg,
      processFields (Some field) nameWithAlias = Failed msg
      /\ enumeratesAlternatives msg = true.

(** The scalar and enum kinds. *)
Definition scalarOrEnum (k : ProtoType) : bool :=
  match k with
  | MessageT | GroupT => false
  | _ => true
  end.

(** The optional-flag property as the spec words it: a decision is marked
    optional only for a singular scalar or enum field that is explicitly
    nilable, never for bytes and never together with the repeated flag. *)
Definition optionalAsStated : Prop :=
  forall (field : Field.t) (typ : FieldType.t) (nameWithAlias : Entity.t -> string)
         (d : FieldData.t),
    Field.Type_ field = Some typ ->
    processFields (Some field) nameWithAlias = Ok d ->
    FieldData.IsOptional d = true ->
    scalarOrEnum (FieldType.ProtoType_ typ) = true
    /\ FieldType.ProtoType_ typ <> BytesT
    /\ FieldData.IsRepeated d = false.

(** On a schema the compiler accepts, a member of a oneof is neither
    repeated nor a map. *)
Definition oneofMemberSingular (field : Field.t) (typ : FieldType.t) : bool :=
  negb (Field.InOneOf field) || (negb (FieldType.IsRepeated typ) && negb (FieldType.IsMap typ)).

(** The facts a decision records about the field itself, which the rule
    handling never changes. *)
Definition sameShape (a b : FieldData.t) : Prop :=
  FieldData.Name a = FieldData.Name b
  /\ FieldData.Redact a = FieldData.Redact b
  /\ FieldData.FieldGoType a = FieldData.FieldGoType b
  /\ FieldData.IsMap a = FieldData.IsMap b
  /\ FieldData.IsRepeated a = FieldData.IsRepeated b
  /\ FieldData.IsMessage a = FieldData.IsMessage b
  /\ FieldData.IsOptional a = FieldData.IsOptional b
  /\ FieldData.EmbedMessageName a = FieldData.EmbedMessageName b
  /\ FieldData.EmbedMessageNameWithAlias a = FieldData.EmbedMessageNameWithAlias b.

(** The decision the field resolver gives [optionalProfileField]. *)
Definition optionalProfileDecision : FieldData.t :=
  FieldData.mk "Profile" false "" "" false false true true false false false
    "Profile" "Profile".

(** ** Templates *)

(** No percent sign in the text. *)
Fixpoint noPercent (s : string) : bool :=
  match s with
  | EmptyString => true
  | String c s' => negb (Ascii.eqb c "%") && noPercent s'
  end.

Inductive placeholder : Type :=
| ServicePlaceholder
| MethodPlaceholder.

Definition isService (p : placeholder) : bool :=
  match p with ServicePlaceholder => true | MethodPlaceholder => false end.

(** A template laid out as pieces of text, each followed by a placeholder,
    and a last piece of text; [meth] and [svc] are what stands at the
    placeholders: the specifiers in the template itself, the names in the
    resolved message. *)
Fixpoint render (meth svc : string) (pieces : list (string * placeholder))
    (tail : string) : string :=
  match pieces with
  | [] => tail
  | (text, p) :: rest =>
      text ++ (match p with ServicePlaceholder => svc | MethodPlaceholder => meth end)
           ++ render meth svc rest tail
  end.

(** The pieces of text hold no percent sign, and the text between a service
    placeholder and the placeholder after it is not the word method (which
    would read as a method placeholder between the two percent signs). *)
Fixpoint unambiguous (afterService : bool) (pieces : list (string * placeholder)) : bool :=
  match pieces with
  | [] => true
  | (text, p) :: rest =>
      noPercent text
      && negb (afterService && String.eqb text "method")
      && unambiguous (isService p) rest
  end.

(** The same layout with text that may hold percent signs of its own: no
    specifier starts inside a piece of text or inside the last piece, so
    the placeholders are the only occurrences, and what stands behind a
    service placeholder does not start with the word method and a percent
    sign (which would read as a method specifier from the percent sign that
    closes the service specifier). *)
Fixpoint separated (afterService : bool) (pieces : list (string * placeholder))
    (tail : string) : bool :=
  match pieces with
  | [] =>
      negb (Contains tail specifierMethod)
      && negb (Contains tail specifierService)
      && negb (afterService && HasPrefix tail "method%")
  | (text, p) :: rest =>
      negb (Contains (text ++ "%") specifierMethod)
      && negb (Contains (text ++ "%") specifierService)
      && negb (afterService && HasPrefix (text ++ "%") "method%")
      && separated (isService p) rest tail
  end.

(** The least the spec's wording asks of the substitution: a template in
    which a placeholder occurs resolves to a message that holds the name
    put in its place. *)
Definition everyOccurrenceReplaced : Prop :=
  forall (template methName srvName : string),
    (Contains template specifierService = true ->
       Contains (applySpecifiers template methName srvName) srvName = true)
    /\ (Contains template specifierMethod = true ->
       Contains (applySpecifiers template methName srvName) methName = true).

(* ================================================================== *)
(** * File level: names, imports and the per-file driver *)
(* ================================================================== *)

(** [validateImportPath] *)
Definition validateImportPath (path : string) : option error :=
  if String.eqb path "" then Some (Errorf "import path is empty")
  else if Nat.ltb 1000 (String.length path) then
    Some (Errorf ("import path too long: "
                    ++ fmt_d (Z.of_nat (String.length path)) ++ " characters"))
  else None.

(** [c >= '0' && c <= '9'] *)
Definition isDigit (c : ascii) : bool :=
  Nat.leb 48 (nat_of_ascii c) && Nat.leb (nat_of_ascii c) 57.

(** The loop of [validatePackageName] over the name, [i] being the index the
    loop is at.  The source ranges over the characters of the name; its test
    looks at index 0 only, where a digit is a single byte, so that ranging
    over the bytes gives the same answer. *)
Fixpoint packageNameLoop (name : string) (i : nat) (rest : string) : option error :=
  match rest with
  | EmptyString => None
  | String c rest' =>
      if Nat.eqb i 0 && isDigit c then
        Some (ErrValidation (ValidationError.mk
          "package name"
          "identifier starting with letter or underscore"
          ("name starting with digit: " ++ name)
          "package names cannot start with numbers"))
      else packageNameLoop name (S i) rest'
  end.

(** [validatePackageName] *)
Definition validatePackageName (name : string) : option error :=
  if String.eqb name "" then Some (Errorf "package name is empty")
  else packageNameLoop name 0 name.

(** A file as an import of another: what [importPaths] and [references]
    read of it. *)
Module ImportedFile.
Record t : Type := mk {
  ImportPath : string;
  PackageName : string;
  AllMessages : list (option Entity.t);
  AllEnums : list (option Entity.t);
  Services : list (option Entity.t)
}.
End ImportedFile.

(** [pgs.File] as [Process] reads it. *)
Module File.
Record t : Type := mk {
  Name : string;
  Package : option string;
  ImportPath : string;
  PackageName : string;
  E_FileSkip : option bool;
  Imports : list (option ImportedFile.t);
  Services : list Service.t;
  AllMessages : list Message.t
}.
End File.

(** [validateFile] *)
Definition validateFile (file : option File.t) : option error :=
  match file with
  | None => Some (Errorf "file is nil")
  | Some file =>
      match File.Package file with
      | None => Some (Errorf ("file " ++ File.Name file ++ " has no package"))
      | Some _ => None
      end
  end.

(** A Go [map[string]string]: the binding of a key is the first pair that
    holds it, and an assignment puts its pair in front. *)
Definition stringMap : Type := list (string * string).

Fixpoint lookup (m : stringMap) (k : string) : option string :=
  match m with
  | [] => None
  | (k', v) :: m' => if String.eqb k k' then Some v else lookup m' k
  end.

Definition assign (k v : string) (m : stringMap) : stringMap := (k, v) :: m.

(** [_, ok := m[k]] *)
Definition hasKey (m : stringMap) (k : string) : bool :=
  match lookup m k with Some _ => true | None => false end.

(** [m[k]], the empty string for a missing key. *)
Definition valueAt (m : stringMap) (k : string) : string :=
  match lookup m k with Some v => v | None => "" end.

Definition standardPath2Alias : stringMap :=
  [("context", "context");
   ("google.golang.org/grpc", "grpc");
   ("google.golang.org/grpc/codes", "codes");
   ("google.golang.org/grpc/status", "status");
   ("github.com/menta2k/protoc-gen-redact/v3/redact/v3", "redact")].

Definition standardAlias2Path : stringMap :=
  [("context", "context");
   ("grpc", "google.golang.org/grpc");
   ("codes", "google.golang.org/grpc/codes");
   ("status", "google.golang.org/grpc/status");
   ("redact", "github.com/menta2k/protoc-gen-redact/v3/redact/v3")].

(** [strconv.Itoa] of a counter that only counts up from 0. *)
Definition Itoa (cnt : N) : string := fmt_u cnt.

(** The loop [for ok { cnt++; _, ok = alias2Path[alias+strconv.Itoa(cnt)] }]
    entered with [ok] true and [cnt] one less than the argument: it returns
    the first count from [cnt] on whose alias is free.  [fuel] bounds the
    number of turns. *)
Fixpoint aliasSearch (alias2Path : stringMap) (alias : string) (fuel : nat) (cnt : N)
  : option N :=
  match fuel with
  | O => None
  | S fuel' =>
      if hasKey alias2Path (alias ++ Itoa cnt)
      then aliasSearch alias2Path alias fuel' (cnt + 1)
      else Some cnt
  end.

(** The alias an import gets: the package name when it is free, and the
    package name with the first free count behind it otherwise.  One turn
    more than the map has pairs is enough for the search
    ([aliasSearch_finds]). *)
Definition resolveAlias (alias2Path : stringMap) (alias : string) : option string :=
  if hasKey alias2Path alias then
    match aliasSearch alias2Path alias (S (List.length alias2Path)) 1 with
    | Some cnt => Some (alias ++ Itoa cnt)
    | None => None
    end
  else Some alias.

(** [len(imp.AllMessages()) > 0 || len(imp.AllEnums()) > 0 || len(imp.Services()) > 0] *)
Definition hasUsableTypes (imp : ImportedFile.t) : bool :=
  Nat.ltb 0 (List.length (ImportedFile.AllMessages imp))
  || Nat.ltb 0 (List.length (ImportedFile.AllEnums imp))
  || Nat.ltb 0 (List.length (ImportedFile.Services imp)).

(** One turn of the loop over [file.Imports()] in [importPaths], on the two
    maps. *)
Definition importStep (self : string) (maps : stringMap * stringMap)
    (imp : option ImportedFile.t) : stringMap * stringMap :=
  let '(path2Alias, alias2Path) := maps in
  match imp with
  | None => maps
  | Some imp =>
      let path := ImportedFile.ImportPath imp in
      match validateImportPath path with
      | Some _ => maps
      | None =>
          if String.eqb self path then maps
          else if hasKey path2Alias path then maps
          else if negb (hasUsableTypes imp) then maps
          else
            let alias := ImportedFile.PackageName imp in
            match validatePackageName alias with
            | Some _ => maps
            | None =>
                match resolveAlias alias2Path alias with
                | Some alias => (assign path alias path2Alias, assign alias path alias2Path)
                | None => maps
                end
            end
      end
  end.

(** [importPaths] *)
Definition importPaths (file : option File.t) : result (stringMap * stringMap) :=
  match file with
  | None => Failed "Cannot process imports: file is nil"
  | Some file =>
      let self := File.ImportPath file in
      match validateImportPath self with
      | Some err => Failed ("Invalid file import path: " ++ Error err)
      | None =>
          Ok (fold_left (importStep self) (File.Imports file)
                (standardPath2Alias, standardAlias2Path))
      end
  end.

(** The closure [nameWithAlias] that [Process] builds over [path2Alias]. *)
Definition nameWithAliasOf (path2Alias : stringMap) (n : Entity.t) : string :=
  let imp := Entity.ImportPath n in
  let name := Entity.Name n in
  let alias := valueAt path2Alias imp in
  if nonEmpty alias then alias ++ "." ++ name else name.

(** The first element of a list of entities, when the list has one and it
    is not nil. *)
Definition firstEntity (l : list (option Entity.t)) : option Entity.t :=
  match l with
  | Some e :: _ => Some e
  | _ => None
  end.

(** One turn of the loop over the imports in [references]. *)
Definition referenceStep (self : string) (nameWithAlias : Entity.t -> string)
    (refs : list string) (imp : option ImportedFile.t) : list string :=
  match imp with
  | None => refs
  | Some imp =>
      if String.eqb (ImportedFile.ImportPath imp) self then refs
      else if negb (hasUsableTypes imp) then refs
      else
        let msgL := ImportedFile.AllMessages imp in
        if Nat.ltb 0 (List.length msgL) then
          match firstEntity msgL with
          | Some e => (refs ++ [nameWithAlias e])%list
          | None => refs
          end
        else
          let enmL := ImportedFile.AllEnums imp in
          if Nat.ltb 0 (List.length enmL) then
            match firstEntity enmL with
            | Some e => (refs ++ [nameWithAlias e])%list
            | None => refs
            end
          else
            let srvL := ImportedFile.Services imp in
            if Nat.ltb 0 (List.length srvL) then
              match firstEntity srvL with
              | Some e => (refs ++ [nameWithAlias e])%list
              | None => refs
              end
            else refs
  end.

Definition standardReferences : list string :=
  ["grpc.Server"; "context.Context"; "redact.Redactor"; "codes.Code"; "status.Status"].

(** [references] *)
Definition references (file : option File.t) (nameWithAlias : Entity.t -> string)
  : list string :=
  match file with
  | None => []
  | Some file =>
      fold_left (referenceStep (File.ImportPath file) nameWithAlias)
        (File.Imports file) standardReferences
  end.

Module ProtoFileData.
Record t : Type := mk {
  Source : string;
  Package : string;
  Imports : stringMap;
  References : list string;
  Services : list ServiceData.t;
  Messages : list MessageData.t
}.
End ProtoFileData.

(** [Process], up to the hand-over of the record to the template: [None]
    is a file that is skipped, for which nothing is generated. *)
Definition Process (file : option File.t) : result (option ProtoFileData.t) :=
  match validateFile file with
  | Some err => Failed ("Cannot process file: " ++ Error err)
  | None =>
  match file with
  | None => Failed nilPanic
  | Some f =>
      let fileSkip := snd (Extension (File.E_FileSkip f) false) in
      if fileSkip then Ok None
      else
        maps <- importPaths file ;;
        let '(path2Alias, alias2Path) := maps in
        let nameWithAlias := nameWithAliasOf path2Alias in
        let refs := references file nameWithAlias in
        services <- forEach (fun srv => processService (Some srv) nameWithAlias)
                            (File.Services f) ;;
        messages <- forEach (fun msg => processMessage (Some msg) nameWithAlias [true])
                            (File.AllMessages f) ;;
        Ok (Some (ProtoFileData.mk (File.Name f) (File.PackageName f) alias2Path refs
                    services messages))
  end
  end.

(** ** More sample fields *)

(** [string email = 3 [(redact.custom).string = "r*d@ct*d"];] *)
Definition emailField : Field.t :=
  Field.mk "email" "Email" "user.User.email" "user.User"
    (Some (singular StringT "string")) false false None
    (Some (mkFieldRules (Some (FieldRules_String_ "r*d@ct*d")))).

(** [string name = 4 [(redact.custom).int32 = 7];] *)
Definition misruledNameField : Field.t :=
  Field.mk "name" "Name" "user.User.name" "user.User"
    (Some (singular StringT "string")) false false None
    (Some (mkFieldRules (Some (FieldRules_Int32 7)))).

(** [repeated string tags = 7 [(redact.custom).string = "x"];] *)
Definition misruledTagsField : Field.t :=
  Field.mk "tags" "Tags" "user.User.tags" "user.User"
    (Some (repeatedOf StringT "string")) false false None
    (Some (mkFieldRules (Some (FieldRules_String_ "x")))).

(** A repeated scalar field under an element rule. *)
Definition scoresField (rule : ElementRules) : Field.t :=
  Field.mk "scores" "Scores" "user.User.scores" "user.User"
    (Some (repeatedOf Int32T "int32")) false false None
    (Some (mkFieldRules (Some (FieldRules_Element (Some rule))))).


(** The decision as the field resolver has it before it looks at the rule:
    the facts about the field, redacted, with the default of the table. *)
Definition prefilled (field : Field.t) (typ : FieldType.t)
    (nameWithAlias : Entity.t -> string) : FieldData.t :=
  let em :=
    match FieldType.Embed typ with
    | Some em => Some em
    | None =>
        match FieldType.Element typ with
        | Some ele => ElementType.Embed ele
        | None => None
        end
    end in
  FieldData.mk
    (Field.GoName field) true
    (RedactionDefaults (FieldType.ProtoType_ typ)
       (FieldType.IsRepeated typ || FieldType.IsMap typ))
    (goTypeName (FieldType.ProtoType_ typ))
    (FieldType.IsMap typ) (FieldType.IsRepeated typ) (FieldType.IsEmbed typ)
    (Field.InOneOf field && Field.OneOfIsSynthetic field
       && negb (ProtoType_eqb (FieldType.ProtoType_ typ) BytesT))
    false false false
    (match em with Some em => Entity.Name em | None => "" end)
    (match em with Some em => nameWithAlias em | None => "" end).

(** The error a rule of one kind on a field of another kind ends in. *)
Definition TypeMismatch (field : Field.t) (typ : FieldType.t) (ruleType : ProtoType) : error :=
  ErrValidation (ValidationError.mk
    ("field " ++ Field.FullyQualifiedName field)
    ("rule for type " ++ ProtoType_String (FieldType.ProtoType_ typ))
    ("rule for type " ++ ProtoType_String ruleType)
    ("use " ++ ToCustomRule (FieldType.ProtoType_ typ) (FieldType.ProtoLabel_ typ)
            ++ " instead")).

(** The error a rule that is not an element rule ends in on a repeated or
    map field. *)
Definition LabelMismatch (field : Field.t) : error :=
  ErrValidation (ValidationError.mk
    ("repeated field " ++ Field.FullyQualifiedName field)
    "(redact.custom).element.*"
    "non-repeated rule"
    "repeated fields require element rules").

(** [message User] of the README with two of its fields, the message-level
    options being parameters. *)
Definition userWith (ignored toNil toEmpty : option bool) (fields : list Field.t)
  : Message.t :=
  Message.mk (Entity.mk "User" "user/pb" "User" "user.User") ignored toNil toEmpty fields.

(** The names [codes.Code.String] gives the seventeen status codes. *)
Definition statusNames : list string :=
  ["OK"; "Canceled"; "Unknown"; "InvalidArgument"; "DeadlineExceeded"; "NotFound";
   "AlreadyExists"; "PermissionDenied"; "ResourceExhausted"; "FailedPrecondition";
   "Aborted"; "OutOfRange"; "Unimplemented"; "Internal"; "Unavailable"; "DataLoss";
   "Unauthenticated"].

(** The default template laid out as text and placeholders. *)
Definition defaultPieces : list (string * placeholder) :=
  [("Permission Denied. Method: " ++ dquote, ServicePlaceholder); (".", MethodPlaceholder)].

Definition defaultTail : string := dquote ++ " has been redacted".

(** ** A sample file with imports *)

Definition emptyImport : ImportedFile.t :=
  ImportedFile.mk "google.golang.org/protobuf/types/known/emptypb" "emptypb"
    [Some (Entity.mk "Empty" "google.golang.org/protobuf/types/known/emptypb" "Empty"
             "google.protobuf.Empty")] [] [].

(** An import whose package is named like a standard alias. *)
Definition codesImport : ImportedFile.t :=
  ImportedFile.mk "example.com/billing/codes" "codes" []
    [Some (Entity.mk "Currency" "example.com/billing/codes" "Currency" "billing.Currency")]
    [].

(** An import that only brings annotations. *)
Definition annotationsImport : ImportedFile.t :=
  ImportedFile.mk "example.com/annotations" "annotations" [] [] [].

Definition userFile (skip : option bool) : File.t :=
  File.mk "user.proto" (Some "user") "user/pb" "user" skip
    [Some emptyImport; None; Some codesImport; Some annotationsImport]
    [chat None]
    [userWith None None None [passwordField; emailField]; getUserRequest].

(** The keys of a map, one per pair. *)
Definition keys (m : stringMap) : list string := map fst m.

(** Two maps that are each other's inverse. *)
Definition inverseMaps (path2Alias alias2Path : stringMap) : Prop :=
  forall path alias,
    lookup path2Alias path = Some alias <-> lookup alias2Path alias = Some path.

(** A map that still has every binding of another. *)
Definition extends (m0 m : stringMap) : Prop :=
  forall k v, lookup m0 k = Some v -> lookup m k = Some v.

(** An import that passes the filters of [importPaths] for a file whose own
    import path is [self]. *)
Definition importKept (self : string) (imp : ImportedFile.t) : bool :=
  match validateImportPath (ImportedFile.ImportPath imp) with
  | Some _ => false
  | None =>
      negb (String.eqb self (ImportedFile.ImportPath imp))
      && hasUsableTypes imp
      && match validatePackageName (ImportedFile.PackageName imp) with
         | Some _ => false
         | None => true
         end
  end.

(** What holds of the two maps all along the import loop. *)
Definition importMapsGood (self : string) (maps : stringMap * stringMap) : Prop :=
  inverseMaps (fst maps) (snd maps)
  /\ extends standardPath2Alias (fst maps)
  /\ extends standardAlias2Path (snd maps)
  /\ lookup (fst maps) self = lookup standardPath2Alias self
  /\ (forall k v, lookup (fst maps) k = Some v -> v <> "").

(** A file marked to be skipped whose only service could not be resolved:
    its method has no input. *)
Definition skippedBrokenFile : File.t :=
  File.mk "legacy.proto" (Some "legacy") "legacy/pb" "legacy" (Some true) []
    [Service.mk (Entity.mk "Legacy" "legacy/pb" "Legacy" "legacy.Legacy")
       [Method.mk (Entity.mk "Call" "legacy/pb" "Call" "legacy.Legacy.Call")
          None None false false None None (Some 99%N) None]
       None None (Some 99%N) None]
    [userWith (Some true) (Some true) (Some true) [nestedTagsField]].

(** What [Process] hands over for the sample file. *)
Definition userFileData : ProtoFileData.t :=
  ProtoFileData.mk "user.proto" "user"
    (("codes1", "example.com/billing/codes")
       :: ("emptypb", "google.golang.org/protobuf/types/known/emptypb")
       :: standardAlias2Path)
    ["grpc.Server"; "context.Context"; "redact.Redactor"; "codes.Code"; "status.Status";
     "emptypb.Empty"; "codes1.Currency"]
    [ServiceData.mk "Chat" false
       [MethodData.mk "GetUser" false "GetUserRequest"
          (MessageData.mk "User" "User" [] false false false) false "NotFound"
          ("`Permission Denied. Method: " ++ dquote ++ "Chat.GetUser" ++ dquote
             ++ " has been redacted`") false false;
        MethodData.mk "GetUserInternal" true "GetUserRequest"
          (MessageData.mk "User" "User" [] false false false) false "" "" false false;
        MethodData.mk "ListUsers" false "GetUserRequest"
          (MessageData.mk "User" "User" [] false false false) true "Unauthenticated"
          ("`Permission Denied. Method: " ++ dquote ++ "Chat.ListUsers" ++ dquote
             ++ " has been redacted`") false true]]
    [MessageData.mk "User" "User"
       [FieldData.mk "Password" false "" "string" false false false false
          false false false "" "";
        FieldData.mk "Email" true "`r*d@ct*d`" "string" false false false false
          false false false "" ""]
       false false false;
     MessageData.mk "GetUserRequest" "GetUserRequest" [] false false false].

(* ================================================================== *)
(** * Properties *)
(* ================================================================== *)

(** ** Default-value table *)

(** C1.  The default-value table: a singular numeric kind (the integer,
    floating point and enum kinds) defaults to "0", a singular bool to
    "false", a singular string to the quoted word REDACTED, bytes to "nil"
    whatever the collection flag, a singular message to the sentinel "-",
    and every kind to "nil" as soon as the collection flag is set. *)
Theorem RedactionDefaults_table :
  Forall (fun k => RedactionDefaults k false = "0") numericKinds
  /\ RedactionDefaults BoolT false = "false"
  /\ RedactionDefaults StringT false = dquote ++ "REDACTED" ++ dquote
  /\ (forall isCollection, RedactionDefaults BytesT isCollection = "nil")
  /\ RedactionDefaults MessageT false = "-"
  /\ (forall k, RedactionDefaults k true = "nil").
Proof.
  repeat split.
  - unfold numericKinds. repeat constructor.
  - intros [|]; reflexivity.
Qed.

(** ** Message options *)

Lemma Extension_flag (o : option bool) : snd (Extension o false) = flag o.
Proof. destruct o; reflexivity. Qed.

Lemma validateMessage_cases (msg : Message.t) :
  validateMessage (Some msg) =
  if Nat.ltb 1 (optionsSet msg) then Some (ConflictingMessageOptions msg) else None.
Proof.
  unfold validateMessage, optionsSet, ConflictingMessageOptions.
  rewrite !Extension_flag.
  destruct (flag (Message.E_Ignored msg)), (flag (Message.E_Nil msg)),
    (flag (Message.E_Empty msg)); reflexivity.
Qed.

(** C4.  For each of the eight settings of ignore, nil and empty (an unset
    option reads as false), message validation returns the
    conflicting-options error exactly when more than one of the three is
    true, and no error when none or one is; the message resolver, which
    validates first, fails in exactly those cases. *)
Theorem validateMessage_mutual_exclusivity :
  forall (msg : Message.t) (nameWithAlias : Entity.t -> string),
    let ignore := flag (Message.E_Ignored msg) in
    let toNil := flag (Message.E_Nil msg) in
    let toEmpty := flag (Message.E_Empty msg) in
    let several := (ignore && toNil) || (ignore && toEmpty) || (toNil && toEmpty) in
    validateMessage (Some msg) =
      (if several then Some (ConflictingMessageOptions msg) else None)
    /\ (validateMessage (Some msg) = None <-> (optionsSet msg <= 1)%nat)
    /\ is_ok (processMessage (Some msg) nameWithAlias []) = negb several.
Proof.
  intros msg nameWithAlias ignore toNil toEmpty several.
  assert (Hi : snd (Extension (Message.E_Ignored msg) false) = ignore)
    by apply Extension_flag.
  subst several. split; [|split].
  - rewrite validateMessage_cases. unfold optionsSet. fold ignore toNil toEmpty.
    destruct ignore, toNil, toEmpty; reflexivity.
  - rewrite validateMessage_cases. unfold optionsSet. fold ignore toNil toEmpty.
    destruct ignore, toNil, toEmpty; simpl; split; intro H;
      try reflexivity; try discriminate; try lia.
  - unfold processMessage. rewrite validateMessage_cases. unfold optionsSet.
    rewrite Hi. fold ignore toNil toEmpty.
    destruct ignore, toNil, toEmpty; reflexivity.
Qed.

(** ** Strings *)

Lemma append_assoc (a b c : string) : (a ++ b) ++ c = a ++ (b ++ c).
Proof. induction a as [|x a IH]; simpl; [reflexivity | now rewrite IH]. Qed.

Lemma append_nil_r (a : string) : a ++ "" = a.
Proof. induction a as [|x a IH]; simpl; [reflexivity | now rewrite IH]. Qed.

(** ** Status codes *)

Lemma validateStatusCode_cases (code : N) (location : string) :
  validateStatusCode code location =
  if N.leb code 16 then None else Some (InvalidStatusCode code location).
Proof.
  unfold validateStatusCode, Unauthenticated, InvalidStatusCode.
  destruct (N.ltb_spec 16 code) as [H|H], (N.leb_spec code 16) as [H'|H'];
    try reflexivity; lia.
Qed.

Lemma validateStatusCode_None (code : N) (location : string) :
  validateStatusCode code location = None <-> (code <= 16)%N.
Proof.
  rewrite validateStatusCode_cases.
  destruct (N.leb_spec code 16) as [H|H]; split; intro H0;
    try reflexivity; try discriminate; try assumption; lia.
Qed.

(** The message of the status-code error starts by naming the location. *)
Lemma InvalidStatusCode_names_location (code : N) (location : string) :
  exists rest,
    Error (InvalidStatusCode code location) =
    "Validation failed for status code in " ++ location ++ rest.
Proof.
  unfold InvalidStatusCode, Error, ValidationError.Error. cbn [ValidationError.Entity
    ValidationError.Expected ValidationError.Got ValidationError.Hint].
  change (nonEmpty "valid gRPC status code (0-16)") with true.
  change (nonEmpty "see https://grpc.io/docs/guides/status-codes/ for valid codes") with true.
  cbv iota.
  destruct (nonEmpty (fmt_u code)); eexists;
    rewrite ?append_assoc; simpl; rewrite ?append_assoc; reflexivity.
Qed.

(** ** The message resolver without fields *)

Lemma processMessage_nofields (msg : Message.t) (nameWithAlias : Entity.t -> string) :
  processMessage (Some msg) nameWithAlias [] =
  if Nat.leb (optionsSet msg) 1 then Ok (outputOf msg nameWithAlias)
  else Failed ("Cannot process message: " ++ Error (ConflictingMessageOptions msg)).
Proof.
  unfold processMessage, outputOf. rewrite validateMessage_cases.
  unfold optionsSet. rewrite !Extension_flag.
  destruct (flag (Message.E_Ignored msg)), (flag (Message.E_Nil msg)),
    (flag (Message.E_Empty msg)); reflexivity.
Qed.

(** ** One method *)

Section Method.
Variables (srvName : string) (srvSkip srvInternal : bool) (srvCode : N)
  (srvErrMsg : string) (nameWithAlias : Entity.t -> string).

Let resolve := processMethod srvName srvSkip srvInternal srvCode srvErrMsg nameWithAlias.

(** A method given a code of its own above 16 is refused, and the message
    names the method. *)
Lemma processMethod_invalid_code (meth : Method.t) (in_ out : Message.t) (c : N) :
  Method.Input meth = Some in_ ->
  Method.Output meth = Some out ->
  Method.E_InternalMethodCode meth = Some c ->
  (16 < c)%N ->
  resolve meth =
  Failed ("Cannot process method " ++ Entity.FullyQualifiedName (Method.Self meth) ++ ": "
            ++ Error (InvalidStatusCode c (Entity.FullyQualifiedName (Method.Self meth)))).
Proof.
  intros Hin Hout Hc Hlt. unfold resolve, processMethod, validateMethod.
  rewrite Hin, Hout, Hc. cbn [Extension].
  rewrite validateStatusCode_cases.
  destruct (N.leb_spec c 16) as [H|H]; [lia | reflexivity].
Qed.

(** What a method decision holds when the resolver produces one. *)
Lemma processMethod_Ok (meth : Method.t) (d : MethodData.t) :
  resolve meth = Ok d ->
  MethodData.Name d = Entity.Name (Method.Self meth)
  /\ MethodData.Skip d = flag (Method.E_MethodSkip meth) || srvSkip
  /\ (MethodData.Skip d = true ->
        MethodData.Internal d = false
        /\ MethodData.StatusCode d = ""
        /\ MethodData.ErrMessage d = "")
  /\ (MethodData.Skip d = false ->
        (methodCode meth srvCode <= 16)%N
        /\ MethodData.Internal d = srvInternal || flag (Method.E_InternalMethod meth)
        /\ MethodData.StatusCode d = Code_String (methodCode meth srvCode)
        /\ MethodData.ErrMessage d =
             "`" ++ applySpecifiers (methodTemplate meth srvErrMsg)
                      (Entity.Name (Method.Self meth)) srvName ++ "`").
Proof.
  unfold resolve, processMethod, methodCode, methodTemplate.
  destruct (validateMethod (Some meth)); [discriminate|].
  destruct (Method.Input meth) as [in_|]; [|discriminate].
  destruct (Method.Output meth) as [out|]; [|discriminate].
  rewrite processMessage_nofields.
  destruct (Nat.leb (optionsSet out) 1); [|discriminate].
  cbn [bind]. rewrite !Extension_flag.
  destruct (flag (Method.E_MethodSkip meth) || srvSkip) eqn:Hskip.
  - intro H. injection H as <-. cbn. repeat split; try reflexivity; discriminate.
  - destruct (Method.E_InternalMethodCode meth) as [c|];
      destruct (Method.E_InternalMethodErrMessage meth) as [t|];
      cbn [Extension negb];
      rewrite validateStatusCode_cases;
      match goal with |- context [N.leb ?x 16] => destruct (N.leb_spec x 16) as [Hle|Hle] end;
      try discriminate;
      intro H; injection H as <-; cbn; repeat split; try reflexivity;
      try assumption; discriminate.
Qed.

(** When a method decision is produced. *)
Lemma processMethod_is_ok (meth : Method.t) :
  (srvCode <= 16)%N ->
  is_ok (resolve meth) = methodValid meth.
Proof.
  intro Hsrv. unfold resolve, processMethod, validateMethod, methodValid, codeValid.
  destruct (Method.Input meth) as [in_|]; [|reflexivity].
  destruct (Method.Output meth) as [out|]; [|reflexivity].
  rewrite processMessage_nofields.
  destruct (Method.E_InternalMethodCode meth) as [c|]; cbn [Extension].
  - rewrite validateStatusCode_cases.
    destruct (N.leb c 16) eqn:Hc; [|now rewrite andb_false_r].
    destruct (Nat.leb (optionsSet out) 1); [|reflexivity].
    cbn [bind]. rewrite !Extension_flag.
    destruct (flag (Method.E_MethodSkip meth) || srvSkip); [reflexivity|].
    cbn [negb]. rewrite validateStatusCode_cases, Hc.
    destruct (Extension (Method.E_InternalMethodErrMessage meth) srvErrMsg); reflexivity.
  - destruct (Nat.leb (optionsSet out) 1); [|reflexivity].
    cbn [bind]. rewrite !Extension_flag.
    destruct (flag (Method.E_MethodSkip meth) || srvSkip); [reflexivity|].
    cbn [negb]. rewrite validateStatusCode_cases.
    destruct (N.leb_spec srvCode 16) as [H|H]; [|lia].
    destruct (Extension (Method.E_InternalMethodErrMessage meth) srvErrMsg); reflexivity.
Qed.

End Method.

(** ** Loops *)

Lemma forEach_Forall2 {A B : Type} (body : A -> result B) (xs : list A) :
  forall ys, forEach body xs = Ok ys -> Forall2 (fun x y => body x = Ok y) xs ys.
Proof.
  induction xs as [|x xs IH]; simpl; intros ys H.
  - injection H as <-. constructor.
  - destruct (body x) as [y|] eqn:Hx; [|discriminate]. cbn [bind] in H.
    destruct (forEach body xs) as [ys'|]; [|discriminate]. cbn [bind] in H.
    injection H as <-. constructor; [assumption | now apply IH].
Qed.

Lemma forEach_is_ok {A B : Type} (body : A -> result B) (xs : list A) :
  is_ok (forEach body xs) = forallb (fun x => is_ok (body x)) xs.
Proof.
  induction xs as [|x xs IH]; simpl; [reflexivity|].
  destruct (body x); cbn [bind is_ok andb]; [|reflexivity].
  rewrite <- IH. destruct (forEach body xs); reflexivity.
Qed.

Lemma is_ok_Ok {A : Type} (r : result A) : is_ok r = true -> exists a, r = Ok a.
Proof. destruct r as [a|]; [now exists a | discriminate]. Qed.

Lemma Forall2_length_eq {A B : Type} (R : A -> B -> Prop) (xs : list A) (ys : list B) :
  Forall2 R xs ys -> List.length ys = List.length xs.
Proof. induction 1; simpl; congruence. Qed.

Lemma forallb_eq {A : Type} (f g : A -> bool) (xs : list A) :
  (forall x, f x = g x) -> forallb f xs = forallb g xs.
Proof. intro H. induction xs as [|x xs IH]; simpl; [reflexivity | now rewrite H, IH]. Qed.

(** ** One service *)

Lemma codeValid_serviceCode (srv : Service.t) :
  N.leb (serviceCode srv) 16 = codeValid (Service.E_InternalServiceCode srv).
Proof.
  unfold serviceCode, codeValid. destruct (Service.E_InternalServiceCode srv); reflexivity.
Qed.

(** A service whose own code is valid is resolved method by method, with the
    service's name, skip and internal flags, code and template handed down. *)
Lemma processService_methods (srv : Service.t) (nameWithAlias : Entity.t -> string) :
  codeValid (Service.E_InternalServiceCode srv) = true ->
  processService (Some srv) nameWithAlias =
  (methods <- forEach (processMethod (Entity.Name (Service.Self srv))
                         (flag (Service.E_ServiceSkip srv))
                         (flag (Service.E_InternalService srv))
                         (serviceCode srv) (serviceTemplate srv) nameWithAlias)
                      (Service.Methods srv) ;;
   Ok (ServiceData.mk (Entity.Name (Service.Self srv))
         (flag (Service.E_ServiceSkip srv)) methods)).
Proof.
  intro Hc. unfold processService, validateService, serviceCode, serviceTemplate.
  rewrite !Extension_flag. unfold codeValid in Hc.
  destruct (Service.E_InternalServiceCode srv) as [c|]; cbn [Extension negb];
    rewrite ?validateStatusCode_cases, ?Hc; cbn [PermissionDenied N.leb];
    destruct (Service.E_InternalServiceErrMessage srv); reflexivity.
Qed.

(** A service given a code of its own above 16 is refused, and the message
    names the service. *)
Lemma processService_invalid_code (srv : Service.t) (nameWithAlias : Entity.t -> string)
    (c : N) :
  Service.E_InternalServiceCode srv = Some c ->
  (16 < c)%N ->
  processService (Some srv) nameWithAlias =
  Failed ("Cannot process service: "
            ++ Error (InvalidStatusCode c (Entity.FullyQualifiedName (Service.Self srv)))).
Proof.
  intros Hc Hlt. unfold processService, validateService. rewrite Hc. cbn [Extension].
  rewrite validateStatusCode_cases.
  destruct (N.leb_spec c 16) as [H|H]; [lia | reflexivity].
Qed.

(** When a service decision is produced. *)
Lemma processService_is_ok (srv : Service.t) (nameWithAlias : Entity.t -> string) :
  is_ok (processService (Some srv) nameWithAlias) = serviceValid srv.
Proof.
  unfold serviceValid.
  destruct (codeValid (Service.E_InternalServiceCode srv)) eqn:Hc.
  - rewrite processService_methods by assumption. cbn [andb].
    rewrite <- codeValid_serviceCode in Hc. apply N.leb_le in Hc.
    rewrite (forallb_eq _ _ (Service.Methods srv)
               (fun meth => eq_sym (processMethod_is_ok
                  (Entity.Name (Service.Self srv)) (flag (Service.E_ServiceSkip srv))
                  (flag (Service.E_InternalService srv)) (serviceCode srv)
                  (serviceTemplate srv) nameWithAlias meth Hc))).
    rewrite <- forEach_is_ok.
    match goal with |- context [forEach ?b ?l] => destruct (forEach b l) end; reflexivity.
  - unfold codeValid in Hc. destruct (Service.E_InternalServiceCode srv) as [c|] eqn:Hs;
      [|discriminate].
    rewrite (processService_invalid_code srv nameWithAlias c Hs); [reflexivity|].
    apply N.leb_gt in Hc. exact Hc.
Qed.

(** What a service decision holds when the resolver produces one. *)
Lemma processService_Ok (srv : Service.t) (nameWithAlias : Entity.t -> string) :
  serviceValid srv = true ->
  exists methods,
    processService (Some srv) nameWithAlias =
      Ok (ServiceData.mk (Entity.Name (Service.Self srv))
            (flag (Service.E_ServiceSkip srv)) methods)
    /\ Forall2 (fun meth d =>
                  processMethod (Entity.Name (Service.Self srv))
                    (flag (Service.E_ServiceSkip srv))
                    (flag (Service.E_InternalService srv))
                    (serviceCode srv) (serviceTemplate srv) nameWithAlias meth = Ok d)
               (Service.Methods srv) methods.
Proof.
  intro Hv. pose proof (processService_is_ok srv nameWithAlias) as Hok.
  rewrite Hv in Hok. unfold serviceValid in Hv. apply andb_prop in Hv as [Hc _].
  rewrite processService_methods in Hok |- * by assumption.
  match goal with |- context [forEach ?b ?l] => destruct (forEach b l) as [ms|] eqn:Hm end;
    [|discriminate].
  exists ms. split; [reflexivity|]. now apply forEach_Forall2.
Qed.

Lemma forEach_fails_at {A B : Type} (body : A -> result B) (pre : list A) (x : A)
    (post : list A) (msg : string) :
  forallb (fun y => is_ok (body y)) pre = true ->
  body x = Failed msg ->
  forEach body (pre ++ x :: post) = Failed msg.
Proof.
  intros Hpre Hx. induction pre as [|y pre IH]; cbn [app forEach].
  - now rewrite Hx.
  - cbn [forallb] in Hpre. apply andb_prop in Hpre as [Hy Hpre].
    destruct (body y); [|discriminate]. cbn [bind]. now rewrite (IH Hpre).
Qed.

(** C5.  A status code is accepted exactly when it lies in the closed
    interval from 0 to 16: 0 and 16 pass, 17 and every larger code is
    refused with an error whose message names the location.  The service
    resolver applies this one check to the service's code and, in its loop
    over the methods, to each method's code: it produces a decision only if
    the service's code and every method's code, where set, are at most 16;
    the first method with a code above 16 ends the run with a message that
    names that method; and in the decision it produces a method that is not
    skipped has the status of its own code when it has one and of the
    service's code otherwise. *)
Theorem status_code_boundary :
  (forall code location, validateStatusCode code location = None <-> (code <= 16)%N)
  /\ (forall location,
        validateStatusCode 0 location = None
        /\ validateStatusCode 16 location = None
        /\ validateStatusCode 17 location <> None)
  /\ (forall code location, (16 < code)%N ->
        exists rest,
          option_map Error (validateStatusCode code location) =
          Some ("Validation failed for status code in " ++ location ++ rest))
  /\ (forall srv nameWithAlias c,
        Service.E_InternalServiceCode srv = Some c ->
        ((16 < c)%N ->
          processService (Some srv) nameWithAlias =
          Failed ("Cannot process service: "
                    ++ Error (InvalidStatusCode c
                                (Entity.FullyQualifiedName (Service.Self srv)))))
        /\ (is_ok (processService (Some srv) nameWithAlias) = true -> (c <= 16)%N))
  /\ (forall srvName srvSkip srvInternal srvCode srvErrMsg nameWithAlias meth c,
        Method.E_InternalMethodCode meth = Some c ->
        (forall in_ out,
          Method.Input meth = Some in_ -> Method.Output meth = Some out -> (16 < c)%N ->
          processMethod srvName srvSkip srvInternal srvCode srvErrMsg nameWithAlias meth =
          Failed ("Cannot process method "
                    ++ Entity.FullyQualifiedName (Method.Self meth) ++ ": "
                    ++ Error (InvalidStatusCode c
                                (Entity.FullyQualifiedName (Method.Self meth)))))
        /\ ((srvCode <= 16)%N ->
            is_ok (processMethod srvName srvSkip srvInternal srvCode srvErrMsg
                     nameWithAlias meth) = true ->
            (c <= 16)%N))
  /\ (forall srvName srvInternal srvCode srvErrMsg nameWithAlias meth,
        (srvCode <= 16)%N ->
        methodValid meth = true ->
        flag (Method.E_MethodSkip meth) = false ->
        exists d,
          processMethod srvName false srvInternal srvCode srvErrMsg nameWithAlias meth = Ok d
          /\ MethodData.StatusCode d =
               Code_String (match Method.E_InternalMethodCode meth with
                            | Some own => own
                            | None => srvCode
                            end))
  /\ (forall srv nameWithAlias,
        is_ok (processService (Some srv) nameWithAlias) = true ->
        (forall c, Service.E_InternalServiceCode srv = Some c -> (c <= 16)%N)
        /\ (forall meth c,
              In meth (Service.Methods srv) ->
              Method.E_InternalMethodCode meth = Some c -> (c <= 16)%N))
  /\ (forall srv nameWithAlias,
        is_ok (processService (Some srv) nameWithAlias) =
        codeValid (Service.E_InternalServiceCode srv)
        && forallb (fun meth =>
                      match Method.Input meth, Method.Output meth with
                      | Some _, Some out =>
                          Nat.leb (optionsSet out) 1
                          && codeValid (Method.E_InternalMethodCode meth)
                      | _, _ => false
                      end) (Service.Methods srv))
  /\ (forall srv nameWithAlias pre meth post in_ out c,
        Service.Methods srv = (pre ++ meth :: post)%list ->
        codeValid (Service.E_InternalServiceCode srv) = true ->
        forallb methodValid pre = true ->
        Method.Input meth = Some in_ ->
        Method.Output meth = Some out ->
        Method.E_InternalMethodCode meth = Some c ->
        (16 < c)%N ->
        processService (Some srv) nameWithAlias =
        Failed ("Cannot process method "
                  ++ Entity.FullyQualifiedName (Method.Self meth) ++ ": "
                  ++ Error (InvalidStatusCode c
                              (Entity.FullyQualifiedName (Method.Self meth)))))
  /\ (forall srv nameWithAlias,
        serviceValid srv = true ->
        exists d,
          processService (Some srv) nameWithAlias = Ok d
          /\ Forall2 (fun meth m =>
                        MethodData.Name m = Entity.Name (Method.Self meth)
                        /\ (MethodData.Skip m = false ->
                            MethodData.StatusCode m =
                              Code_String
                                (match Method.E_InternalMethodCode meth,
                                       Service.E_InternalServiceCode srv with
                                 | Some own, _ => own
                                 | None, Some inherited => inherited
                                 | None, None => PermissionDenied
                                 end)))
                     (Service.Methods srv) (ServiceData.Methods d)).
Proof.
  split; [exact validateStatusCode_None|].
  split.
  { intro location. repeat split; try reflexivity. discriminate. }
  split.
  { intros code location Hlt. rewrite validateStatusCode_cases.
    destruct (N.leb_spec code 16) as [H|H]; [lia|].
    destruct (InvalidStatusCode_names_location code location) as [rest Hrest].
    exists rest. cbn [option_map]. now rewrite Hrest. }
  split.
  { intros srv nameWithAlias c Hc. split.
    - now apply processService_invalid_code.
    - rewrite processService_is_ok. unfold serviceValid, codeValid. rewrite Hc.
      intro H. apply andb_prop in H as [H _]. now apply N.leb_le. }
  split.
  { intros srvName srvSkip srvInternal srvCode srvErrMsg nameWithAlias meth c Hc. split.
    - intros in_ out Hin Hout Hlt. now apply (processMethod_invalid_code _ _ _ _ _ _ _ in_ out).
    - intros Hsrv. rewrite processMethod_is_ok by assumption.
      unfold methodValid, codeValid. rewrite Hc.
      destruct (Method.Input meth); [|discriminate].
      destruct (Method.Output meth); [|discriminate].
      intro H. apply andb_prop in H as [_ H]. now apply N.leb_le. }
  split.
  { intros srvName srvInternal srvCode srvErrMsg nameWithAlias meth Hsrv Hv Hskip.
    pose proof (processMethod_is_ok srvName false srvInternal srvCode srvErrMsg
                  nameWithAlias meth Hsrv) as Hok.
    rewrite Hv in Hok. apply is_ok_Ok in Hok as [d Hd]. exists d. split; [exact Hd|].
    apply processMethod_Ok in Hd as (_ & Hs & _ & Hd).
    rewrite Hskip in Hs. apply Hd in Hs as (_ & _ & Hs & _). exact Hs. }
  split.
  { intros srv nameWithAlias. rewrite processService_is_ok. unfold serviceValid.
    intro H. apply andb_prop in H as [Hs Hm]. split.
    - intros c Hc. unfold codeValid in Hs. rewrite Hc in Hs. now apply N.leb_le.
    - intros meth c Hin Hc. rewrite forallb_forall in Hm. specialize (Hm meth Hin).
      unfold methodValid, codeValid in Hm. rewrite Hc in Hm.
      destruct (Method.Input meth); [|discriminate].
      destruct (Method.Output meth); [|discriminate].
      apply andb_prop in Hm as [_ Hm]. now apply N.leb_le. }
  split.
  { intros srv nameWithAlias. apply processService_is_ok. }
  split.
  { intros srv nameWithAlias pre meth post in_ out c Hms Hs Hpre Hin Hout Hc Hlt.
    rewrite (processService_methods srv nameWithAlias Hs), Hms.
    assert (Hle : (serviceCode srv <= 16)%N)
      by (apply N.leb_le; now rewrite codeValid_serviceCode).
    erewrite forEach_fails_at; [reflexivity | |].
    - rewrite <- Hpre. apply forallb_eq. intro y. now apply processMethod_is_ok.
    - now apply (processMethod_invalid_code _ _ _ _ _ _ _ in_ out). }
  intros srv nameWithAlias Hv.
  destruct (processService_Ok srv nameWithAlias Hv) as (methods & Hd & Hm).
  eexists. split; [exact Hd|]. cbn [ServiceData.Methods]. clear Hd.
  induction Hm as [|meth d ms ds Hd1 _ IH]; constructor; [|exact IH].
  apply processMethod_Ok in Hd1 as (Hn & _ & _ & Hd1). split; [exact Hn|].
  intro Hs. destruct (Hd1 Hs) as (_ & _ & Hc & _). rewrite Hc.
  unfold methodCode, serviceCode.
  destruct (Method.E_InternalMethodCode meth), (Service.E_InternalServiceCode srv);
    reflexivity.
Qed.

(** The Chat service, whose own code is 5: GetUser inherits it, ListUsers
    overrides it with 16, and the skipped GetUserInternal gets none. *)
Example chat_status_codes :
  option_map (fun d => map MethodData.StatusCode (ServiceData.Methods d))
    (match processService (Some (chat None)) plainName with
     | Ok d => Some d
     | Failed _ => None
     end) = Some ["NotFound"; ""; "Unauthenticated"].
Proof. reflexivity. Qed.

(** A method of the Chat service with code 17: the run ends at that method,
    whose name the message gives, although the service's own code is 5. *)
Example method_code_17_refused :
  processService
    (Some (Service.mk (Entity.mk "Chat" "user/pb" "Chat" "user.Chat")
             [getUser;
              Method.mk (Entity.mk "Ban" "user/pb" "Ban" "user.Chat.Ban")
                (Some getUserRequest) (Some userMessage) false false
                None None (Some 17%N) None;
              listUsers]
             None None (Some 5%N) None))
    plainName =
  Failed ("Cannot process method user.Chat.Ban: "
            ++ Error (InvalidStatusCode 17 "user.Chat.Ban")).
Proof. reflexivity. Qed.

(** C8.  A service that carries the service-level skip option and that the
    resolver accepts gets a decision with one method decision per method of
    the service, in order and under the method's name, and each of them has
    its skip flag set. *)
Theorem service_skip_keeps_methods :
  forall (srv : Service.t) (nameWithAlias : Entity.t -> string),
    Service.E_ServiceSkip srv = Some true ->
    serviceValid srv = true ->
    exists d,
      processService (Some srv) nameWithAlias = Ok d
      /\ ServiceData.Skip d = true
      /\ List.length (ServiceData.Methods d) = List.length (Service.Methods srv)
      /\ map MethodData.Name (ServiceData.Methods d) =
           map (fun meth => Entity.Name (Method.Self meth)) (Service.Methods srv)
      /\ Forall (fun m => MethodData.Skip m = true) (ServiceData.Methods d).
Proof.
  intros srv nameWithAlias Hskip Hv.
  destruct (processService_Ok srv nameWithAlias Hv) as (methods & Hd & Hm).
  rewrite Hskip in Hd, Hm. cbn [flag] in Hd, Hm.
  eexists. split; [exact Hd|]. cbn [ServiceData.Skip ServiceData.Methods].
  split; [reflexivity|]. split; [now apply Forall2_length_eq in Hm|].
  clear Hd.
  induction Hm as [|meth d ms ds Hd1 _ [IHn IHs]]; [split; [reflexivity | constructor]|].
  apply processMethod_Ok in Hd1 as (Hn & Hs & _).
  rewrite orb_true_r in Hs. split.
  - simpl. now rewrite Hn, IHn.
  - now constructor.
Qed.

Lemma service_skip_keeps_methods_witness :
  exists d,
    processService (Some (chat (Some true))) plainName = Ok d
    /\ ServiceData.Skip d = true
    /\ List.length (ServiceData.Methods d) = List.length (Service.Methods (chat (Some true)))
    /\ map MethodData.Name (ServiceData.Methods d) =
         map (fun meth => Entity.Name (Method.Self meth)) (Service.Methods (chat (Some true)))
    /\ Forall (fun m => MethodData.Skip m = true) (ServiceData.Methods d).
Proof.
  apply (service_skip_keeps_methods (chat (Some true)) plainName); reflexivity.
Defined.

(** C10.  In the decision of a service the resolver accepts, each method has
    a decision; it is marked skipped exactly when the method or the service
    carries the skip option, and a skipped one keeps its internal flag false
    and its status code and error message empty. *)
Theorem skipped_method_untouched :
  forall (srv : Service.t) (nameWithAlias : Entity.t -> string),
    serviceValid srv = true ->
    exists d,
      processService (Some srv) nameWithAlias = Ok d
      /\ Forall2 (fun meth m =>
                    MethodData.Name m = Entity.Name (Method.Self meth)
                    /\ MethodData.Skip m =
                         flag (Method.E_MethodSkip meth) || flag (Service.E_ServiceSkip srv)
                    /\ (MethodData.Skip m = true ->
                          MethodData.Internal m = false
                          /\ MethodData.StatusCode m = ""
                          /\ MethodData.ErrMessage m = ""))
                 (Service.Methods srv) (ServiceData.Methods d).
Proof.
  intros srv nameWithAlias Hv.
  destruct (processService_Ok srv nameWithAlias Hv) as (methods & Hd & Hm).
  eexists. split; [exact Hd|]. cbn [ServiceData.Methods]. clear Hd.
  induction Hm as [|meth d ms ds Hd1 _ IH]; constructor; [|exact IH].
  apply processMethod_Ok in Hd1 as (Hn & Hs & Hskipped & _). auto.
Qed.

Lemma skipped_method_untouched_witness :
  exists d,
    processService (Some (chat None)) plainName = Ok d
    /\ Forall2 (fun meth m =>
                  MethodData.Name m = Entity.Name (Method.Self meth)
                  /\ MethodData.Skip m =
                       flag (Method.E_MethodSkip meth) || flag (Service.E_ServiceSkip (chat None))
                  /\ (MethodData.Skip m = true ->
                        MethodData.Internal m = false
                        /\ MethodData.StatusCode m = ""
                        /\ MethodData.ErrMessage m = ""))
               (Service.Methods (chat None)) (ServiceData.Methods d).
Proof.
  apply (skipped_method_untouched (chat None) plainName); reflexivity.
Defined.

(** ** The field resolver *)

Ltac split_match :=
  repeat match goal with
         | |- context [match ?x with _ => _ end] => destruct x eqn:?
         end.

Lemma redactedCustomValue_shape (flData : FieldData.t) (field : Field.t)
    (fieldRules : option FieldRules) (d : FieldData.t) :
  redactedCustomValue flData field fieldRules = Ok d -> sameShape flData d.
Proof.
  unfold redactedCustomValue, failTypeMatch, failWithInvalidType, failWithContext,
    failWithNestedError, bind.
  split_match; intro H; try discriminate; injection H as <-;
    repeat split.
Qed.

(** A field without a structured rule passes through: the decision holds
    the facts about the field and nothing else, whatever the bare
    (redact.redact) option says, since the resolver does not read it. *)
Lemma processFields_without_rule (field : Field.t) (typ : FieldType.t)
    (nameWithAlias : Entity.t -> string) :
  Field.Type_ field = Some typ ->
  Field.E_Value field = None ->
  exists d,
    processFields (Some field) nameWithAlias = Ok d
    /\ FieldData.Redact d = false
    /\ FieldData.RedactionValue d = ""
    /\ FieldData.NestedEmbedCall d = false.
Proof.
  intros Ht Hv. unfold processFields, validateField. rewrite Ht, Hv. cbn [Extension negb].
  destruct (FieldType.Embed typ) as [em|]; [|destruct (FieldType.Element typ) as [ele|];
    [destruct (ElementType.Embed ele)|]]; eexists; (split; [reflexivity|]);
    repeat split.
Qed.

(** The facts about the field itself in a decision. *)
Lemma processFields_shape (field : Field.t) (typ : FieldType.t)
    (nameWithAlias : Entity.t -> string) (d : FieldData.t) :
  Field.Type_ field = Some typ ->
  processFields (Some field) nameWithAlias = Ok d ->
  FieldData.Name d = Field.GoName field
  /\ FieldData.IsMap d = FieldType.IsMap typ
  /\ FieldData.IsRepeated d = FieldType.IsRepeated typ
  /\ FieldData.IsMessage d = FieldType.IsEmbed typ
  /\ FieldData.IsOptional d =
       Field.InOneOf field && Field.OneOfIsSynthetic field
       && negb (ProtoType_eqb (FieldType.ProtoType_ typ) BytesT).
Proof.
  intros Ht. unfold processFields, validateField. rewrite Ht.
  set (em := match FieldType.Embed typ with
             | Some em => Some em
             | None => match FieldType.Element typ with
                       | Some ele => ElementType.Embed ele
                       | None => None
                       end
             end).
  destruct (Field.E_Value field) as [rules|]; cbn [Extension negb].
  - destruct (validateRules (Some rules) field); [discriminate|].
    destruct (Values rules); cbn [negb].
    + intro H. apply redactedCustomValue_shape in H.
      destruct H as (Hn & _ & _ & Hm & Hr & He & Ho & _).
      rewrite <- Hn, <- Hm, <- Hr, <- He, <- Ho.
      destruct em; repeat split.
    + intro H. injection H as <-. destruct em; repeat split.
  - intro H. injection H as <-. destruct em; repeat split.
Qed.

(** C7.  The password field of the README, a singular string that carries
    only the bare (redact.redact) option, resolves to a decision that is
    not redacted and has no value: the resolver never reads the bare
    option, so the default it keeps for that case is out of reach. *)
Theorem bare_redact_flag_ignored :
  Field.E_Redact passwordField = Some true
  /\ Field.E_Value passwordField = None
  /\ exists d,
       processFields (Some passwordField) plainName = Ok d
       /\ FieldData.Redact d = false
       /\ FieldData.RedactionValue d = ""
       /\ FieldData.RedactionValue d <> RedactionDefaults StringT false.
Proof.
  split; [reflexivity|]. split; [reflexivity|].
  eexists. split; [reflexivity|]. repeat split. discriminate.
Qed.

(** C9 (amended).  A decision is marked optional exactly when the field is a
    member of a synthetic oneof (an explicit optional) and its kind is not
    bytes, which an explicitly optional message field is too; it is never
    marked so for a bytes field; and where oneof members are singular, as
    in every schema the compiler accepts, never together with the repeated
    or the map flag. *)
Theorem optional_flag :
  forall (field : Field.t) (typ : FieldType.t) (nameWithAlias : Entity.t -> string)
         (d : FieldData.t),
    Field.Type_ field = Some typ ->
    processFields (Some field) nameWithAlias = Ok d ->
    FieldData.IsOptional d =
      Field.InOneOf field && Field.OneOfIsSynthetic field
      && negb (ProtoType_eqb (FieldType.ProtoType_ typ) BytesT)
    /\ (FieldType.ProtoType_ typ = BytesT -> FieldData.IsOptional d = false)
    /\ (oneofMemberSingular field typ = true ->
        FieldData.IsOptional d = true ->
        FieldData.IsRepeated d = false /\ FieldData.IsMap d = false).
Proof.
  intros field typ nameWithAlias d Ht Hd.
  destruct (processFields_shape field typ nameWithAlias d Ht Hd)
    as (_ & Hm & Hr & _ & Ho).
  split; [exact Ho|]. split.
  - intro Hb. rewrite Ho, Hb. cbn. now rewrite andb_false_r.
  - unfold oneofMemberSingular. rewrite Ho, Hm, Hr. intros Hwf Hopt.
    destruct (Field.InOneOf field); [|discriminate]. cbn in Hwf.
    destruct (FieldType.IsRepeated typ), (FieldType.IsMap typ);
      try discriminate; split; reflexivity.
Qed.

Lemma optional_flag_witness :
  FieldData.IsOptional optionalProfileDecision =
    Field.InOneOf optionalProfileField && Field.OneOfIsSynthetic optionalProfileField
    && negb (ProtoType_eqb (FieldType.ProtoType_ (embedded profileEntity)) BytesT)
  /\ (FieldType.ProtoType_ (embedded profileEntity) = BytesT ->
      FieldData.IsOptional optionalProfileDecision = false)
  /\ (oneofMemberSingular optionalProfileField (embedded profileEntity) = true ->
      FieldData.IsOptional optionalProfileDecision = true ->
      FieldData.IsRepeated optionalProfileDecision = false
      /\ FieldData.IsMap optionalProfileDecision = false).
Proof.
  apply (optional_flag optionalProfileField (embedded profileEntity) plainName
           optionalProfileDecision); reflexivity.
Defined.

(** [optional Profile profile = 6;] resolves to a decision marked both
    optional and message. *)
Example optional_profile_resolved :
  processFields (Some optionalProfileField) plainName = Ok optionalProfileDecision
  /\ FieldData.IsOptional optionalProfileDecision = true
  /\ FieldData.IsMessage optionalProfileDecision = true.
Proof. repeat split. Qed.

(** An explicitly optional message field is marked optional, though it is
    neither a scalar nor an enum. *)
Lemma optional_message_counterexample : ~ optionalAsStated.
Proof.
  intro H.
  destruct (H optionalProfileField (embedded profileEntity) plainName
              optionalProfileDecision eq_refl eq_refl eq_refl) as [Hk _].
  discriminate Hk.
Qed.

(** ** Nested element rules *)

Lemma NestedDepthExceeded_message (field : Field.t) :
  Error (NestedDepthExceeded field) =
  "Validation failed for " ++ Field.FullyQualifiedName field
    ++ ": expected single-level element nesting, got element.item.element"
    ++ " (hint: nested element rules are not supported)".
Proof.
  unfold NestedDepthExceeded, Error, ValidationError.Error.
  cbn [ValidationError.Entity ValidationError.Expected ValidationError.Got
       ValidationError.Hint].
  change (nonEmpty "single-level element nesting") with true.
  change (nonEmpty "element.item.element") with true.
  change (nonEmpty "nested element rules are not supported") with true.
  cbv iota. rewrite !append_assoc. reflexivity.
Qed.

(** C3 (amended).  A field whose element rule has an element rule as its
    item is refused by the validation pass of the field resolver, whatever
    the field's type, the outer rule's flags and the content of the inner
    element rule; the message names the field and reads: expected
    single-level element nesting, got element.item.element, nested element
    rules are not supported. *)
Theorem nested_element_rule_rejected :
  forall (field : Field.t) (typ : FieldType.t) (nested empty : bool)
         (inner : option ElementRules) (nameWithAlias : Entity.t -> string),
    Field.Type_ field = Some typ ->
    Field.E_Value field = Some (elementOfElement nested empty inner) ->
    processFields (Some field) nameWithAlias =
      Failed ("Validation failed for " ++ Field.FullyQualifiedName field
                ++ ": expected single-level element nesting, got element.item.element"
                ++ " (hint: nested element rules are not supported)")
    /\ validateRules (Some (elementOfElement nested empty inner)) field =
         Some (NestedDepthExceeded field).
Proof.
  intros field typ nested empty inner nameWithAlias Ht Hv.
  split; [|reflexivity].
  rewrite <- NestedDepthExceeded_message.
  unfold processFields, validateField. rewrite Ht, Hv. cbn [Extension negb].
  reflexivity.
Qed.

Lemma nested_element_rule_rejected_witness :
  processFields (Some nestedTagsField) plainName =
    Failed ("Validation failed for " ++ Field.FullyQualifiedName nestedTagsField
              ++ ": expected single-level element nesting, got element.item.element"
              ++ " (hint: nested element rules are not supported)")
  /\ validateRules
       (Some (elementOfElement false false (Some (mkElementRules true false None))))
       nestedTagsField =
     Some (NestedDepthExceeded nestedTagsField).
Proof.
  apply (nested_element_rule_rejected nestedTagsField (repeatedOf StringT "string")
           false false (Some (mkElementRules true false None)) plainName); reflexivity.
Defined.

(** What the resolution of [nestedTagsField] fails with. *)
Example nested_tags_failure :
  processFields (Some nestedTagsField) plainName =
  Failed ("Validation failed for user.User.tags: expected single-level element nesting, "
            ++ "got element.item.element (hint: nested element rules are not supported)").
Proof. reflexivity. Qed.

(** The message the resolution of [nestedTagsField] fails with lists none
    of the three alternatives. *)
Lemma nested_depth_counterexample : ~ nestedDepthAsStated.
Proof.
  intro H.
  destruct (H nestedTagsField (repeatedOf StringT "string") false false
              (Some (mkElementRules true false None)) plainName eq_refl eq_refl)
    as (msg & Hmsg & Henum).
  vm_compute in Hmsg. injection Hmsg as <-. vm_compute in Henum. discriminate Henum.
Qed.

(** Called on its own with such a rule, [redactedCustomValue] does fail
    with the message that lists the three alternatives; [processFields]
    never gets that far. *)
Lemma redactedCustomValue_nested_hint :
  exists msg,
    redactedCustomValue
      (FieldData.mk "Tags" true "nil" "string" false true false false false false false "" "")
      nestedTagsField (Field.E_Value nestedTagsField) = Failed msg
    /\ enumeratesAlternatives msg = true.
Proof. eexists. split; [reflexivity | vm_compute; reflexivity]. Qed.

(** ** Message rules *)

(** C2.  A singular message field that carries a message rule is resolved
    to a redacted decision without iteration, and the rule decides the
    rest: with empty set, the value is the empty instance of the embedded
    type, an ampersand, the qualified type name and a pair of braces; with
    nil set (and not empty), the value is "nil"; with skip set (and neither
    of the former), the decision is marked embedSkip, is not a nested call,
    and its value is the untouched "nil"; with none of the three set, the
    decision is a nested call and its value stays "nil", the default the
    table gives a container. *)
Theorem message_rule_resolution :
  forall (field : Field.t) (typ : FieldType.t) (em : Entity.t)
         (rule : MessageRules.t) (nameWithAlias : Entity.t -> string),
    Field.Type_ field = Some typ ->
    FieldType.ProtoType_ typ = MessageT ->
    ProtoLabel_eqb (FieldType.ProtoLabel_ typ) Repeated = false ->
    FieldType.Embed typ = Some em ->
    Field.E_Value field = Some (mkFieldRules (Some (FieldRules_Message (Some rule)))) ->
    exists d,
      processFields (Some field) nameWithAlias = Ok d
      /\ FieldData.Redact d = true
      /\ FieldData.Iterate d = false
      /\ (MessageRules.Empty rule = true ->
            FieldData.RedactionValue d = "&" ++ nameWithAlias em ++ "{}"
            /\ FieldData.EmbedSkip d = false
            /\ FieldData.NestedEmbedCall d = false)
      /\ (MessageRules.Empty rule = false -> MessageRules.Nil rule = true ->
            FieldData.RedactionValue d = "nil"
            /\ FieldData.EmbedSkip d = false
            /\ FieldData.NestedEmbedCall d = false)
      /\ (MessageRules.Empty rule = false -> MessageRules.Nil rule = false ->
          MessageRules.Skip rule = true ->
            FieldData.EmbedSkip d = true
            /\ FieldData.NestedEmbedCall d = false
            /\ FieldData.RedactionValue d = "nil")
      /\ (MessageRules.Empty rule = false -> MessageRules.Nil rule = false ->
          MessageRules.Skip rule = false ->
            FieldData.NestedEmbedCall d = true
            /\ FieldData.EmbedSkip d = false
            /\ FieldData.RedactionValue d = "nil"
            /\ FieldData.RedactionValue d =
                 RedactionDefaults (FieldType.ProtoType_ typ) true).
Proof.
  intros field typ em rule nameWithAlias Ht Hk Hl He Hv.
  unfold processFields, validateField. rewrite Ht, Hv, He. cbn [Extension negb].
  cbn [validateRules Values]. cbn [negb].
  unfold redactedCustomValue. rewrite Ht. cbn [RuleInformation Values bind].
  cbn [RuleInfo.ProtoType_ RuleInfo.ProtoLabel_ RuleInfo.RedactionValue].
  rewrite Hk. cbn [ProtoType_eqb ProtoType_number Z.eqb Pos.eqb negb optLabel_eqb
                   optType_eqb andb].
  rewrite Hl. cbn [andb].
  destruct rule as [skip nil empty]. cbn [MessageRules.Empty MessageRules.Nil MessageRules.Skip].
  destruct empty, nil, skip; eexists; (split; [reflexivity|]);
    cbn; repeat split; intros; try discriminate; reflexivity.
Qed.

Lemma message_rule_resolution_witness :
  exists d,
    processFields (Some skippedProfileField) plainName = Ok d
    /\ FieldData.Redact d = true
    /\ FieldData.Iterate d = false
    /\ (MessageRules.Empty (MessageRules.mk true false false) = true ->
          FieldData.RedactionValue d = "&" ++ plainName profileEntity ++ "{}"
          /\ FieldData.EmbedSkip d = false
          /\ FieldData.NestedEmbedCall d = false)
    /\ (MessageRules.Empty (MessageRules.mk true false false) = false ->
        MessageRules.Nil (MessageRules.mk true false false) = true ->
          FieldData.RedactionValue d = "nil"
          /\ FieldData.EmbedSkip d = false
          /\ FieldData.NestedEmbedCall d = false)
    /\ (MessageRules.Empty (MessageRules.mk true false false) = false ->
        MessageRules.Nil (MessageRules.mk true false false) = false ->
        MessageRules.Skip (MessageRules.mk true false false) = true ->
          FieldData.EmbedSkip d = true
          /\ FieldData.NestedEmbedCall d = false
          /\ FieldData.RedactionValue d = "nil")
    /\ (MessageRules.Empty (MessageRules.mk true false false) = false ->
        MessageRules.Nil (MessageRules.mk true false false) = false ->
        MessageRules.Skip (MessageRules.mk true false false) = false ->
          FieldData.NestedEmbedCall d = true
          /\ FieldData.EmbedSkip d = false
          /\ FieldData.RedactionValue d = "nil"
          /\ FieldData.RedactionValue d =
               RedactionDefaults (FieldType.ProtoType_ (embedded profileEntity)) true).
Proof.
  apply (message_rule_resolution skippedProfileField (embedded profileEntity)
           profileEntity (MessageRules.mk true false false) plainName);
    reflexivity.
Defined.

(** ** Template substitution *)

Section Scan.
Variables (old new : string).

(** Where [old] does not occur, the scan changes nothing. *)
Lemma replaceScan_absent (s : string) :
  Contains s old = false -> replaceScan old new 0 s = s.
Proof.
  induction s as [|c s IH]; [reflexivity|].
  cbn [Contains replaceScan]. intro H. apply orb_false_elim in H as [Hp Hc].
  rewrite Hp. now rewrite IH.
Qed.

(** A text without percent sign passes unchanged before a specifier, which
    starts with one. *)
Lemma replaceScan_text (old' : string) (text rest : string) :
  old = String "%" old' ->
  noPercent text = true ->
  replaceScan old new 0 (text ++ rest) = text ++ replaceScan old new 0 rest.
Proof.
  intros -> Hn. induction text as [|c text IH]; [reflexivity|].
  cbn [noPercent] in Hn. apply andb_prop in Hn as [Hc Hn].
  cbn [append replaceScan HasPrefix].
  apply negb_true_iff in Hc. rewrite Hc. cbn [andb]. now rewrite IH.
Qed.

End Scan.

Lemma ReplaceAll_absent (s old new : string) :
  Contains s old = false -> ReplaceAll s old new = s.
Proof.
  destruct old as [|c old]; [destruct s; discriminate|].
  unfold ReplaceAll. apply replaceScan_absent.
Qed.

(** The scan at a specifier. *)
Lemma replaceScan_method_hit (new rest : string) :
  replaceScan specifierMethod new 0 (specifierMethod ++ rest) =
  new ++ replaceScan specifierMethod new 0 rest.
Proof. reflexivity. Qed.

Lemma replaceScan_service_hit (new rest : string) :
  replaceScan specifierService new 0 (specifierService ++ rest) =
  new ++ replaceScan specifierService new 0 rest.
Proof. reflexivity. Qed.

Lemma replaceScan_step (old new : string) (c : ascii) (s : string) :
  replaceScan old new 0 (String c s) =
  if HasPrefix (String c s) old
  then new ++ replaceScan old new (String.length old - 1) s
  else String c (replaceScan old new 0 s).
Proof. reflexivity. Qed.

(** The method pass steps over a service specifier unless the text behind
    it closes a method specifier. *)
Lemma replaceScan_method_over_service (new rest : string) :
  HasPrefix rest "method%" = false ->
  replaceScan specifierMethod new 0 (specifierService ++ rest) =
  specifierService ++ replaceScan specifierMethod new 0 rest.
Proof.
  intro H. unfold specifierMethod, specifierService. cbn [append].
  do 8 (rewrite replaceScan_step;
        match goal with
        | |- context [HasPrefix ?a ?b] => change (HasPrefix a b) with false
        end; cbv iota; f_equal).
  rewrite replaceScan_step.
  change (HasPrefix (String "%" rest) "%method%") with (HasPrefix rest "method%").
  now rewrite H.
Qed.

(** A text without percent sign followed by a percent sign starts with a
    word and a percent sign only if it is that word. *)
Lemma HasPrefix_word (word : string) :
  noPercent word = true ->
  forall text rest,
    noPercent text = true ->
    HasPrefix (text ++ String "%" rest) (word ++ "%") = true ->
    text = word.
Proof.
  induction word as [|a word IH]; intros Hw text rest Ht Hp.
  - destruct text as [|c text]; [reflexivity|].
    cbn [noPercent] in Ht. cbn [append HasPrefix] in Hp.
    apply andb_prop in Ht as [Hc _]. apply andb_prop in Hp as [Hp _].
    rewrite Hp in Hc. discriminate.
  - cbn [noPercent] in Hw. apply andb_prop in Hw as [Ha Hw].
    destruct text as [|c text].
    + cbn [append HasPrefix] in Hp. apply andb_prop in Hp as [Hp _].
      rewrite Ascii.eqb_sym in Hp. rewrite Hp in Ha. discriminate.
    + cbn [noPercent] in Ht. apply andb_prop in Ht as [_ Ht].
      cbn [append HasPrefix] in Hp. apply andb_prop in Hp as [Hc Hp].
      apply Ascii.eqb_eq in Hc. subst c. f_equal. now apply (IH Hw text rest).
Qed.

Lemma HasPrefix_noPercent (text : string) :
  noPercent text = true -> HasPrefix text "method%" = false.
Proof.
  intro Ht. destruct (HasPrefix text "method%") eqn:Hp; [|reflexivity].
  exfalso.
  do 6 (destruct text as [|? text]; [discriminate Hp|];
        cbn [noPercent] in Ht; apply andb_prop in Ht as [_ Ht];
        cbn [HasPrefix] in Hp; apply andb_prop in Hp as [_ Hp]).
  destruct text as [|c text]; [discriminate Hp|].
  cbn [noPercent] in Ht. apply andb_prop in Ht as [Hc _].
  cbn [HasPrefix] in Hp. apply andb_prop in Hp as [Hp _].
  rewrite Hp in Hc. discriminate.
Qed.

Section Render.
Variables (methName srvName : string) (tail : string).
Hypothesis tail_plain : noPercent tail = true.

Lemma unambiguous_weaken (pieces : list (string * placeholder)) :
  unambiguous true pieces = true -> unambiguous false pieces = true.
Proof.
  destruct pieces as [|[text p] rest]; [reflexivity|]. cbn [unambiguous andb].
  intro H. apply andb_prop in H as [H Hr]. apply andb_prop in H as [Ht _].
  now rewrite Ht, Hr.
Qed.

(** Behind a service placeholder nothing reads as the end of a method
    specifier. *)
Lemma render_after_service (pieces : list (string * placeholder)) :
  unambiguous true pieces = true ->
  HasPrefix (render specifierMethod specifierService pieces tail) "method%" = false.
Proof.
  destruct pieces as [|[text p] rest]; cbn [render unambiguous andb].
  - intros _. now apply HasPrefix_noPercent.
  - intro H. apply andb_prop in H as [H _]. apply andb_prop in H as [Ht Hne].
    apply negb_true_iff in Hne.
    match goal with |- HasPrefix ?s _ = false => destruct (HasPrefix s "method%") eqn:Hp end;
      [|reflexivity].
    assert (text = "method") as ->.
    { destruct p; unfold specifierMethod, specifierService in Hp; cbn [append] in Hp;
        eapply (HasPrefix_word "method" eq_refl); eassumption. }
    discriminate Hne.
Qed.

(** The method pass puts the method name at every method placeholder. *)
Lemma method_pass (pieces : list (string * placeholder)) :
  unambiguous false pieces = true ->
  replaceScan specifierMethod methName 0
    (render specifierMethod specifierService pieces tail) =
  render methName specifierService pieces tail.
Proof.
  induction pieces as [|[text p] rest IH]; cbn [render unambiguous andb].
  - intros _. rewrite <- (append_nil_r tail) at 1.
    rewrite (replaceScan_text _ _ "method%") by (reflexivity || assumption).
    apply append_nil_r.
  - intro H. apply andb_prop in H as [H Hr]. rewrite andb_true_r in H.
    rewrite (replaceScan_text _ _ "method%") by (reflexivity || assumption).
    f_equal. destruct p; cbn [isService] in Hr.
    + rewrite replaceScan_method_over_service by now apply render_after_service.
      f_equal. apply IH. now apply unambiguous_weaken.
    + rewrite replaceScan_method_hit. f_equal. now apply IH.
Qed.

(** The service pass puts the service name at every service placeholder. *)
Lemma service_pass (pieces : list (string * placeholder)) :
  noPercent methName = true ->
  unambiguous false pieces = true ->
  replaceScan specifierService srvName 0
    (render methName specifierService pieces tail) =
  render methName srvName pieces tail.
Proof.
  intro Hm. induction pieces as [|[text p] rest IH]; cbn [render unambiguous andb].
  - intros _. rewrite <- (append_nil_r tail) at 1.
    rewrite (replaceScan_text _ _ "service%") by (reflexivity || assumption).
    apply append_nil_r.
  - intro H. apply andb_prop in H as [H Hr]. rewrite andb_true_r in H.
    assert (Hrest : unambiguous false rest = true).
    { destruct p; cbn [isService] in Hr; [now apply unambiguous_weaken | assumption]. }
    rewrite (replaceScan_text _ _ "service%") by (reflexivity || assumption).
    f_equal. destruct p.
    + rewrite replaceScan_service_hit. f_equal. now apply IH.
    + rewrite (replaceScan_text _ _ "service%") by (reflexivity || assumption).
      f_equal. now apply IH.
Qed.

End Render.

(** ** Text with percent signs of its own *)

Lemma noPercent_HasPrefix (w : string) :
  forall text, noPercent text = true -> HasPrefix text (w ++ "%") = false.
Proof.
  induction w as [|a w IH]; intros [|c text] Ht; try reflexivity;
    cbn [noPercent] in Ht; apply andb_prop in Ht as [Hc Ht]; cbn [append HasPrefix].
  - apply negb_true_iff in Hc. now rewrite Hc.
  - rewrite (IH _ Ht). apply andb_false_r.
Qed.

Lemma noPercent_Contains (old' : string) (text : string) :
  noPercent text = true -> Contains text (String "%" old') = false.
Proof.
  induction text as [|c text IH]; [reflexivity|]. intro Ht.
  cbn [noPercent] in Ht. apply andb_prop in Ht as [Hc Ht].
  cbn [Contains HasPrefix]. apply negb_true_iff in Hc. rewrite Hc.
  cbn [andb orb]. now apply IH.
Qed.

Lemma noPercent_app (a b : string) :
  noPercent a = true -> noPercent b = true -> noPercent (a ++ b) = true.
Proof.
  intros Ha Hb. induction a as [|c a IH]; [exact Hb|].
  cbn [noPercent] in Ha. apply andb_prop in Ha as [Hc Ha].
  cbn [append noPercent]. now rewrite Hc, IH.
Qed.

(** A text with a single percent sign holds no specifier. *)
Lemma one_percent_Contains (w a b : string) :
  noPercent a = true -> noPercent b = true ->
  Contains (a ++ String "%" b) (String "%" (w ++ "%")) = false.
Proof.
  intros Ha Hb. induction a as [|c a IH].
  - cbn [append Contains HasPrefix]. rewrite (noPercent_HasPrefix w b Hb).
    rewrite andb_false_r. cbn [orb]. now apply noPercent_Contains.
  - cbn [noPercent] in Ha. apply andb_prop in Ha as [Hc Ha].
    cbn [append Contains HasPrefix]. apply negb_true_iff in Hc. rewrite Hc.
    cbn [andb orb]. now apply IH.
Qed.

Lemma HasPrefix_app_l (p : string) :
  forall u x, HasPrefix u p = true -> HasPrefix (u ++ x) p = true.
Proof.
  induction p as [|a p IH]; intros u x H; [reflexivity|].
  destruct u as [|c u]; [discriminate H|].
  cbn [append HasPrefix] in *. apply andb_prop in H as [Hc H].
  now rewrite Hc, (IH _ _ H).
Qed.

(** A word without percent sign, closed by a percent sign, is read up to
    the first percent sign of the text. *)
Lemma HasPrefix_upto_percent (w : string) :
  noPercent w = true ->
  forall u r,
    HasPrefix (u ++ String "%" r) (w ++ "%") = true ->
    HasPrefix (u ++ "%") (w ++ "%") = true.
Proof.
  induction w as [|a w IH]; intros Hw u r H.
  - destruct u as [|c u]; [reflexivity|].
    cbn [append HasPrefix] in *. apply andb_prop in H as [Hc _]. now rewrite Hc.
  - cbn [noPercent] in Hw. apply andb_prop in Hw as [Ha Hw].
    destruct u as [|c u]; cbn [append HasPrefix] in *; apply andb_prop in H as [Hc H].
    + rewrite Ascii.eqb_sym in Hc. rewrite Hc in Ha. discriminate.
    + rewrite Hc. cbn [andb]. now apply (IH Hw u r).
Qed.

(** A name without percent sign that a specifier's word reads into is a
    prefix of that word. *)
Lemma HasPrefix_name (name : string) :
  noPercent name = true ->
  forall w x, HasPrefix (name ++ x) (w ++ "%") = true -> HasPrefix w name = true.
Proof.
  induction name as [|c name IH]; intros Hn w x H; [reflexivity|].
  cbn [noPercent] in Hn. apply andb_prop in Hn as [Hc Hn].
  destruct w as [|a w]; cbn [append HasPrefix] in *; apply andb_prop in H as [Ha H].
  - rewrite Ha in Hc. discriminate.
  - rewrite Ascii.eqb_sym, Ha. cbn [andb]. now apply (IH Hn w x).
Qed.

(** A word that does not hold the name is not read across it. *)
Lemma HasPrefix_before_name (name : string) :
  noPercent name = true ->
  forall w u r,
    Contains w name = false ->
    HasPrefix (u ++ name ++ r) (w ++ "%") = true ->
    HasPrefix u (w ++ "%") = true.
Proof.
  intro Hn. induction w as [|a w IH]; intros u r Hw H.
  - destruct u as [|c u].
    + destruct name as [|c name]; [discriminate Hw|].
      cbn [noPercent] in Hn. apply andb_prop in Hn as [Hc _].
      cbn [append HasPrefix] in H. apply andb_prop in H as [H _].
      rewrite H in Hc. discriminate.
    + cbn [append HasPrefix] in *. exact H.
  - cbn [Contains] in Hw. apply orb_false_elim in Hw as [Hp Hw].
    destruct u as [|c u].
    + cbn [append] in H.
      rewrite (HasPrefix_name name Hn (String a w) r H) in Hp. discriminate.
    + cbn [append HasPrefix] in *. apply andb_prop in H as [Hc H].
      rewrite Hc. cbn [andb]. now apply (IH u r).
Qed.

Section Clear.
Variables (old new w : string).
Hypothesis old_shape : old = String "%" (w ++ "%").
Hypothesis word_plain : noPercent w = true.

(** The scan passes over a text in which no occurrence starts, up to the
    percent sign behind it. *)
Lemma replaceScan_clear_text (text r : string) :
  Contains (text ++ "%") old = false ->
  replaceScan old new 0 (text ++ String "%" r) =
  text ++ replaceScan old new 0 (String "%" r).
Proof.
  induction text as [|c text IH]; [reflexivity|]. intro H.
  cbn [append Contains] in H. apply orb_false_elim in H as [Hp Hc].
  cbn [append]. rewrite replaceScan_step.
  destruct (HasPrefix (String c (text ++ String "%" r)) old) eqn:E.
  - exfalso. rewrite old_shape in E, Hp. cbn [HasPrefix] in E, Hp.
    apply andb_prop in E as [Ec E].
    rewrite Ec, (HasPrefix_upto_percent w word_plain text r E) in Hp. discriminate.
  - now rewrite (IH Hc).
Qed.

(** The scan passes over such a text and the name put behind it. *)
Lemma replaceScan_over_name (text name rest : string) :
  noPercent name = true ->
  Contains w name = false ->
  Contains (text ++ "%") old = false ->
  replaceScan old new 0 (text ++ name ++ rest) =
  text ++ name ++ replaceScan old new 0 rest.
Proof.
  intros Hn Hw. induction text as [|c text IH]; intro H.
  - cbn [append]. apply (replaceScan_text old new (w ++ "%")); assumption.
  - cbn [append Contains] in H. apply orb_false_elim in H as [Hp Hc].
    cbn [append]. rewrite replaceScan_step.
    destruct (HasPrefix (String c (text ++ name ++ rest)) old) eqn:E.
    + exfalso. rewrite old_shape in E, Hp. cbn [HasPrefix] in E, Hp.
      apply andb_prop in E as [Ec E].
      apply (HasPrefix_before_name name Hn) in E; [|exact Hw].
      rewrite Ec, (HasPrefix_app_l _ _ "%" E) in Hp. discriminate.
    + now rewrite (IH Hc).
Qed.

End Clear.

Section Separated.
Variables (methName srvName : string) (tail : string).

Lemma separated_weaken (pieces : list (string * placeholder)) :
  separated true pieces tail = true -> separated false pieces tail = true.
Proof.
  destruct pieces as [|[text p] rest]; cbn [separated andb]; intro H.
  - apply andb_prop in H as [H _]. now rewrite H.
  - apply andb_prop in H as [H Hr]. apply andb_prop in H as [H _].
    now rewrite H, Hr.
Qed.

(** Behind a service placeholder nothing reads as the end of a method
    specifier. *)
Lemma separated_after_service (pieces : list (string * placeholder)) :
  separated true pieces tail = true ->
  HasPrefix (render specifierMethod specifierService pieces tail) "method%" = false.
Proof.
  destruct pieces as [|[text p] rest]; cbn [render separated andb]; intro H.
  - apply andb_prop in H as [_ H]. now apply negb_true_iff in H.
  - apply andb_prop in H as [H _]. apply andb_prop in H as [_ H].
    apply negb_true_iff in H.
    match goal with |- HasPrefix ?s _ = false => destruct (HasPrefix s "method%") eqn:Hp end;
      [|reflexivity].
    assert (Hq : HasPrefix (text ++ "%") "method%" = true).
    { destruct p; unfold specifierMethod, specifierService in Hp; cbn [append] in Hp;
        eapply (HasPrefix_upto_percent "method" eq_refl); eassumption. }
    rewrite Hq in H. discriminate H.
Qed.

(** The method pass puts the method name at every method placeholder. *)
Lemma separated_method_pass (pieces : list (string * placeholder)) :
  separated false pieces tail = true ->
  replaceScan specifierMethod methName 0
    (render specifierMethod specifierService pieces tail) =
  render methName specifierService pieces tail.
Proof.
  induction pieces as [|[text p] rest IH]; cbn [render separated andb]; intro H.
  - apply andb_prop in H as [H _]. apply andb_prop in H as [H _].
    apply negb_true_iff in H. now apply replaceScan_absent.
  - apply andb_prop in H as [H Hr]. rewrite andb_true_r in H.
    apply andb_prop in H as [H _]. apply negb_true_iff in H.
    destruct p; cbn [isService] in Hr.
    + change (specifierService ++ ?x) with (String "%" ("service%" ++ x)).
      rewrite (replaceScan_clear_text specifierMethod methName "method" eq_refl eq_refl
                 text _ H).
      f_equal.
      change (String "%" ("service%" ++ ?x)) with (specifierService ++ x).
      rewrite replaceScan_method_over_service by now apply separated_after_service.
      f_equal. apply IH. now apply separated_weaken.
    + change (specifierMethod ++ ?x) with (String "%" ("method%" ++ x)).
      rewrite (replaceScan_clear_text specifierMethod methName "method" eq_refl eq_refl
                 text _ H).
      f_equal.
      change (String "%" ("method%" ++ ?x)) with (specifierMethod ++ x).
      rewrite replaceScan_method_hit. f_equal. now apply IH.
Qed.

(** The service pass puts the service name at every service placeholder and
    steps over the method name where it is not a piece of the word service. *)
Lemma separated_service_pass (pieces : list (string * placeholder)) :
  noPercent methName = true ->
  Contains "service" methName = false ->
  separated false pieces tail = true ->
  replaceScan specifierService srvName 0
    (render methName specifierService pieces tail) =
  render methName srvName pieces tail.
Proof.
  intros Hm Hw.
  induction pieces as [|[text p] rest IH]; cbn [render separated andb]; intro H.
  - apply andb_prop in H as [H _]. apply andb_prop in H as [_ H].
    apply negb_true_iff in H. now apply replaceScan_absent.
  - apply andb_prop in H as [H Hr]. rewrite andb_true_r in H.
    apply andb_prop in H as [_ H]. apply negb_true_iff in H.
    assert (Hrest : separated false rest tail = true).
    { destruct p; cbn [isService] in Hr; [now apply separated_weaken | assumption]. }
    destruct p.
    + change (specifierService ++ ?x) with (String "%" ("service%" ++ x)).
      rewrite (replaceScan_clear_text specifierService srvName "service" eq_refl eq_refl
                 text _ H).
      f_equal.
      change (String "%" ("service%" ++ ?x)) with (specifierService ++ x).
      rewrite replaceScan_service_hit. f_equal. now apply IH.
    + rewrite (replaceScan_over_name specifierService srvName "service" eq_refl
                 text methName _ Hm Hw H).
      do 2 f_equal. now apply IH.
Qed.

End Separated.

(** ** Specifiers that share a percent sign *)

Lemma shared_after_method (before after methName srvName : string) :
  noPercent before = true ->
  noPercent after = true ->
  noPercent methName = true ->
  applySpecifiers (before ++ specifierMethod ++ "service%" ++ after) methName srvName =
  before ++ methName ++ "service%" ++ after.
Proof.
  intros Hb Ha Hm. unfold applySpecifiers, ReplaceAll.
  cbn [specifierMethod specifierService].
  change "%method%" with specifierMethod. change "%service%" with specifierService.
  rewrite (replaceScan_text _ _ "method%") by (reflexivity || assumption).
  rewrite replaceScan_method_hit.
  rewrite (replaceScan_absent specifierMethod methName ("service%" ++ after))
    by (apply (one_percent_Contains "method" "service" after); [reflexivity | assumption]).
  apply replaceScan_absent.
  change ("service%" ++ after) with ("service" ++ String "%" after).
  rewrite <- !append_assoc.
  apply (one_percent_Contains "service"); [|assumption].
  repeat apply noPercent_app; (assumption || reflexivity).
Qed.

Lemma shared_after_service (before after methName srvName : string) :
  noPercent before = true ->
  noPercent after = true ->
  noPercent methName = true ->
  applySpecifiers (before ++ specifierService ++ "method%" ++ after) methName srvName =
  before ++ "%service" ++ methName ++ after.
Proof.
  intros Hb Ha Hm. unfold applySpecifiers, ReplaceAll.
  cbn [specifierMethod specifierService].
  change "%method%" with specifierMethod. change "%service%" with specifierService.
  rewrite (replaceScan_text _ _ "method%") by (reflexivity || assumption).
  change (specifierService ++ "method%" ++ after)
    with ("%service" ++ String "%" ("method%" ++ after)).
  rewrite (replaceScan_clear_text specifierMethod methName "method" eq_refl eq_refl
             "%service" _ eq_refl).
  change (String "%" ("method%" ++ after)) with (specifierMethod ++ after).
  rewrite replaceScan_method_hit.
  rewrite (replaceScan_absent specifierMethod methName after)
    by now apply noPercent_Contains.
  apply replaceScan_absent.
  change ("%service" ++ methName ++ after)
    with (String "%" ("service" ++ methName ++ after)).
  apply (one_percent_Contains "service"); [assumption|].
  repeat apply noPercent_app; (assumption || reflexivity).
Qed.

(** C6 (amended).  The template is resolved by two scans, the first for the
    method specifier and the second for the service specifier, each from
    left to right and resuming behind a match.  A template in which neither
    specifier occurs is returned as it is.  In a template made of any number
    of placeholders, in any order, and of pieces of text that hold no
    percent sign, the text between a service placeholder and the next
    placeholder not being the word method, every placeholder is replaced:
    by the method name, which holds no percent sign, or by the service
    name, and the text is kept.  The same holds when the text holds percent
    signs of its own, as in "5% %method% of %service%", as long as no
    specifier starts inside the text, what stands behind a service
    placeholder does not start with the word method and a percent sign, and
    the method name, free of percent signs, is not a piece of the word
    service.  Where the two specifiers share a percent sign, between texts
    without percent sign, only the method specifier is replaced: in
    "%method%service%" the method name is followed by the text "service%",
    in "%service%method%" the text "%service" is followed by the method
    name, and the service name appears in neither. *)
Theorem template_substitution :
  (forall template methName srvName,
     Contains template specifierMethod = false ->
     Contains template specifierService = false ->
     applySpecifiers template methName srvName = template)
  /\ (forall pieces tail methName srvName,
        unambiguous false pieces = true ->
        noPercent tail = true ->
        noPercent methName = true ->
        applySpecifiers (render specifierMethod specifierService pieces tail)
                        methName srvName =
        render methName srvName pieces tail)
  /\ (forall pieces tail methName srvName,
        separated false pieces tail = true ->
        noPercent methName = true ->
        Contains "service" methName = false ->
        applySpecifiers (render specifierMethod specifierService pieces tail)
                        methName srvName =
        render methName srvName pieces tail)
  /\ (forall before after methName srvName,
        noPercent before = true ->
        noPercent after = true ->
        noPercent methName = true ->
        applySpecifiers (before ++ "%method%service%" ++ after) methName srvName =
        before ++ methName ++ "service%" ++ after
        /\ applySpecifiers (before ++ "%service%method%" ++ after) methName srvName =
           before ++ "%service" ++ methName ++ after).
Proof.
  split; [|split; [|split]].
  - intros template methName srvName Hm Hs. unfold applySpecifiers.
    rewrite (ReplaceAll_absent _ _ _ Hm). now apply ReplaceAll_absent.
  - intros pieces tail methName srvName Hp Ht Hm. unfold applySpecifiers, ReplaceAll.
    cbn [specifierMethod specifierService].
    change "%method%" with specifierMethod. change "%service%" with specifierService.
    rewrite (method_pass methName tail Ht pieces Hp).
    now apply service_pass.
  - intros pieces tail methName srvName Hp Hm Hw. unfold applySpecifiers, ReplaceAll.
    cbn [specifierMethod specifierService].
    change "%method%" with specifierMethod. change "%service%" with specifierService.
    rewrite (separated_method_pass methName tail pieces Hp).
    now apply separated_service_pass.
  - intros before after methName srvName Hb Ha Hm. split.
    + now apply (shared_after_method before after methName srvName).
    + now apply (shared_after_service before after methName srvName).
Qed.

(** The default template, and a template that names the method twice. *)
Example default_template_resolved :
  applySpecifiers defaultErrMsg "GetUser" "Chat" =
  "Permission Denied. Method: " ++ dquote ++ "Chat.GetUser" ++ dquote
  ++ " has been redacted"
  /\ applySpecifiers "%method% in %service%: %method% is not allowed" "GetUser" "Chat" =
     "GetUser in Chat: GetUser is not allowed"
  /\ applySpecifiers
       (render specifierMethod specifierService
          [("", MethodPlaceholder); (" in ", ServicePlaceholder); (": ", MethodPlaceholder)]
          " is not allowed") "GetUser" "Chat" =
     render "GetUser" "Chat"
       [("", MethodPlaceholder); (" in ", ServicePlaceholder); (": ", MethodPlaceholder)]
       " is not allowed".
Proof. repeat split. Qed.

(** A template whose text holds percent signs of its own. *)
Example percent_in_text_resolved :
  separated false [("5% ", MethodPlaceholder); (" of ", ServicePlaceholder)] "" = true
  /\ render specifierMethod specifierService
       [("5% ", MethodPlaceholder); (" of ", ServicePlaceholder)] "" =
     "5% %method% of %service%"
  /\ applySpecifiers "5% %method% of %service%" "GetUser" "Chat" = "5% GetUser of Chat"
  /\ applySpecifiers "100% denied: %method%" "GetUser" "Chat" = "100% denied: GetUser".
Proof. repeat split. Qed.

(** The two scans on a template whose specifiers share a percent sign. *)
Example overlapping_specifiers_resolved :
  Contains "%method%service%" specifierService = true
  /\ ReplaceAll "%method%service%" specifierMethod "GetUser" = "GetUserservice%"
  /\ applySpecifiers "%method%service%" "GetUser" "Chat" = "GetUserservice%".
Proof. repeat split. Qed.

(** In the template "%method%service%" the service specifier occurs, yet
    the resolved message, "GetUserservice%", does not hold the service
    name: the method pass has taken the percent sign the two share. *)
Lemma overlapping_specifiers_counterexample : ~ everyOccurrenceReplaced.
Proof.
  intro H.
  destruct (H "%method%service%" "GetUser" "Chat") as [Hs _].
  specialize (Hs eq_refl). vm_compute in Hs. discriminate Hs.
Qed.

(* ================================================================== *)
(** * Further properties of the field resolver *)
(* ================================================================== *)

(** A field with a structured rule is validated and then handed, redacted
    and with the table's default, to [redactedCustomValue]. *)
Lemma processFields_with_rule (field : Field.t) (typ : FieldType.t)
    (rules : FieldRules) (nameWithAlias : Entity.t -> string) :
  Field.Type_ field = Some typ ->
  Field.E_Value field = Some rules ->
  processFields (Some field) nameWithAlias =
  match validateRules (Some rules) field with
  | Some err => Failed (Error err)
  | None => redactedCustomValue (prefilled field typ nameWithAlias) field (Some rules)
  end.
Proof.
  intros Ht Hv. unfold processFields, validateField, prefilled. rewrite Ht, Hv.
  cbn [Extension negb].
  destruct (validateRules (Some rules) field) eqn:Hr; [reflexivity|].
  destruct (Values rules) eqn:Hval.
  - destruct (FieldType.Embed typ); [reflexivity|].
    destruct (FieldType.Element typ) as [ele|]; [|reflexivity].
    destruct (ElementType.Embed ele); reflexivity.
  - unfold validateRules in Hr. rewrite Hval in Hr. discriminate.
Qed.

(** A rule that is classified with a kind passes the validation. *)
Lemma validateRules_classified (rules : FieldRules) (field : Field.t)
    (info : RuleInfo.t) (rt : ProtoType) :
  RuleInformation rules = Ok info ->
  RuleInfo.ProtoType_ info = Some rt ->
  validateRules (Some rules) field = None.
Proof.
  unfold RuleInformation, validateRules.
  destruct (Values rules) as [[| | | | | | | | | | | | | | | | [m|] | [e|]]|];
    intros H Hk; try discriminate; try reflexivity.
  injection H as <-. discriminate.
Qed.

(** X1.  No decision is both a nested call and an embed skip. *)
Theorem nested_call_excludes_skip :
  forall (field : Field.t) (nameWithAlias : Entity.t -> string) (d : FieldData.t),
    processFields (Some field) nameWithAlias = Ok d ->
    FieldData.NestedEmbedCall d && FieldData.EmbedSkip d = false.
Proof.
  intros field nameWithAlias d.
  destruct (Field.Type_ field) as [typ|] eqn:Ht;
    [|unfold processFields, validateField; rewrite Ht; discriminate].
  destruct (Field.E_Value field) as [rules|] eqn:Hv.
  - rewrite (processFields_with_rule field typ rules nameWithAlias Ht Hv).
    destruct (validateRules (Some rules) field); [discriminate|].
    generalize (prefilled field typ nameWithAlias) (eq_refl :
      FieldData.NestedEmbedCall (prefilled field typ nameWithAlias) = false) (eq_refl :
      FieldData.EmbedSkip (prefilled field typ nameWithAlias) = false).
    intros fl Hn Hs.
    unfold redactedCustomValue, failTypeMatch, failWithInvalidType, failWithContext,
      failWithNestedError, bind.
    split_match; intro H; try discriminate; injection H as <-; cbn;
      rewrite ?Hn, ?Hs; reflexivity.
  - intro H. destruct (processFields_without_rule field typ nameWithAlias Ht Hv)
      as (d' & Hd' & _ & _ & Hn). rewrite Hd' in H. injection H as <-.
    now rewrite Hn.
Qed.

Lemma nested_call_excludes_skip_witness :
  FieldData.NestedEmbedCall
    (FieldData.mk "Profile" true "nil" "" false false true false false false true
       "Profile" "Profile")
  && FieldData.EmbedSkip
       (FieldData.mk "Profile" true "nil" "" false false true false false false true
          "Profile" "Profile") = false.
Proof.
  apply (nested_call_excludes_skip skippedProfileField plainName
           (FieldData.mk "Profile" true "nil" "" false false true false false false true
              "Profile" "Profile")).
  reflexivity.
Defined.

(** X2.  A decision iterates only for a field that has an element type and
    carries an element rule whose empty flag is off and which asks for
    nested defaults or gives an item rule. *)
Theorem iterate_needs_element_rule :
  forall (field : Field.t) (typ : FieldType.t) (nameWithAlias : Entity.t -> string)
         (d : FieldData.t),
    Field.Type_ field = Some typ ->
    processFields (Some field) nameWithAlias = Ok d ->
    FieldData.Iterate d = true ->
    exists rule ele,
      Field.E_Value field = Some (mkFieldRules (Some (FieldRules_Element (Some rule))))
      /\ FieldType.Element typ = Some ele
      /\ Empty rule = false
      /\ (Nested rule = true \/ exists item, Item rule = Some item).
Proof.
  intros field typ nameWithAlias d Ht.
  destruct (Field.E_Value field) as [rules|] eqn:Hv.
  - rewrite (processFields_with_rule field typ rules nameWithAlias Ht Hv).
    destruct (validateRules (Some rules) field); [discriminate|].
    generalize (prefilled field typ nameWithAlias) (eq_refl :
      FieldData.Iterate (prefilled field typ nameWithAlias) = false).
    intros fl Hi.
    unfold redactedCustomValue, failTypeMatch, failWithInvalidType, failWithContext,
      failWithNestedError, bind. rewrite Ht.
    destruct rules as [[v|]]; cbn [Values];
      [|cbn [RuleInformation Values]; discriminate].
    destruct v as [| | | | | | | | | | | | | | | | [m|] | [rule|]];
      cbn [RuleInformation Values RuleInfo.ProtoType_ RuleInfo.ProtoLabel_
           RuleInfo.RedactionValue optType_eqb optLabel_eqb negb andb];
      split_match; intro H; try discriminate; injection H as <-; cbn;
      rewrite ?Hi; intro Hit; try discriminate;
      destruct rule as [n e i]; cbn [Empty Nested Item] in *; subst;
      do 2 eexists; repeat split; eauto;
      cbn [Nested Item]; solve [now left | right; eexists; reflexivity].
  - intro H. destruct (processFields_without_rule field typ nameWithAlias Ht Hv)
      as (d' & Hd' & _). rewrite Hd' in H. injection H as <-.
    unfold processFields, validateField in Hd'. rewrite Ht, Hv in Hd'.
    cbn [Extension negb] in Hd'. injection Hd' as <-.
    destruct (FieldType.Embed typ); [discriminate|].
    destruct (FieldType.Element typ) as [ele|]; [|discriminate].
    destruct (ElementType.Embed ele); discriminate.
Qed.

Lemma iterate_needs_element_rule_witness :
  exists rule ele,
    Field.E_Value (scoresField (mkElementRules true false None)) =
      Some (mkFieldRules (Some (FieldRules_Element (Some rule))))
    /\ FieldType.Element (repeatedOf Int32T "int32") = Some ele
    /\ Empty rule = false
    /\ (Nested rule = true \/ exists item, Item rule = Some item).
Proof.
  apply (iterate_needs_element_rule (scoresField (mkElementRules true false None))
           (repeatedOf Int32T "int32") plainName
           (FieldData.mk "Scores" true "0" "int32" false true false false true false false
              "" ""));
    reflexivity.
Defined.

(** X3.  A rule classified with a kind other than the field's kind is
    refused, whatever the field's label: the message names the field, the
    kind of the field and the kind of the rule, and gives the rule spelling
    for the field. *)
Theorem rule_kind_mismatch_refused :
  forall (field : Field.t) (typ : FieldType.t) (rules : FieldRules)
         (info : RuleInfo.t) (rt : ProtoType) (nameWithAlias : Entity.t -> string),
    Field.Type_ field = Some typ ->
    Field.E_Value field = Some rules ->
    RuleInformation rules = Ok info ->
    RuleInfo.ProtoType_ info = Some rt ->
    ProtoType_eqb rt (FieldType.ProtoType_ typ) = false ->
    processFields (Some field) nameWithAlias =
    Failed ("Validation failed for field " ++ Field.FullyQualifiedName field
              ++ ": expected rule for type " ++ ProtoType_String (FieldType.ProtoType_ typ)
              ++ ", got rule for type " ++ ProtoType_String rt
              ++ " (hint: use "
              ++ ToCustomRule (FieldType.ProtoType_ typ) (FieldType.ProtoLabel_ typ)
              ++ " instead)").
Proof.
  intros field typ rules info rt nameWithAlias Ht Hv Hi Hk Hne.
  rewrite (processFields_with_rule field typ rules nameWithAlias Ht Hv).
  rewrite (validateRules_classified rules field info rt Hi Hk).
  unfold redactedCustomValue. rewrite Ht, Hi. cbn [bind]. rewrite Hk, Hne. cbn [negb].
  unfold failTypeMatch, validateTypeMatch. rewrite Hk, Hne. cbn [negb].
  f_equal. unfold Error, ValidationError.Error.
  cbn [ValidationError.Entity ValidationError.Expected ValidationError.Got
       ValidationError.Hint].
  assert (Hexp : nonEmpty ("rule for type " ++ ProtoType_String (FieldType.ProtoType_ typ))
                 = true) by reflexivity.
  assert (Hgot : nonEmpty ("rule for type " ++ ProtoType_String rt) = true) by reflexivity.
  assert (Hhint : nonEmpty ("use " ++ ToCustomRule (FieldType.ProtoType_ typ)
                              (FieldType.ProtoLabel_ typ) ++ " instead") = true)
    by reflexivity.
  rewrite Hexp, Hgot, Hhint. rewrite !append_assoc. reflexivity.
Qed.

Lemma rule_kind_mismatch_refused_witness :
  processFields (Some misruledNameField) plainName =
  Failed ("Validation failed for field " ++ Field.FullyQualifiedName misruledNameField
            ++ ": expected rule for type "
            ++ ProtoType_String (FieldType.ProtoType_ (singular StringT "string"))
            ++ ", got rule for type " ++ ProtoType_String Int32T
            ++ " (hint: use "
            ++ ToCustomRule (FieldType.ProtoType_ (singular StringT "string"))
                 (FieldType.ProtoLabel_ (singular StringT "string"))
            ++ " instead)").
Proof.
  apply (rule_kind_mismatch_refused misruledNameField (singular StringT "string")
           (mkFieldRules (Some (FieldRules_Int32 7)))
           (RuleInfo.mk (IntValue 7) (Some Int32T) None) Int32T plainName);
    reflexivity.
Defined.

(** X4.  On a field whose label is repeated (a list or a map), a rule of
    the field's own kind that is not an element rule is refused: the
    message asks for an element rule. *)
Theorem container_needs_element_rule :
  forall (field : Field.t) (typ : FieldType.t) (rules : FieldRules)
         (info : RuleInfo.t) (rt : ProtoType) (nameWithAlias : Entity.t -> string),
    Field.Type_ field = Some typ ->
    Field.E_Value field = Some rules ->
    RuleInformation rules = Ok info ->
    RuleInfo.ProtoType_ info = Some rt ->
    ProtoType_eqb rt (FieldType.ProtoType_ typ) = true ->
    ProtoLabel_eqb (FieldType.ProtoLabel_ typ) Repeated = true ->
    processFields (Some field) nameWithAlias =
    Failed ("Validation failed for repeated field " ++ Field.FullyQualifiedName field
              ++ ": expected (redact.custom).element.*, got non-repeated rule"
              ++ " (hint: repeated fields require element rules)").
Proof.
  intros field typ rules info rt nameWithAlias Ht Hv Hi Hk Heq Hl.
  assert (Hlab : RuleInfo.ProtoLabel_ info = None).
  { unfold RuleInformation in Hi.
    destruct (Values rules) as [[| | | | | | | | | | | | | | | | [m|] | [e|]]|];
      try discriminate; injection Hi as <-; try reflexivity. discriminate. }
  rewrite (processFields_with_rule field typ rules nameWithAlias Ht Hv).
  rewrite (validateRules_classified rules field info rt Hi Hk).
  unfold redactedCustomValue. rewrite Ht, Hi. cbn [bind].
  rewrite Hk, Heq, Hl, Hlab. cbn [negb optLabel_eqb andb].
  unfold failTypeMatch, validateTypeMatch. rewrite Hk, Heq, Hl, Hlab.
  cbn [negb optLabel_eqb andb].
  f_equal. unfold Error, ValidationError.Error.
  cbn [ValidationError.Entity ValidationError.Expected ValidationError.Got
       ValidationError.Hint].
  change (nonEmpty "(redact.custom).element.*") with true.
  change (nonEmpty "non-repeated rule") with true.
  change (nonEmpty "repeated fields require element rules") with true.
  cbv iota. rewrite !append_assoc. reflexivity.
Qed.

Lemma container_needs_element_rule_witness :
  processFields (Some misruledTagsField) plainName =
  Failed ("Validation failed for repeated field "
            ++ Field.FullyQualifiedName misruledTagsField
            ++ ": expected (redact.custom).element.*, got non-repeated rule"
            ++ " (hint: repeated fields require element rules)").
Proof.
  apply (container_needs_element_rule misruledTagsField (repeatedOf StringT "string")
           (mkFieldRules (Some (FieldRules_String_ "x")))
           (RuleInfo.mk (StringValue "`x`") (Some StringT) None) StringT plainName);
    reflexivity.
Defined.

(** X5.  On a field whose label is not repeated, a scalar or enum rule of
    the field's own kind resolves to a redacted decision whose value is the
    rule's literal as the classifier renders it, with no iteration, no
    nested call and no skip. *)
Theorem scalar_rule_sets_literal :
  forall (field : Field.t) (typ : FieldType.t) (rules : FieldRules)
         (info : RuleInfo.t) (rt : ProtoType) (nameWithAlias : Entity.t -> string),
    Field.Type_ field = Some typ ->
    Field.E_Value field = Some rules ->
    RuleInformation rules = Ok info ->
    RuleInfo.ProtoType_ info = Some rt ->
    ProtoType_eqb rt (FieldType.ProtoType_ typ) = true ->
    ProtoType_eqb rt MessageT = false ->
    ProtoLabel_eqb (FieldType.ProtoLabel_ typ) Repeated = false ->
    exists d,
      processFields (Some field) nameWithAlias = Ok d
      /\ FieldData.Redact d = true
      /\ FieldData.RedactionValue d = fmt_v (RuleInfo.RedactionValue info)
      /\ FieldData.Iterate d = false
      /\ FieldData.NestedEmbedCall d = false
      /\ FieldData.EmbedSkip d = false.
Proof.
  intros field typ rules info rt nameWithAlias Ht Hv Hi Hk Heq Hm Hl.
  rewrite (processFields_with_rule field typ rules nameWithAlias Ht Hv).
  rewrite (validateRules_classified rules field info rt Hi Hk).
  unfold redactedCustomValue. rewrite Ht, Hi. cbn [bind].
  rewrite Hk, Heq, Hl. cbn [negb andb optType_eqb]. rewrite Hm. cbn [negb andb].
  assert (Hlab : RuleInfo.ProtoLabel_ info = None).
  { unfold RuleInformation in Hi.
    destruct (Values rules) as [[| | | | | | | | | | | | | | | | [m|] | [e|]]|];
      try discriminate; injection Hi as <-; try reflexivity. discriminate. }
  rewrite Hlab. cbn [optLabel_eqb negb].
  eexists. split; [reflexivity|]. repeat split.
Qed.

Lemma scalar_rule_sets_literal_witness :
  exists d,
    processFields (Some emailField) plainName = Ok d
    /\ FieldData.Redact d = true
    /\ FieldData.RedactionValue d =
         fmt_v (RuleInfo.RedactionValue
                  (RuleInfo.mk (StringValue "`r*d@ct*d`") (Some StringT) None))
    /\ FieldData.Iterate d = false
    /\ FieldData.NestedEmbedCall d = false
    /\ FieldData.EmbedSkip d = false.
Proof.
  apply (scalar_rule_sets_literal emailField (singular StringT "string")
           (mkFieldRules (Some (FieldRules_String_ "r*d@ct*d")))
           (RuleInfo.mk (StringValue "`r*d@ct*d`") (Some StringT) None) StringT plainName);
    reflexivity.
Defined.

(** ** Element rules *)

(** An accepted element rule reaches the element branch of
    [redactedCustomValue]: neither kind check stops it, whatever the
    field's kind and label. *)
Ltac element_branch Ht Hv Hr :=
  match type of Hv with
  | Field.E_Value ?field = Some ?rules =>
      match type of Ht with
      | Field.Type_ field = Some ?typ =>
          match goal with
          | |- context [processFields (Some field) ?nwa] =>
              rewrite (processFields_with_rule field typ rules nwa Ht Hv), Hr;
              unfold redactedCustomValue; rewrite Ht;
              cbn [RuleInformation Values bind RuleInfo.ProtoType_ RuleInfo.ProtoLabel_
                   optType_eqb optLabel_eqb ProtoLabel_eqb negb];
              rewrite ?andb_false_r; cbn [negb andb]
          end
      end
  end.

(** X6.  An element rule with the nested flag on and the empty flag off, on
    a field that has an element type, gives a decision that iterates; its
    value is the table's default for one element, and it is a nested call
    exactly when the element is a message.  An item rule given besides is
    not looked at. *)
Theorem element_nested_iterates_with_defaults :
  forall (field : Field.t) (typ : FieldType.t) (ele : ElementType.t)
         (item : option FieldRules) (nameWithAlias : Entity.t -> string),
    let rules := mkFieldRules (Some (FieldRules_Element
                   (Some (mkElementRules true false item)))) in
    Field.Type_ field = Some typ ->
    FieldType.Element typ = Some ele ->
    Field.E_Value field = Some rules ->
    validateRules (Some rules) field = None ->
    exists d,
      processFields (Some field) nameWithAlias = Ok d
      /\ FieldData.Redact d = true
      /\ FieldData.Iterate d = true
      /\ FieldData.RedactionValue d = RedactionDefaults (ElementType.ProtoType_ ele) false
      /\ FieldData.NestedEmbedCall d = ElementType.IsEmbed ele
      /\ FieldData.EmbedSkip d = false.
Proof.
  intros field typ ele item nameWithAlias rules Ht He Hv Hr. subst rules.
  element_branch Ht Hv Hr. cbn [Empty Nested]. rewrite He.
  destruct (ElementType.IsEmbed ele); eexists; (split; [reflexivity|]); repeat split.
Qed.

Lemma element_nested_iterates_with_defaults_witness :
  exists d,
    processFields (Some (scoresField (mkElementRules true false None))) plainName = Ok d
    /\ FieldData.Redact d = true
    /\ FieldData.Iterate d = true
    /\ FieldData.RedactionValue d =
         RedactionDefaults (ElementType.ProtoType_ (ElementType.mk Int32T false None)) false
    /\ FieldData.NestedEmbedCall d = ElementType.IsEmbed (ElementType.mk Int32T false None)
    /\ FieldData.EmbedSkip d = false.
Proof.
  apply (element_nested_iterates_with_defaults
           (scoresField (mkElementRules true false None)) (repeatedOf Int32T "int32")
           (ElementType.mk Int32T false None) None plainName);
    reflexivity.
Defined.



(** X8.  An element rule with neither flag on and no item rule, or an item
    rule without a value, is accepted: the decision is redacted with the
    table's default for the field, which is "nil" for a list or a map, and
    does not iterate. *)
Theorem element_rule_without_option_keeps_default :
  forall (field : Field.t) (typ : FieldType.t) (item : option FieldRules)
         (nameWithAlias : Entity.t -> string),
    let rules := mkFieldRules (Some (FieldRules_Element
                   (Some (mkElementRules false false item)))) in
    Field.Type_ field = Some typ ->
    Field.E_Value field = Some rules ->
    item = None \/ item = Some (mkFieldRules None) ->
    exists d,
      processFields (Some field) nameWithAlias = Ok d
      /\ FieldData.Redact d = true
      /\ FieldData.Iterate d = false
      /\ FieldData.NestedEmbedCall d = false
      /\ FieldData.EmbedSkip d = false
      /\ FieldData.RedactionValue d =
           RedactionDefaults (FieldType.ProtoType_ typ)
             (FieldType.IsRepeated typ || FieldType.IsMap typ).
Proof.
  intros field typ item nameWithAlias rules Ht Hv Hitem. subst rules.
  assert (Hr : validateRules
                 (Some (mkFieldRules (Some (FieldRules_Element
                    (Some (mkElementRules false false item)))))) field = None)
    by (destruct Hitem as [-> | ->]; reflexivity).
  element_branch Ht Hv Hr. cbn [Empty Nested Item].
  destruct Hitem as [-> | ->]; cbn [Values]; eexists; (split; [reflexivity|]);
    repeat split.
Qed.

Lemma element_rule_without_option_keeps_default_witness :
  exists d,
    processFields (Some (scoresField (mkElementRules false false None))) plainName = Ok d
    /\ FieldData.Redact d = true
    /\ FieldData.Iterate d = false
    /\ FieldData.NestedEmbedCall d = false
    /\ FieldData.EmbedSkip d = false
    /\ FieldData.RedactionValue d =
         RedactionDefaults (FieldType.ProtoType_ (repeatedOf Int32T "int32"))
           (FieldType.IsRepeated (repeatedOf Int32T "int32")
            || FieldType.IsMap (repeatedOf Int32T "int32")).
Proof.
  apply (element_rule_without_option_keeps_default
           (scoresField (mkElementRules false false None)) (repeatedOf Int32T "int32")
           None plainName);
    [reflexivity | reflexivity | left; reflexivity].
Defined.

(** X9.  An element rule with both flags off and a scalar or enum item rule
    of the element's own kind gives a decision that iterates and whose
    value is the item rule's literal; an item rule of another kind is
    refused with the rule spelling for the field. *)
Theorem element_item_scalar :
  forall (field : Field.t) (typ : FieldType.t) (ele : ElementType.t)
         (item : FieldRules) (info : RuleInfo.t) (rt : ProtoType)
         (nameWithAlias : Entity.t -> string),
    let rules := mkFieldRules (Some (FieldRules_Element
                   (Some (mkElementRules false false (Some item))))) in
    Field.Type_ field = Some typ ->
    FieldType.Element typ = Some ele ->
    Field.E_Value field = Some rules ->
    RuleInformation item = Ok info ->
    RuleInfo.ProtoType_ info = Some rt ->
    ProtoType_eqb rt MessageT = false ->
    (ProtoType_eqb rt (ElementType.ProtoType_ ele) = true ->
       exists d,
         processFields (Some field) nameWithAlias = Ok d
         /\ FieldData.Redact d = true
         /\ FieldData.Iterate d = true
         /\ FieldData.RedactionValue d = fmt_v (RuleInfo.RedactionValue info)
         /\ FieldData.NestedEmbedCall d = false
         /\ FieldData.EmbedSkip d = false)
    /\ (ProtoType_eqb rt (ElementType.ProtoType_ ele) = false ->
          processFields (Some field) nameWithAlias =
          failWithInvalidType field typ).
Proof.
  intros field typ ele item info rt nameWithAlias rules Ht He Hv Hi Hk Hm. subst rules.
  assert (Hval : exists v, Values item = Some v /\ GetElement item = None).
  { unfold RuleInformation in Hi. unfold GetElement.
    destruct (Values item) as [[| | | | | | | | | | | | | | | | [m|] | [e|]]|];
      try discriminate; try (eexists; split; reflexivity).
    injection Hi as <-. discriminate. }
  destruct Hval as (v & Hval & Hge).
  assert (Hr : validateRules
                 (Some (mkFieldRules (Some (FieldRules_Element
                    (Some (mkElementRules false false (Some item))))))) field = None).
  { unfold validateRules. cbn [Values Item]. rewrite Hval.
    unfold GetElement in Hge. rewrite Hval in Hge.
    destruct v; try reflexivity. unfold RuleInformation in Hi. rewrite Hval in Hi.
    destruct Element; [injection Hi as <-|]; discriminate. }
  split; intro Heq; element_branch Ht Hv Hr; cbn [Empty Nested Item];
    rewrite Hval, Hge, Hi; cbn [bind]; rewrite He, Hk;
    cbn [optType_eqb]; rewrite Heq; cbn [negb]; [|reflexivity].
  rewrite Hm. cbn [negb]. eexists. split; [reflexivity|]. repeat split.
Qed.

Lemma element_item_scalar_witness :
  (ProtoType_eqb Int32T (ElementType.ProtoType_ (ElementType.mk Int32T false None)) = true ->
     exists d,
       processFields
         (Some (scoresField (mkElementRules false false
                  (Some (mkFieldRules (Some (FieldRules_Int32 (-1))))))))
         plainName = Ok d
       /\ FieldData.Redact d = true
       /\ FieldData.Iterate d = true
       /\ FieldData.RedactionValue d =
            fmt_v (RuleInfo.RedactionValue (RuleInfo.mk (IntValue (-1)) (Some Int32T) None))
       /\ FieldData.NestedEmbedCall d = false
       /\ FieldData.EmbedSkip d = false)
  /\ (ProtoType_eqb Int32T (ElementType.ProtoType_ (ElementType.mk Int32T false None))
      = false ->
        processFields
          (Some (scoresField (mkElementRules false false
                   (Some (mkFieldRules (Some (FieldRules_Int32 (-1))))))))
          plainName =
        failWithInvalidType
          (scoresField (mkElementRules false false
             (Some (mkFieldRules (Some (FieldRules_Int32 (-1)))))))
          (repeatedOf Int32T "int32")).
Proof.
  apply (element_item_scalar
           (scoresField (mkElementRules false false
              (Some (mkFieldRules (Some (FieldRules_Int32 (-1)))))))
           (repeatedOf Int32T "int32") (ElementType.mk Int32T false None)
           (mkFieldRules (Some (FieldRules_Int32 (-1))))
           (RuleInfo.mk (IntValue (-1)) (Some Int32T) None) Int32T plainName);
    reflexivity.
Defined.



(** ** The classifier *)

(** X11.  Every rule the validation accepts is classified, and a classified
    rule has either a kind or the container label, never both and never
    neither; the only label the classifier gives is the repeated one. *)
Theorem accepted_rule_is_classified :
  forall (rules : FieldRules) (field : Field.t),
    validateRules (Some rules) field = None ->
    exists info,
      RuleInformation rules = Ok info
      /\ (RuleInfo.ProtoType_ info = None <-> RuleInfo.ProtoLabel_ info = Some Repeated)
      /\ (RuleInfo.ProtoType_ info <> None <-> RuleInfo.ProtoLabel_ info = None).
Proof.
  intros rules field. unfold validateRules, RuleInformation.
  destruct (Values rules) as [[| | | | | | | | | | | | | | | | [m|] | [e|]]|];
    intro H; try discriminate; eexists; (split; [reflexivity|]);
    cbn [RuleInfo.ProtoType_ RuleInfo.ProtoLabel_]; split; split; intro H0;
    try reflexivity; try discriminate; try (exfalso; now apply H0).
Qed.

Lemma accepted_rule_is_classified_witness :
  exists info,
    RuleInformation (mkFieldRules (Some (FieldRules_String_ "r*d@ct*d"))) = Ok info
    /\ (RuleInfo.ProtoType_ info = None <-> RuleInfo.ProtoLabel_ info = Some Repeated)
    /\ (RuleInfo.ProtoType_ info <> None <-> RuleInfo.ProtoLabel_ info = None).
Proof.
  apply (accepted_rule_is_classified (mkFieldRules (Some (FieldRules_String_ "r*d@ct*d")))
           emailField).
  reflexivity.
Defined.

(* ================================================================== *)
(** * Further properties of the validation messages *)
(* ================================================================== *)

Lemma HasPrefix_append (a b : string) : HasPrefix (a ++ b) a = true.
Proof.
  induction a as [|c a IH]; [reflexivity|]. cbn [append HasPrefix].
  now rewrite Ascii.eqb_refl, IH.
Qed.

(** X12.  Whatever parts a validation error has, its message starts with
    the words Validation failed for and the entity; with no expectation, no
    finding and no hint it is just that. *)
Theorem validation_message_names_entity :
  forall (v : ValidationError.t),
    HasPrefix (ValidationError.Error v)
      ("Validation failed for " ++ ValidationError.Entity v) = true
    /\ ValidationError.Error
         (ValidationError.mk (ValidationError.Entity v) "" "" "") =
       "Validation failed for " ++ ValidationError.Entity v.
Proof.
  intro v. split; [|reflexivity]. unfold ValidationError.Error.
  set (start := "Validation failed for " ++ ValidationError.Entity v).
  destruct (nonEmpty (ValidationError.Expected v)), (nonEmpty (ValidationError.Got v)),
    (nonEmpty (ValidationError.Hint v));
    rewrite ?append_assoc;
    first [ apply HasPrefix_append
          | rewrite <- (append_nil_r start) at 1; apply HasPrefix_append ].
Qed.

(* ================================================================== *)
(** * Further properties of the message resolver *)
(* ================================================================== *)

(** X13.  A message with the ignored option alone is resolved without
    looking at its fields: the decision has no field, whatever the fields
    are and whether fields were asked for, and its nil and empty flags are
    off. *)
Theorem ignored_message_has_no_fields :
  forall (msg : Message.t) (nameWithAlias : Entity.t -> string) (wantFields : list bool),
    flag (Message.E_Ignored msg) = true ->
    flag (Message.E_Nil msg) = false ->
    flag (Message.E_Empty msg) = false ->
    processMessage (Some msg) nameWithAlias wantFields =
    Ok (MessageData.mk (Entity.Name (Message.Self msg)) (nameWithAlias (Message.Self msg))
          [] true false false).
Proof.
  intros msg nameWithAlias wantFields Hi Hn He.
  unfold processMessage. rewrite validateMessage_cases. unfold optionsSet.
  rewrite !Extension_flag, Hi, Hn, He. reflexivity.
Qed.

Lemma ignored_message_has_no_fields_witness :
  processMessage (Some (userWith (Some true) None None [nestedTagsField])) plainName [true] =
  Ok (MessageData.mk
        (Entity.Name (Message.Self (userWith (Some true) None None [nestedTagsField])))
        (plainName (Message.Self (userWith (Some true) None None [nestedTagsField])))
        [] true false false).
Proof.
  apply (ignored_message_has_no_fields
           (userWith (Some true) None None [nestedTagsField]) plainName [true]);
    reflexivity.
Defined.

(** X14.  Asked for fields, by any value of the flag, the message resolver
    produces a decision exactly when the options do not conflict and the
    message is ignored or each of its fields resolves. *)
Theorem message_with_fields_accepted_iff :
  forall (msg : Message.t) (nameWithAlias : Entity.t -> string) (b : bool) (bs : list bool),
    is_ok (processMessage (Some msg) nameWithAlias (b :: bs)) =
    Nat.leb (optionsSet msg) 1
    && (flag (Message.E_Ignored msg)
        || forallb (fun field => is_ok (processFields (Some field) nameWithAlias))
                   (Message.Fields msg)).
Proof.
  intros msg nameWithAlias b bs.
  unfold processMessage. rewrite validateMessage_cases. unfold optionsSet.
  rewrite !Extension_flag. cbn [List.length Nat.ltb Nat.leb].
  rewrite <- forEach_is_ok.
  destruct (flag (Message.E_Ignored msg)), (flag (Message.E_Nil msg)),
    (flag (Message.E_Empty msg)); cbn; try reflexivity;
    destruct (forEach _ (Message.Fields msg)); reflexivity.
Qed.

(** X15.  Asked for fields, a message that is not ignored gets one field
    decision per field, in the order of the fields, each the decision the
    field resolver gives that field; the decision carries the nil and the
    empty option. *)
Theorem message_fields_resolved_in_order :
  forall (msg : Message.t) (nameWithAlias : Entity.t -> string) (b : bool)
         (bs : list bool) (d : MessageData.t),
    processMessage (Some msg) nameWithAlias (b :: bs) = Ok d ->
    flag (Message.E_Ignored msg) = false ->
    Forall2 (fun field fd => processFields (Some field) nameWithAlias = Ok fd)
            (Message.Fields msg) (MessageData.Fields d)
    /\ MessageData.Ignore d = false
    /\ MessageData.ToNil d = flag (Message.E_Nil msg)
    /\ MessageData.ToEmpty d = flag (Message.E_Empty msg).
Proof.
  intros msg nameWithAlias b bs d. unfold processMessage.
  destruct (validateMessage (Some msg)); [discriminate|].
  rewrite !Extension_flag. intros H Hi. rewrite Hi in H.
  cbn [List.length Nat.ltb Nat.leb] in H.
  destruct (forEach _ (Message.Fields msg)) as [fields|] eqn:Hf; [|discriminate].
  cbn [bind] in H. injection H as <-. cbn. repeat split.
  now apply forEach_Forall2.
Qed.

Lemma message_fields_resolved_in_order_witness :
  Forall2 (fun field fd => processFields (Some field) plainName = Ok fd)
          (Message.Fields (userWith None (Some true) None [passwordField; emailField]))
          (MessageData.Fields
             (MessageData.mk "User" "User"
                [FieldData.mk "Password" false "" "string" false false false false
                   false false false "" "";
                 FieldData.mk "Email" true "`r*d@ct*d`" "string" false false false false
                   false false false "" ""]
                false true false))
  /\ MessageData.Ignore
       (MessageData.mk "User" "User"
          [FieldData.mk "Password" false "" "string" false false false false
             false false false "" "";
           FieldData.mk "Email" true "`r*d@ct*d`" "string" false false false false
             false false false "" ""]
          false true false) = false
  /\ MessageData.ToNil
       (MessageData.mk "User" "User"
          [FieldData.mk "Password" false "" "string" false false false false
             false false false "" "";
           FieldData.mk "Email" true "`r*d@ct*d`" "string" false false false false
             false false false "" ""]
          false true false) =
     flag (Message.E_Nil (userWith None (Some true) None [passwordField; emailField]))
  /\ MessageData.ToEmpty
       (MessageData.mk "User" "User"
          [FieldData.mk "Password" false "" "string" false false false false
             false false false "" "";
           FieldData.mk "Email" true "`r*d@ct*d`" "string" false false false false
             false false false "" ""]
          false true false) =
     flag (Message.E_Empty (userWith None (Some true) None [passwordField; emailField])).
Proof.
  apply (message_fields_resolved_in_order
           (userWith None (Some true) None [passwordField; emailField]) plainName true []);
    reflexivity.
Defined.

(* ================================================================== *)
(** * Further properties of the service resolver *)
(* ================================================================== *)

(** X16.  The service resolver produces a decision exactly for a service
    whose own status code, when set, is at most 16 and whose methods each
    have an input and an output, an output without conflicting options and
    an own status code, when set, at most 16; the skip options of the
    service and of its methods do not enter: what is skipped is validated
    all the same. *)
Theorem service_accepted_iff :
  forall (srv : Service.t) (nameWithAlias : Entity.t -> string),
    is_ok (processService (Some srv) nameWithAlias) =
    codeValid (Service.E_InternalServiceCode srv)
    && forallb (fun meth =>
                  match Method.Input meth, Method.Output meth with
                  | Some _, Some out =>
                      Nat.leb (optionsSet out) 1
                      && codeValid (Method.E_InternalMethodCode meth)
                  | _, _ => false
                  end) (Service.Methods srv).
Proof. intros srv nameWithAlias. apply processService_is_ok. Qed.

Lemma Code_String_name (c : N) : (c <= 16)%N -> In (Code_String c) statusNames.
Proof.
  intro H.
  assert (Hc : (c = 0 \/ c = 1 \/ c = 2 \/ c = 3 \/ c = 4 \/ c = 5 \/ c = 6 \/ c = 7
                \/ c = 8 \/ c = 9 \/ c = 10 \/ c = 11 \/ c = 12 \/ c = 13 \/ c = 14
                \/ c = 15 \/ c = 16)%N) by lia.
  repeat (destruct Hc as [-> | Hc]; [cbn; tauto|]). subst c. cbn. tauto.
Qed.

(** X17.  In the decision of a service, the status code of every method
    that is not skipped is one of the seventeen names of the status codes,
    namely the name of the method's own code when it has one and of the
    service's code otherwise, permission denied when the service has
    none. *)
Theorem method_status_is_a_code_name :
  forall (srv : Service.t) (nameWithAlias : Entity.t -> string),
    serviceValid srv = true ->
    exists d,
      processService (Some srv) nameWithAlias = Ok d
      /\ Forall2 (fun meth m =>
                    MethodData.Skip m = false ->
                    In (MethodData.StatusCode m) statusNames
                    /\ MethodData.StatusCode m =
                         Code_String
                           (match Method.E_InternalMethodCode meth,
                                  Service.E_InternalServiceCode srv with
                            | Some own, _ => own
                            | None, Some inherited => inherited
                            | None, None => 7%N
                            end))
                 (Service.Methods srv) (ServiceData.Methods d).
Proof.
  intros srv nameWithAlias Hv.
  destruct (processService_Ok srv nameWithAlias Hv) as (methods & Hd & Hm).
  eexists. split; [exact Hd|]. cbn [ServiceData.Methods]. clear Hd.
  induction Hm as [|meth d ms ds Hd1 _ IH]; constructor; [|exact IH].
  intro Hs. apply processMethod_Ok in Hd1 as (_ & _ & _ & Hd1).
  destruct (Hd1 Hs) as (Hle & _ & Hc & _). rewrite Hc. split.
  - now apply Code_String_name.
  - unfold methodCode, serviceCode, PermissionDenied.
    destruct (Method.E_InternalMethodCode meth), (Service.E_InternalServiceCode srv);
      reflexivity.
Qed.

Lemma method_status_is_a_code_name_witness :
  exists d,
    processService (Some (chat None)) plainName = Ok d
    /\ Forall2 (fun meth m =>
                  MethodData.Skip m = false ->
                  In (MethodData.StatusCode m) statusNames
                  /\ MethodData.StatusCode m =
                       Code_String
                         (match Method.E_InternalMethodCode meth,
                                Service.E_InternalServiceCode (chat None) with
                          | Some own, _ => own
                          | None, Some inherited => inherited
                          | None, None => 7%N
                          end))
               (Service.Methods (chat None)) (ServiceData.Methods d).
Proof.
  apply (method_status_is_a_code_name (chat None) plainName); reflexivity.
Defined.

Lemma default_template_resolved_for (methName srvName : string) :
  noPercent methName = true ->
  applySpecifiers defaultErrMsg methName srvName =
  "Permission Denied. Method: " ++ dquote ++ srvName ++ "." ++ methName ++ dquote
    ++ " has been redacted".
Proof.
  intro Hm.
  change defaultErrMsg
    with (render specifierMethod specifierService defaultPieces defaultTail).
  unfold applySpecifiers, ReplaceAll. cbn [specifierMethod specifierService].
  change "%method%" with specifierMethod. change "%service%" with specifierService.
  rewrite (method_pass methName defaultTail eq_refl defaultPieces eq_refl).
  rewrite (service_pass methName srvName defaultTail eq_refl defaultPieces Hm eq_refl).
  cbn [render defaultPieces defaultTail]. rewrite !append_assoc. reflexivity.
Qed.

(** X18.  In the decision of a service without a message template of its
    own, a method that is not skipped, has no template of its own and whose
    name holds no percent sign gets as its error message, between
    backticks, the default sentence with the service's and the method's
    names: Permission Denied. Method: "Service.Method" has been redacted. *)
Theorem default_message_names_service_and_method :
  forall (srv : Service.t) (nameWithAlias : Entity.t -> string),
    serviceValid srv = true ->
    Service.E_InternalServiceErrMessage srv = None ->
    exists d,
      processService (Some srv) nameWithAlias = Ok d
      /\ Forall2 (fun meth m =>
                    MethodData.Skip m = false ->
                    Method.E_InternalMethodErrMessage meth = None ->
                    noPercent (Entity.Name (Method.Self meth)) = true ->
                    MethodData.ErrMessage m =
                      "`Permission Denied. Method: " ++ dquote
                        ++ Entity.Name (Service.Self srv) ++ "."
                        ++ Entity.Name (Method.Self meth) ++ dquote
                        ++ " has been redacted`")
                 (Service.Methods srv) (ServiceData.Methods d).
Proof.
  intros srv nameWithAlias Hv Hnone.
  destruct (processService_Ok srv nameWithAlias Hv) as (methods & Hd & Hm).
  eexists. split; [exact Hd|]. cbn [ServiceData.Methods]. clear Hd.
  induction Hm as [|meth d ms ds Hd1 _ IH]; constructor; [|exact IH].
  intros Hs Hown Hname. apply processMethod_Ok in Hd1 as (_ & _ & _ & Hd1).
  destruct (Hd1 Hs) as (_ & _ & _ & He). rewrite He.
  unfold methodTemplate, serviceTemplate. rewrite Hown, Hnone.
  rewrite (default_template_resolved_for _ _ Hname).
  rewrite !append_assoc. reflexivity.
Qed.

Lemma default_message_names_service_and_method_witness :
  exists d,
    processService (Some (chat None)) plainName = Ok d
    /\ Forall2 (fun meth m =>
                  MethodData.Skip m = false ->
                  Method.E_InternalMethodErrMessage meth = None ->
                  noPercent (Entity.Name (Method.Self meth)) = true ->
                  MethodData.ErrMessage m =
                    "`Permission Denied. Method: " ++ dquote
                      ++ Entity.Name (Service.Self (chat None)) ++ "."
                      ++ Entity.Name (Method.Self meth) ++ dquote
                      ++ " has been redacted`")
               (Service.Methods (chat None)) (ServiceData.Methods d).
Proof.
  apply (default_message_names_service_and_method (chat None) plainName); reflexivity.
Defined.

(** X19.  In the decision of a service, a method that is not skipped is
    internal exactly when the service or the method carries the internal
    option, and its error message is the template, the method's own when
    it has one and the service's or the default one otherwise, with the
    specifiers applied, between backticks. *)
Theorem method_internal_and_message :
  forall (srv : Service.t) (nameWithAlias : Entity.t -> string),
    serviceValid srv = true ->
    exists d,
      processService (Some srv) nameWithAlias = Ok d
      /\ Forall2 (fun meth m =>
                    MethodData.Skip m = false ->
                    MethodData.Internal m =
                      flag (Service.E_InternalService srv)
                      || flag (Method.E_InternalMethod meth)
                    /\ MethodData.ErrMessage m =
                         "`" ++ applySpecifiers
                                  (match Method.E_InternalMethodErrMessage meth,
                                         Service.E_InternalServiceErrMessage srv with
                                   | Some own, _ => own
                                   | None, Some inherited => inherited
                                   | None, None => defaultErrMsg
                                   end)
                                  (Entity.Name (Method.Self meth))
                                  (Entity.Name (Service.Self srv)) ++ "`")
                 (Service.Methods srv) (ServiceData.Methods d).
Proof.
  intros srv nameWithAlias Hv.
  destruct (processService_Ok srv nameWithAlias Hv) as (methods & Hd & Hm).
  eexists. split; [exact Hd|]. cbn [ServiceData.Methods]. clear Hd.
  induction Hm as [|meth d ms ds Hd1 _ IH]; constructor; [|exact IH].
  intro Hs. apply processMethod_Ok in Hd1 as (_ & _ & _ & Hd1).
  destruct (Hd1 Hs) as (_ & Hi & _ & He). rewrite Hi, He. split; [reflexivity|].
  unfold methodTemplate, serviceTemplate.
  destruct (Method.E_InternalMethodErrMessage meth),
    (Service.E_InternalServiceErrMessage srv); reflexivity.
Qed.

Lemma method_internal_and_message_witness :
  exists d,
    processService (Some (chat None)) plainName = Ok d
    /\ Forall2 (fun meth m =>
                  MethodData.Skip m = false ->
                  MethodData.Internal m =
                    flag (Service.E_InternalService (chat None))
                    || flag (Method.E_InternalMethod meth)
                  /\ MethodData.ErrMessage m =
                       "`" ++ applySpecifiers
                                (match Method.E_InternalMethodErrMessage meth,
                                       Service.E_InternalServiceErrMessage (chat None) with
                                 | Some own, _ => own
                                 | None, Some inherited => inherited
                                 | None, None => defaultErrMsg
                                 end)
                                (Entity.Name (Method.Self meth))
                                (Entity.Name (Service.Self (chat None))) ++ "`")
               (Service.Methods (chat None)) (ServiceData.Methods d).
Proof.
  apply (method_internal_and_message (chat None) plainName); reflexivity.
Defined.

(* ================================================================== *)
(** * Properties of the file level *)
(* ================================================================== *)

Lemma packageNameLoop_later (name : string) (rest : string) :
  forall i, packageNameLoop name (S i) rest = None.
Proof.
  induction rest as [|c rest IH]; intro i; [reflexivity|].
  cbn [packageNameLoop Nat.eqb andb]. apply IH.
Qed.

(** X20.  A package name is accepted exactly when it is not empty and does
    not start with a digit; no character behind the first is looked at. *)
Theorem package_name_accepted_iff :
  forall (name : string),
    validatePackageName name = None <->
    exists c rest, name = String c rest /\ isDigit c = false.
Proof.
  intro name. unfold validatePackageName. destruct name as [|c rest].
  - split; [discriminate | intros (c & rest & H & _); discriminate].
  - cbn [String.eqb packageNameLoop Nat.eqb andb].
    destruct (isDigit c) eqn:Hd.
    + split; [discriminate | intros (c' & rest' & H & Hd')].
      injection H as <- <-. rewrite Hd in Hd'. discriminate.
    + rewrite packageNameLoop_later. split; [|reflexivity].
      intros _. now exists c, rest.
Qed.

(** X21.  An import path is accepted exactly when it holds at least one and
    at most a thousand bytes. *)
Theorem import_path_accepted_iff :
  forall (path : string),
    validateImportPath path = None <->
    (1 <= String.length path <= 1000)%nat.
Proof.
  intro path. unfold validateImportPath. destruct path as [|c rest].
  - cbn. split; [discriminate | lia].
  - cbn [String.eqb]. destruct (Nat.ltb_spec 1000 (String.length (String c rest))) as [H|H].
    + split; [discriminate | lia].
    + split; [intros _; cbn [String.length] in *; lia | reflexivity].
Qed.

(** ** Aliases *)

Lemma append_cancel_l (a b c : string) : a ++ b = a ++ c -> b = c.
Proof.
  induction a as [|x a IH]; cbn [append]; intro H; [exact H|].
  injection H as H. now apply IH.
Qed.

Lemma Itoa_inj (a b : N) : Itoa a = Itoa b -> a = b.
Proof.
  unfold Itoa, fmt_u. intro H.
  assert (Hn : forall n, N.to_uint n <> Decimal.Nil).
  { intros [|p]; [discriminate | apply DecimalPos.Unsigned.to_uint_nonnil]. }
  pose proof (NilZero.usu _ (Hn a)) as Ha. pose proof (NilZero.usu _ (Hn b)) as Hb.
  rewrite H in Ha. rewrite Ha in Hb. injection Hb as Hb.
  now apply DecimalN.Unsigned.to_uint_inj.
Qed.

Lemma hasKey_keys (m : stringMap) (k : string) :
  hasKey m k = true -> In k (keys m).
Proof.
  unfold hasKey, keys. induction m as [|[k' v] m IH]; cbn [lookup map fst];
    [discriminate|].
  destruct (String.eqb_spec k k') as [->|Hne]; [now left | right; now apply IH].
Qed.

(** A search that gives up has found every count of its range taken. *)
Lemma aliasSearch_None (alias2Path : stringMap) (alias : string) (fuel : nat) :
  forall cnt,
    aliasSearch alias2Path alias fuel cnt = None ->
    forall k, (k < fuel)%nat ->
      hasKey alias2Path (alias ++ Itoa (cnt + N.of_nat k)) = true.
Proof.
  induction fuel as [|fuel IH]; intros cnt H k Hk; [lia|].
  cbn [aliasSearch] in H.
  destruct (hasKey alias2Path (alias ++ Itoa cnt)) eqn:Hc; [|discriminate].
  destruct k as [|k].
  - now rewrite N.add_0_r.
  - replace (cnt + N.of_nat (S k))%N with (cnt + 1 + N.of_nat k)%N by lia.
    apply (IH _ H). lia.
Qed.

(** What a search that ends has found. *)
Lemma aliasSearch_Some (alias2Path : stringMap) (alias : string) (fuel : nat) :
  forall cnt c,
    aliasSearch alias2Path alias fuel cnt = Some c ->
    (cnt <= c)%N
    /\ hasKey alias2Path (alias ++ Itoa c) = false
    /\ forall j, (cnt <= j < c)%N -> hasKey alias2Path (alias ++ Itoa j) = true.
Proof.
  induction fuel as [|fuel IH]; intros cnt c H; [discriminate|].
  cbn [aliasSearch] in H.
  destruct (hasKey alias2Path (alias ++ Itoa cnt)) eqn:Hc.
  - destruct (IH _ _ H) as (Hle & Hfree & Htaken). split; [lia|]. split; [exact Hfree|].
    intros j Hj. destruct (N.eq_dec j cnt) as [->|Hne]; [exact Hc|].
    apply Htaken. lia.
  - injection H as <-. split; [lia|]. split; [exact Hc|]. intros j Hj. lia.
Qed.

(** One turn more than the map has pairs is enough: the counts tried are
    that many different keys. *)
Lemma aliasSearch_finds (alias2Path : stringMap) (alias : string) (cnt : N) :
  exists c, aliasSearch alias2Path alias (S (List.length alias2Path)) cnt = Some c.
Proof.
  destruct (aliasSearch alias2Path alias (S (List.length alias2Path)) cnt) as [c|] eqn:H;
    [now exists c|].
  exfalso.
  pose proof (aliasSearch_None _ _ _ _ H) as Htaken.
  set (candidate := fun k : nat => alias ++ Itoa (cnt + N.of_nat k)).
  assert (Hnd : NoDup (map candidate (seq 0 (S (List.length alias2Path))))).
  { apply Injective_map_NoDup; [|apply seq_NoDup].
    intros x y Hxy. unfold candidate in Hxy.
    apply append_cancel_l, Itoa_inj in Hxy. lia. }
  assert (Hincl : incl (map candidate (seq 0 (S (List.length alias2Path))))
                       (keys alias2Path)).
  { intros s Hs. apply in_map_iff in Hs as (k & <- & Hk). apply in_seq in Hk.
    apply hasKey_keys, Htaken. lia. }
  pose proof (NoDup_incl_length Hnd Hincl) as Hlen.
  unfold keys in Hlen. rewrite !length_map, length_seq in Hlen. lia.
Qed.

(** X22.  The search for an alias always ends, and the alias it gives is
    not yet in the map: the package name itself when that is free, and
    otherwise the package name followed by the least count from 1 on for
    which the name so made is free. *)
Theorem resolved_alias_is_fresh :
  forall (alias2Path : stringMap) (alias : string),
    exists alias',
      resolveAlias alias2Path alias = Some alias'
      /\ hasKey alias2Path alias' = false
      /\ (hasKey alias2Path alias = false -> alias' = alias)
      /\ (hasKey alias2Path alias = true ->
          exists cnt,
            (1 <= cnt)%N
            /\ alias' = alias ++ Itoa cnt
            /\ forall j, (1 <= j < cnt)%N -> hasKey alias2Path (alias ++ Itoa j) = true).
Proof.
  intros alias2Path alias. unfold resolveAlias.
  destruct (hasKey alias2Path alias) eqn:Hk.
  - destruct (aliasSearch_finds alias2Path alias 1) as [c Hc]. rewrite Hc.
    destruct (aliasSearch_Some _ _ _ _ _ Hc) as (Hle & Hfree & Htaken).
    exists (alias ++ Itoa c). repeat split; try assumption; try discriminate.
    intros _. now exists c.
  - exists alias. repeat split; try assumption; discriminate.
Qed.

(** ** The two import maps *)

Lemma resolveAlias_Some (alias2Path : stringMap) (alias : string) :
  exists alias',
    resolveAlias alias2Path alias = Some alias'
    /\ hasKey alias2Path alias' = false
    /\ (alias <> "" -> alias' <> "").
Proof.
  unfold resolveAlias. destruct (hasKey alias2Path alias) eqn:Hk.
  - destruct (aliasSearch_finds alias2Path alias 1) as [c Hc]. rewrite Hc.
    destruct (aliasSearch_Some _ _ _ _ _ Hc) as (_ & Hfree & _).
    exists (alias ++ Itoa c). repeat split; [assumption|].
    intros Hne H. destruct alias; [now apply Hne | discriminate].
  - exists alias. split; [reflexivity|]. split; [assumption | auto].
Qed.

Lemma validatePackageName_nonempty (name : string) :
  validatePackageName name = None -> name <> "".
Proof. intros H ->. discriminate. Qed.

(** A turn of the import loop leaves the maps as they are or binds a path
    that is not the file's own and was not bound to an alias that is not
    empty and was not bound. *)
Lemma importStep_cases (self : string) (path2Alias alias2Path : stringMap)
    (imp : option ImportedFile.t) :
  importStep self (path2Alias, alias2Path) imp = (path2Alias, alias2Path)
  \/ exists i alias,
       imp = Some i
       /\ importKept self i = true
       /\ hasKey path2Alias (ImportedFile.ImportPath i) = false
       /\ hasKey alias2Path alias = false
       /\ alias <> ""
       /\ importStep self (path2Alias, alias2Path) imp =
            (assign (ImportedFile.ImportPath i) alias path2Alias,
             assign alias (ImportedFile.ImportPath i) alias2Path).
Proof.
  unfold importStep. destruct imp as [i|]; [|now left].
  destruct (validateImportPath (ImportedFile.ImportPath i)) eqn:Hv; [now left|].
  destruct (String.eqb self (ImportedFile.ImportPath i)) eqn:Hs; [now left|].
  destruct (hasKey path2Alias (ImportedFile.ImportPath i)) eqn:Hp; [now left|].
  destruct (hasUsableTypes i) eqn:Hu; [|now left]. cbn [negb].
  destruct (validatePackageName (ImportedFile.PackageName i)) eqn:Hn; [now left|].
  destruct (resolveAlias_Some alias2Path (ImportedFile.PackageName i))
    as (alias & Hr & Hfree & Hne).
  rewrite Hr. right. exists i, alias.
  split; [reflexivity|]. split; [unfold importKept; now rewrite Hv, Hs, Hu, Hn|].
  split; [assumption|]. split; [assumption|]. split; [|reflexivity].
  apply Hne. now apply validatePackageName_nonempty.
Qed.

(** A property of the two maps that every turn keeps holds at the end of
    the loop. *)
Lemma import_loop_invariant (self : string) (P : stringMap * stringMap -> Prop) :
  (forall maps imp, P maps -> P (importStep self maps imp)) ->
  forall imports maps, P maps -> P (fold_left (importStep self) imports maps).
Proof.
  intros Hstep imports. induction imports as [|imp imports IH]; intros maps HP;
    [exact HP|].
  cbn [fold_left]. apply IH, Hstep, HP.
Qed.

Lemma lookup_assign (k v : string) (m : stringMap) (k' : string) :
  lookup (assign k v m) k' = if String.eqb k' k then Some v else lookup m k'.
Proof. reflexivity. Qed.

Lemma hasKey_false (m : stringMap) (k : string) :
  hasKey m k = false -> lookup m k = None.
Proof. unfold hasKey. destruct (lookup m k); [discriminate | reflexivity]. Qed.

Lemma inverseMaps_assign (path2Alias alias2Path : stringMap) (path alias : string) :
  inverseMaps path2Alias alias2Path ->
  hasKey path2Alias path = false ->
  hasKey alias2Path alias = false ->
  inverseMaps (assign path alias path2Alias) (assign alias path alias2Path).
Proof.
  intros Hinv Hp Ha p a. apply hasKey_false in Hp, Ha. rewrite !lookup_assign.
  destruct (String.eqb_spec p path) as [->|Hpne], (String.eqb_spec a alias) as [->|Hane].
  - split; reflexivity.
  - split; intro H.
    + injection H as <-. now elim Hane.
    + apply Hinv in H. rewrite Hp in H. discriminate.
  - split; intro H.
    + apply Hinv in H. rewrite Ha in H. discriminate.
    + injection H as <-. now elim Hpne.
  - apply Hinv.
Qed.

Lemma inverseMaps_standard : inverseMaps standardPath2Alias standardAlias2Path.
Proof.
  intros path alias. unfold standardPath2Alias, standardAlias2Path. cbn [lookup].
  split; intro H;
    repeat match type of H with
           | (if String.eqb ?x ?y then _ else _) = _ =>
               let E := fresh "E" in
               destruct (String.eqb x y) eqn:E;
                 [apply String.eqb_eq in E; subst x; injection H as <-; reflexivity|]
           end;
    discriminate.
Qed.

Lemma extends_assign (m0 m : stringMap) (k v : string) :
  extends m0 m -> hasKey m k = false -> extends m0 (assign k v m).
Proof.
  intros He Hk k' v' H. apply He in H. rewrite lookup_assign.
  destruct (String.eqb_spec k' k) as [->|]; [|exact H].
  apply hasKey_false in Hk. rewrite Hk in H. discriminate.
Qed.

Lemma importMapsGood_end (self : string) (imports : list (option ImportedFile.t)) :
  importMapsGood self
    (fold_left (importStep self) imports (standardPath2Alias, standardAlias2Path)).
Proof.
  apply import_loop_invariant.
  - intros [p2a a2p] imp Hgood.
    destruct (importStep_cases self p2a a2p imp)
      as [-> | (i & alias & -> & Hkept & Hfp & Hfa & Hnonempty & ->)];
      [exact Hgood|].
    destruct Hgood as (Hinv & Hp & Ha & Hself & Hne). cbn [fst snd] in *.
    split; [|split; [|split; [|split]]]; cbn [fst snd].
    + now apply inverseMaps_assign.
    + now apply extends_assign.
    + now apply extends_assign.
    + rewrite lookup_assign, <- Hself.
      unfold importKept in Hkept.
      destruct (validateImportPath (ImportedFile.ImportPath i)); [discriminate|].
      apply andb_prop in Hkept as [Hkept _]. apply andb_prop in Hkept as [Hkept _].
      apply negb_true_iff in Hkept. now rewrite Hkept.
    + intros k v. rewrite lookup_assign.
      destruct (String.eqb k (ImportedFile.ImportPath i)); [|apply Hne].
      intro H. now injection H as <-.
  - split; [|split; [|split; [|split]]]; cbn [fst snd].
    + apply inverseMaps_standard.
    + intros k v H; exact H.
    + intros k v H; exact H.
    + reflexivity.
    + intros k v. unfold standardPath2Alias. cbn [lookup].
      repeat match goal with
             | |- (if ?c then _ else _) = _ -> _ => destruct c
             end; intro H; try discriminate; injection H as <-; discriminate.
Qed.

Lemma importPaths_Ok (file : File.t) :
  validateImportPath (File.ImportPath file) = None ->
  importPaths (Some file) =
  Ok (fold_left (importStep (File.ImportPath file)) (File.Imports file)
        (standardPath2Alias, standardAlias2Path)).
Proof. intro H. unfold importPaths. now rewrite H. Qed.

(** X23.  For a file whose own import path is valid, the two maps
    [importPaths] returns are each other's inverse: a path has an alias in
    the first exactly when that alias has the path in the second, so that
    no two paths share an alias. *)
Theorem import_maps_are_inverse :
  forall (file : File.t),
    validateImportPath (File.ImportPath file) = None ->
    exists path2Alias alias2Path,
      importPaths (Some file) = Ok (path2Alias, alias2Path)
      /\ (forall path alias,
            lookup path2Alias path = Some alias <-> lookup alias2Path alias = Some path)
      /\ (forall path path' alias,
            lookup path2Alias path = Some alias ->
            lookup path2Alias path' = Some alias ->
            path = path').
Proof.
  intros file Hself. rewrite (importPaths_Ok file Hself).
  pose proof (importMapsGood_end (File.ImportPath file) (File.Imports file)) as Hgood.
  destruct (fold_left _ _ _) as [p2a a2p]. destruct Hgood as (Hinv & _).
  cbn [fst snd] in Hinv. exists p2a, a2p. split; [reflexivity|]. split; [exact Hinv|].
  intros path path' alias H H'. apply Hinv in H, H'. congruence.
Qed.

Lemma import_maps_are_inverse_witness :
  exists path2Alias alias2Path,
    importPaths (Some (userFile None)) = Ok (path2Alias, alias2Path)
    /\ (forall path alias,
          lookup path2Alias path = Some alias <-> lookup alias2Path alias = Some path)
    /\ (forall path path' alias,
          lookup path2Alias path = Some alias ->
          lookup path2Alias path' = Some alias ->
          path = path').
Proof. apply (import_maps_are_inverse (userFile None)). reflexivity. Defined.

(** X24.  The five standard imports keep their aliases whatever the file
    imports: an import is never bound over them, and an import whose
    package has the name of one of them gets that name with a count. *)
Theorem standard_imports_keep_alias :
  forall (file : File.t),
    validateImportPath (File.ImportPath file) = None ->
    exists path2Alias alias2Path,
      importPaths (Some file) = Ok (path2Alias, alias2Path)
      /\ forall path alias,
           lookup standardPath2Alias path = Some alias ->
           lookup path2Alias path = Some alias /\ lookup alias2Path alias = Some path.
Proof.
  intros file Hself. rewrite (importPaths_Ok file Hself).
  pose proof (importMapsGood_end (File.ImportPath file) (File.Imports file)) as Hgood.
  destruct (fold_left _ _ _) as [p2a a2p]. destruct Hgood as (Hinv & Hp & _).
  cbn [fst snd] in *. exists p2a, a2p. split; [reflexivity|].
  intros path alias H. apply Hp in H. split; [exact H | now apply Hinv].
Qed.

Lemma standard_imports_keep_alias_witness :
  exists path2Alias alias2Path,
    importPaths (Some (userFile None)) = Ok (path2Alias, alias2Path)
    /\ forall path alias,
         lookup standardPath2Alias path = Some alias ->
         lookup path2Alias path = Some alias /\ lookup alias2Path alias = Some path.
Proof. apply (standard_imports_keep_alias (userFile None)). reflexivity. Defined.

(** The maps of the sample file: the package named codes comes second to
    the standard alias and is bound as codes1; the nil import and the
    import without types leave no trace. *)
Example user_file_imports :
  importPaths (Some (userFile None)) =
  Ok (("example.com/billing/codes", "codes1")
        :: ("google.golang.org/protobuf/types/known/emptypb", "emptypb")
        :: standardPath2Alias,
      ("codes1", "example.com/billing/codes")
        :: ("emptypb", "google.golang.org/protobuf/types/known/emptypb")
        :: standardAlias2Path).
Proof. reflexivity. Qed.

(** ** Qualified names *)

Lemma hasKey_assign (k v : string) (m : stringMap) (k' : string) :
  hasKey (assign k v m) k' = String.eqb k' k || hasKey m k'.
Proof. unfold hasKey. rewrite lookup_assign. now destruct (String.eqb k' k). Qed.

Lemma importStep_keeps_keys (self : string) (maps : stringMap * stringMap)
    (imp : option ImportedFile.t) (k : string) :
  hasKey (fst maps) k = true -> hasKey (fst (importStep self maps imp)) k = true.
Proof.
  destruct maps as [p2a a2p]. intro H.
  destruct (importStep_cases self p2a a2p imp) as [-> | (i & alias & _ & _ & _ & _ & _ & ->)];
    [exact H|].
  cbn [fst] in *. rewrite hasKey_assign, H. apply orb_true_r.
Qed.

Lemma importStep_binds (self : string) (maps : stringMap * stringMap)
    (i : ImportedFile.t) :
  importKept self i = true ->
  hasKey (fst (importStep self maps (Some i))) (ImportedFile.ImportPath i) = true.
Proof.
  destruct maps as [p2a a2p]. unfold importKept, importStep.
  destruct (validateImportPath (ImportedFile.ImportPath i)); [discriminate|].
  destruct (String.eqb self (ImportedFile.ImportPath i)); [discriminate|].
  destruct (hasUsableTypes i); [|discriminate]. cbn [negb andb].
  destruct (validatePackageName (ImportedFile.PackageName i)); [discriminate|].
  intros _. destruct (hasKey p2a (ImportedFile.ImportPath i)) eqn:Hk; [exact Hk|].
  destruct (resolveAlias_Some a2p (ImportedFile.PackageName i)) as (alias & -> & _).
  cbn [fst]. rewrite hasKey_assign, String.eqb_refl. reflexivity.
Qed.

Lemma import_loop_binds (self : string) (i : ImportedFile.t)
    (imports : list (option ImportedFile.t)) :
  importKept self i = true ->
  In (Some i) imports ->
  forall maps,
    hasKey (fst (fold_left (importStep self) imports maps)) (ImportedFile.ImportPath i)
    = true.
Proof.
  intros Hkept. induction imports as [|imp imports IH]; intros Hin maps; [destruct Hin|].
  cbn [fold_left]. destruct Hin as [-> | Hin]; [|now apply IH].
  apply (import_loop_invariant self
           (fun maps => hasKey (fst maps) (ImportedFile.ImportPath i) = true)).
  - intros maps' imp' H. now apply importStep_keeps_keys.
  - now apply importStep_binds.
Qed.

(** X25.  For a file whose own import path is valid and is not one of the
    five standard paths, the name of an entity of the file's own package is
    left without alias. *)
Theorem own_package_is_not_qualified :
  forall (file : File.t),
    validateImportPath (File.ImportPath file) = None ->
    lookup standardPath2Alias (File.ImportPath file) = None ->
    exists path2Alias alias2Path,
      importPaths (Some file) = Ok (path2Alias, alias2Path)
      /\ forall e,
           Entity.ImportPath e = File.ImportPath file ->
           nameWithAliasOf path2Alias e = Entity.Name e.
Proof.
  intros file Hself Hstd. rewrite (importPaths_Ok file Hself).
  pose proof (importMapsGood_end (File.ImportPath file) (File.Imports file)) as Hgood.
  destruct (fold_left _ _ _) as [p2a a2p]. destruct Hgood as (_ & _ & _ & Hs & _).
  cbn [fst snd] in *. exists p2a, a2p. split; [reflexivity|].
  intros e He. unfold nameWithAliasOf, valueAt. rewrite He, Hs, Hstd. reflexivity.
Qed.

Lemma own_package_is_not_qualified_witness :
  exists path2Alias alias2Path,
    importPaths (Some (userFile None)) = Ok (path2Alias, alias2Path)
    /\ forall e,
         Entity.ImportPath e = File.ImportPath (userFile None) ->
         nameWithAliasOf path2Alias e = Entity.Name e.
Proof. apply (own_package_is_not_qualified (userFile None)); reflexivity. Defined.

(** X26.  Every import of the file that passes the filters (a valid path
    other than the file's own, some message, enum or service, a valid
    package name) has an alias that is not empty, and the name of an entity
    of that import is the alias, a dot and the entity's name. *)
Theorem imported_entity_is_qualified :
  forall (file : File.t) (imp : ImportedFile.t),
    validateImportPath (File.ImportPath file) = None ->
    In (Some imp) (File.Imports file) ->
    importKept (File.ImportPath file) imp = true ->
    exists path2Alias alias2Path alias,
      importPaths (Some file) = Ok (path2Alias, alias2Path)
      /\ lookup path2Alias (ImportedFile.ImportPath imp) = Some alias
      /\ alias <> ""
      /\ forall e,
           Entity.ImportPath e = ImportedFile.ImportPath imp ->
           nameWithAliasOf path2Alias e = alias ++ "." ++ Entity.Name e.
Proof.
  intros file imp Hself Hin Hkept. rewrite (importPaths_Ok file Hself).
  pose proof (importMapsGood_end (File.ImportPath file) (File.Imports file)) as Hgood.
  pose proof (import_loop_binds _ _ _ Hkept Hin (standardPath2Alias, standardAlias2Path))
    as Hkey.
  destruct (fold_left _ _ _) as [p2a a2p]. destruct Hgood as (_ & _ & _ & _ & Hne).
  cbn [fst snd] in *. unfold hasKey in Hkey.
  destruct (lookup p2a (ImportedFile.ImportPath imp)) as [alias|] eqn:Hl; [|discriminate].
  exists p2a, a2p, alias. split; [reflexivity|]. split; [exact Hl|].
  pose proof (Hne _ _ Hl) as Hnonempty. split; [exact Hnonempty|].
  intros e He. unfold nameWithAliasOf, valueAt, nonEmpty. rewrite He, Hl.
  destruct (String.eqb_spec alias "") as [->|_]; [now elim Hnonempty | reflexivity].
Qed.

Lemma imported_entity_is_qualified_witness :
  exists path2Alias alias2Path alias,
    importPaths (Some (userFile None)) = Ok (path2Alias, alias2Path)
    /\ lookup path2Alias (ImportedFile.ImportPath codesImport) = Some alias
    /\ alias <> ""
    /\ forall e,
         Entity.ImportPath e = ImportedFile.ImportPath codesImport ->
         nameWithAliasOf path2Alias e = alias ++ "." ++ Entity.Name e.
Proof.
  apply (imported_entity_is_qualified (userFile None) codesImport);
    [reflexivity | cbn; tauto | reflexivity].
Defined.

(** ** References *)

Lemma referenceStep_cases (self : string) (nameWithAlias : Entity.t -> string)
    (refs : list string) (imp : option ImportedFile.t) :
  referenceStep self nameWithAlias refs imp = refs
  \/ exists i e,
       imp = Some i
       /\ String.eqb (ImportedFile.ImportPath i) self = false
       /\ In (Some e) (ImportedFile.AllMessages i ++ ImportedFile.AllEnums i
                         ++ ImportedFile.Services i)%list
       /\ referenceStep self nameWithAlias refs imp = (refs ++ [nameWithAlias e])%list.
Proof.
  unfold referenceStep. destruct imp as [i|]; [|now left].
  destruct (String.eqb (ImportedFile.ImportPath i) self) eqn:Hs; [now left|].
  destruct (negb (hasUsableTypes i)); [now left|].
  destruct (ImportedFile.AllMessages i) as [|[m|] ms] eqn:Hm; cbn [List.length Nat.ltb Nat.leb firstEntity].
  - destruct (ImportedFile.AllEnums i) as [|[n|] ns] eqn:Hn;
      cbn [List.length Nat.ltb Nat.leb firstEntity].
    + destruct (ImportedFile.Services i) as [|[s|] ss] eqn:Hsv;
        cbn [List.length Nat.ltb Nat.leb firstEntity]; try (now left).
      right. exists i, s. rewrite Hm, Hn, Hsv. repeat split; try assumption.
      cbn. now left.
    + right. exists i, n. rewrite Hm, Hn. repeat split; try assumption. cbn. now left.
    + now left.
  - right. exists i, m. rewrite Hm. repeat split; try assumption. cbn. now left.
  - now left.
Qed.

(** X27.  The references of a file start with the five standard ones, and
    each import adds at most one behind them: the qualified name of an
    entity of an import whose path is not the file's own. *)
Theorem references_start_standard :
  forall (file : File.t) (nameWithAlias : Entity.t -> string),
    exists more,
      references (Some file) nameWithAlias = (standardReferences ++ more)%list
      /\ (List.length more <= List.length (File.Imports file))%nat
      /\ Forall (fun r =>
                   exists imp e,
                     In (Some imp) (File.Imports file)
                     /\ String.eqb (ImportedFile.ImportPath imp) (File.ImportPath file) = false
                     /\ In (Some e) (ImportedFile.AllMessages imp
                                       ++ ImportedFile.AllEnums imp
                                       ++ ImportedFile.Services imp)%list
                     /\ r = nameWithAlias e) more.
Proof.
  intros file nameWithAlias. unfold references.
  generalize (File.ImportPath file) as self. intro self.
  assert (H : forall imports refs,
             exists more,
               fold_left (referenceStep self nameWithAlias) imports refs
               = (refs ++ more)%list
               /\ (List.length more <= List.length imports)%nat
               /\ Forall (fun r =>
                            exists imp e,
                              In (Some imp) imports
                              /\ String.eqb (ImportedFile.ImportPath imp) self = false
                              /\ In (Some e) (ImportedFile.AllMessages imp
                                                ++ ImportedFile.AllEnums imp
                                                ++ ImportedFile.Services imp)%list
                              /\ r = nameWithAlias e) more).
  { induction imports as [|imp imports IH]; intro refs.
    - exists []. cbn. rewrite app_nil_r. repeat split; [lia | constructor].
    - cbn [fold_left].
      destruct (IH (referenceStep self nameWithAlias refs imp)) as (more & Hf & Hl & Ha).
      assert (Ha' : Forall (fun r =>
                              exists imp0 e,
                                In (Some imp0) (imp :: imports)
                                /\ String.eqb (ImportedFile.ImportPath imp0) self = false
                                /\ In (Some e) (ImportedFile.AllMessages imp0
                                                  ++ ImportedFile.AllEnums imp0
                                                  ++ ImportedFile.Services imp0)%list
                                /\ r = nameWithAlias e) more).
      { eapply Forall_impl; [|exact Ha]. intros r (i & e & Hi & Hrest).
        exists i, e. split; [now right | exact Hrest]. }
      destruct (referenceStep_cases self nameWithAlias refs imp)
        as [Heq | (i & e & -> & Hs & He & Heq)]; rewrite Heq in Hf |- *.
      + exists more. split; [exact Hf|]. split; [cbn; lia | exact Ha'].
      + exists (nameWithAlias e :: more). rewrite Hf, <- app_assoc. split; [reflexivity|].
        split; [cbn; lia|]. constructor; [|exact Ha'].
        exists i, e. split; [now left|]. repeat split; assumption. }
  apply H.
Qed.

(** The references of the sample file. *)
Example user_file_references :
  references (Some (userFile None))
    (nameWithAliasOf (("example.com/billing/codes", "codes1")
        :: ("google.golang.org/protobuf/types/known/emptypb", "emptypb")
        :: standardPath2Alias)) =
  ["grpc.Server"; "context.Context"; "redact.Redactor"; "codes.Code"; "status.Status";
   "emptypb.Empty"; "codes1.Currency"].
Proof. reflexivity. Qed.

(** ** The per-file driver *)

(** X28.  A file that has a package and carries the file-skip option is
    passed over before anything of it is resolved: nothing is generated and
    nothing fails, whatever its imports, services and messages are. *)
Theorem skipped_file_generates_nothing :
  forall (file : File.t) (package : string),
    File.Package file = Some package ->
    flag (File.E_FileSkip file) = true ->
    Process (Some file) = Ok None.
Proof.
  intros file package Hp Hs. unfold Process, validateFile. rewrite Hp.
  now rewrite Extension_flag, Hs.
Qed.

Lemma skipped_file_generates_nothing_witness :
  Process (Some skippedBrokenFile) = Ok None.
Proof.
  apply (skipped_file_generates_nothing skippedBrokenFile "legacy"); reflexivity.
Defined.

(** X29.  What [Process] hands over for a file: the file's name and package
    name, the alias-to-path map of [importPaths], the references built with
    the names qualified by the path-to-alias map, one service decision per
    service and one message decision per message, in order, the messages
    resolved with their fields. *)
Theorem process_hands_over_every_service_and_message :
  forall (file : File.t) (data : ProtoFileData.t),
    Process (Some file) = Ok (Some data) ->
    flag (File.E_FileSkip file) = false
    /\ ProtoFileData.Source data = File.Name file
    /\ ProtoFileData.Package data = File.PackageName file
    /\ exists path2Alias,
         importPaths (Some file) = Ok (path2Alias, ProtoFileData.Imports data)
         /\ ProtoFileData.References data =
              references (Some file) (nameWithAliasOf path2Alias)
         /\ Forall2 (fun srv d =>
                       processService (Some srv) (nameWithAliasOf path2Alias) = Ok d)
                    (File.Services file) (ProtoFileData.Services data)
         /\ Forall2 (fun msg d =>
                       processMessage (Some msg) (nameWithAliasOf path2Alias) [true] = Ok d)
                    (File.AllMessages file) (ProtoFileData.Messages data).
Proof.
  intros file data. unfold Process.
  destruct (validateFile (Some file)); [discriminate|].
  rewrite Extension_flag. destruct (flag (File.E_FileSkip file)); [discriminate|].
  destruct (importPaths (Some file)) as [[p2a a2p]|]; [|discriminate]. cbn [bind].
  destruct (forEach _ (File.Services file)) as [services|] eqn:Hs; [|discriminate].
  cbn [bind].
  destruct (forEach _ (File.AllMessages file)) as [messages|] eqn:Hm; [|discriminate].
  cbn [bind]. intro H. injection H as <-. cbn.
  split; [reflexivity|]. split; [reflexivity|]. split; [reflexivity|].
  exists p2a. split; [reflexivity|]. split; [reflexivity|].
  split; now apply forEach_Forall2.
Qed.

Lemma process_hands_over_every_service_and_message_witness :
  flag (File.E_FileSkip (userFile None)) = false
  /\ ProtoFileData.Source userFileData = File.Name (userFile None)
  /\ ProtoFileData.Package userFileData = File.PackageName (userFile None)
  /\ exists path2Alias,
       importPaths (Some (userFile None)) = Ok (path2Alias, ProtoFileData.Imports userFileData)
       /\ ProtoFileData.References userFileData =
            references (Some (userFile None)) (nameWithAliasOf path2Alias)
       /\ Forall2 (fun srv d =>
                     processService (Some srv) (nameWithAliasOf path2Alias) = Ok d)
                  (File.Services (userFile None)) (ProtoFileData.Services userFileData)
       /\ Forall2 (fun msg d =>
                     processMessage (Some msg) (nameWithAliasOf path2Alias) [true] = Ok d)
                  (File.AllMessages (userFile None)) (ProtoFileData.Messages userFileData).
Proof.
  apply (process_hands_over_every_service_and_message (userFile None) userFileData).
  reflexivity.
Defined.
